(** * nestjs-sqs: the queue binding and lifecycle registry

    A shallow embedding of [SqsService] (src/lib/sqs.service.ts) and the
    properties of its registry construction, lifecycle passes and
    control-plane operations.

    The service owns two insertion-ordered [Map]s and talks to
    collaborators that live outside the repository: sqs-consumer,
    sqs-producer, the AWS client, the logger and the discovery service.
    They are kept abstract.  Their types are the fields of [Externals],
    what they answer is the fields of [Behaviour], what the discovery
    service found is an argument of [onModuleInit], and every call the
    service makes on one of them is appended to a log of [Call]s, so
    that "was called", "was called before" and "was called with" are
    statements about that log.  A [throw] leaves the mutations made so
    far in place, as in JavaScript.

    The definitions named after the [async] methods are the bodies of
    these methods, with their [await]s run in sequence: in a body, a
    [Throw] is the exception that leaves it.  What the caller of such a
    method receives is [async] of the body: a promise, fulfilled or
    rejected, and never an exception. *)

From Stdlib Require Import String Ascii List Bool ZArith Lia DecimalString.
Import ListNotations.
Local Open Scope string_scope.
Local Open Scope list_scope.

(* ================================================================== *)
(** ** JavaScript values, objects and Maps *)

(** The values a message body or a backend answer can take.  Numbers are
    restricted to integers. *)
#[local] Set Warnings "-register-all".
Inductive JsValue : Type :=
| JUndefined
| JNull
| JBool (b : bool)
| JNumber (z : Z)
| JString (s : string)
| JArray (items : list JsValue)
| JObject (fields : list (string * JsValue)).

(** A plain object: its own enumerable properties, in creation order. *)
Definition JsObject : Type := list (string * JsValue).

(** [typeof v === 'string'] *)
Definition typeof_string (v : JsValue) : bool :=
  match v with JString _ => true | _ => false end.

(** [o[k]]: the property's value, [undefined] when [o] has no such
    property. *)
Fixpoint obj_get (k : string) (o : JsObject) : JsValue :=
  match o with
  | [] => JUndefined
  | (k', v) :: rest => if k' =? k then v else obj_get k rest
  end.

(** [o] has an own property [k]. *)
Fixpoint obj_has (k : string) (o : JsObject) : bool :=
  match o with
  | [] => false
  | (k', _) :: rest => if k' =? k then true else obj_has k rest
  end.

(** [{ ...o, k: v }]: the properties of [o] are copied in order; [k]
    keeps its place when [o] already has it and is added last
    otherwise. *)
Fixpoint obj_set (k : string) (v : JsValue) (o : JsObject) : JsObject :=
  match o with
  | [] => [(k, v)]
  | (k', v') :: rest =>
      if k' =? k then (k', v) :: rest else (k', v') :: obj_set k v rest
  end.

Definition QueueName : Type := string.

(** A [Map<QueueName, V>]: the entries in insertion order, at most one
    per key when built with [Map_set]. *)
Definition JsMap (V : Type) : Type := list (QueueName * V).

Section JsMapOps.
Context {V : Type}.

Fixpoint Map_get (k : QueueName) (m : JsMap V) : option V :=
  match m with
  | [] => None
  | (k', v) :: rest => if k' =? k then Some v else Map_get k rest
  end.

Definition Map_has (k : QueueName) (m : JsMap V) : bool :=
  match Map_get k m with Some _ => true | None => false end.

(** [m.set(k, v)]: an existing key keeps its position, a new key goes
    last. *)
Fixpoint Map_set (k : QueueName) (v : V) (m : JsMap V) : JsMap V :=
  match m with
  | [] => [(k, v)]
  | (k', v') :: rest =>
      if k' =? k then (k', v) :: rest else (k', v') :: Map_set k v rest
  end.

(** [m.values()], in insertion order. *)
Definition Map_values (m : JsMap V) : list V := map snd m.
End JsMapOps.

(* ================================================================== *)
(** ** Exceptions and the state-and-exception monad *)

Inductive Exn : Type :=
| Error (message : string)
| TypeError (message : string).

Inductive Completion (A : Type) : Type :=
| Normal (a : A)
| Throw (e : Exn).
Arguments Normal {A} a.
Arguments Throw {A} e.

(** [v.k] on a value: a [TypeError] on [undefined] and [null], the
    property on an object, [undefined] on the other values of the
    fragment, none of which has a property read by the service. *)
Definition member (k : string) (v : JsValue) : Completion JsValue :=
  match v with
  | JUndefined =>
      Throw (TypeError ("Cannot read properties of undefined (reading '"
                        ++ k ++ "')"))
  | JNull =>
      Throw (TypeError ("Cannot read properties of null (reading '"
                        ++ k ++ "')"))
  | JObject fields => Normal (obj_get k fields)
  | _ => Normal JUndefined
  end.

(** A computation over a state [S]: it returns the state it leaves
    behind together with a value or the exception it raised. *)
Definition M (S A : Type) : Type := S -> S * Completion A.

Definition ret {S A} (a : A) : M S A := fun s => (s, Normal a).

Definition throw {S A} (e : Exn) : M S A := fun s => (s, Throw e).

Definition mbind {S A B} (m : M S A) (k : A -> M S B) : M S B :=
  fun s =>
    match m s with
    | (s', Normal a) => k a s'
    | (s', Throw e) => (s', Throw e)
    end.

Definition gets {S A} (f : S -> A) : M S A := fun s => (s, Normal (f s)).

Definition modify {S} (f : S -> S) : M S unit := fun s => (f s, Normal tt).

(** The outcome of a call that touches no state of ours. *)
Definition lift {S A} (c : Completion A) : M S A := fun s => (s, c).

(** A promise, once settled. *)
Inductive Promise (A : Type) : Type :=
| Fulfilled (a : A)
| Rejected (e : Exn).
Arguments Fulfilled {A} a.
Arguments Rejected {A} e.

(** [async function () { body }], as its caller sees it: the call
    returns a promise and throws nothing; the promise is fulfilled with
    what the body returns and rejected with what the body throws. *)
Definition async {S A} (body : M S A) : M S (Promise A) :=
  fun s =>
    match body s with
    | (s', Normal a) => (s', Normal (Fulfilled a))
    | (s', Throw e) => (s', Normal (Rejected e))
    end.

Declare Scope js_scope.
Delimit Scope js_scope with js.
Notation "x <- c1 ;; c2" := (mbind c1 (fun x => c2))
  (at level 100, c1 at next level, right associativity) : js_scope.
Notation "c1 ;;; c2" := (mbind c1 (fun _ => c2))
  (at level 100, right associativity) : js_scope.
Local Open Scope js_scope.

(** [l.forEach(f)] and [for (const x of l) f(x)]: the first exception
    ends the loop. *)
Fixpoint forEach {S A} (f : A -> M S unit) (l : list A) : M S unit :=
  match l with
  | [] => ret tt
  | x :: rest => f x ;;; forEach f rest
  end.

(* ================================================================== *)
(** ** The collaborators *)

(** The types the service receives from outside and never inspects. *)
Class Externals : Type := {
  Handler : Type;          (** a discovered method, as a function value *)
  ProviderInstance : Type; (** a provider instance *)
  SQSClient : Type;        (** the transport handle *)
  ConsumerSettings : Type; (** a consumer declaration without [name],
                               [stopOptions] and the two callbacks *)
  ProducerOptions : Type   (** a producer declaration without [name] *)
}.

(** [StopOptions] of sqs-consumer. *)
Record StopOptions : Type := { abort : option bool }.

(** The backend commands the service builds. *)
Inductive Command : Type :=
| PurgeQueueCommand (QueueUrl : string)
| GetQueueAttributesCommand (QueueUrl : string) (AttributeNames : list string)
| ChangeMessageVisibilityCommand
    (QueueUrl : string) (ReceiptHandle : string) (VisibilityTimeout : Z)
| DeleteMessageCommand (QueueUrl : string) (ReceiptHandle : string)
| DeleteMessageBatchCommand
    (QueueUrl : string) (Entries : list (option string * option string)).

(** A received message, as far as [deleteMessageBatch] reads it. *)
Record SqsMessage : Type := {
  MessageId : option string;
  ReceiptHandle : option string
}.

Section Types.
Context {E : Externals}.

(** [f.bind(thisArg)] *)
Record BoundFunction : Type := Function_bind {
  targetFunction : Handler;
  boundThis : ProviderInstance
}.

Record SqsMessageHandlerMeta : Type := {
  mh_name : QueueName;
  mh_batch : option bool
}.

Record SqsConsumerEventHandlerMeta : Type := {
  eh_name : QueueName;
  eh_eventName : string
}.

Record DiscoveredClass : Type := { dc_instance : ProviderInstance }.

Record DiscoveredMethod : Type := {
  handler : Handler;
  parentClass : DiscoveredClass
}.

Record DiscoveredMethodWithMeta (T : Type) : Type := {
  meta : T;
  discoveredMethod : DiscoveredMethod
}.

(** The argument of [Consumer.create]. *)
Record ConsumerOptions : Type := {
  settings : ConsumerSettings;
  handleMessage : option BoundFunction;
  handleMessageBatch : option BoundFunction
}.

(** A poller: what it was created from and the listeners added to it
    since, oldest first. *)
Record Consumer : Type := {
  createdWith : ConsumerOptions;
  listeners : list (string * BoundFunction)
}.

(** A sender: what it was created from. *)
Record Producer : Type := { producerOptions : ProducerOptions }.

(** One entry of [options.consumers]. *)
Record SqsConsumerOptions : Type := {
  c_name : QueueName;
  c_stopOptions : option StopOptions;
  c_consumerOptions : ConsumerSettings
}.

(** One entry of [options.producers]. *)
Record SqsProducerOptions : Type := {
  p_name : QueueName;
  p_producerOptions : ProducerOptions
}.

(** The module options.  The [logger] option is left out: whichever
    logger [onModuleInit] picks, its [warn] is a [logger_warn_call]. *)
Record SqsOptions : Type := {
  opt_consumers : option (list SqsConsumerOptions);
  opt_producers : option (list SqsProducerOptions);
  opt_globalStopOptions : option StopOptions
}.

Record SqsConsumerMapValues : Type := {
  instance : Consumer;
  stopOptions : StopOptions
}.

(** What the discovery service answers to the two queries of
    [onModuleInit]. *)
Record Discovery : Type := {
  messageHandlers : list (DiscoveredMethodWithMeta SqsMessageHandlerMeta);
  eventHandlers : list (DiscoveredMethodWithMeta SqsConsumerEventHandlerMeta)
}.

(** A call made on a collaborator. *)
Inductive Call : Type :=
| Consumer_create_call (options : ConsumerOptions)
| Producer_create_call (options : ProducerOptions)
| logger_warn_call (message : string)
| start_call (c : Consumer)
| stop_call (c : Consumer) (options : StopOptions)
| sqs_send_call (client : SQSClient) (command : Command)
| producer_send_call (p : Producer) (messages : list JsObject)
| queueSize_call (p : Producer).

(** The service: its two maps, and the log of the calls it has made,
    oldest first. *)
Record SqsService : Type := {
  consumers : JsMap SqsConsumerMapValues;
  producers : JsMap Producer;
  calls : list Call
}.

(** [new SqsService(options, discover)] *)
Definition new_SqsService : SqsService :=
  {| consumers := []; producers := []; calls := [] |}.
End Types.

Arguments meta {E T} _.
Arguments discoveredMethod {E T} _.

(** What the collaborators answer.  [Consumer_create_throws] and
    [Producer_create_throws] give the exception with which a factory
    rejects its argument, if it does; [Consumer_start] and
    [Consumer_stop] give the exception the call raises, if any; the two
    [send]s give the outcome of the promise they return.  The last two
    fields are the part of the factories' contract the service relies
    on: an instance a factory returns exposes a client (the one of its
    options, or one the library makes). *)
Class Behaviour {E : Externals} : Type := {
  JSON_stringify : JsValue -> JsValue;
  Consumer_create_throws : ConsumerOptions -> option Exn;
  Producer_create_throws : ProducerOptions -> option Exn;
  Consumer_sqs : Consumer -> option SQSClient;
  Consumer_queueUrl : Consumer -> string;
  Consumer_start : Consumer -> option Exn;
  Consumer_stop : Consumer -> StopOptions -> option Exn;
  Producer_sqs : Producer -> option SQSClient;
  Producer_queueUrl : Producer -> string;
  Producer_queueSize : Producer -> Z;
  Producer_send : Producer -> list JsObject -> Completion JsValue;
  SQSClient_send : SQSClient -> Command -> Completion JsValue;
  Consumer_created_with_client :
    forall options ls,
      Consumer_create_throws options = None ->
      Consumer_sqs {| createdWith := options; listeners := ls |} <> None;
  Producer_created_with_client :
    forall options,
      Producer_create_throws options = None ->
      Producer_sqs {| producerOptions := options |} <> None
}.

(* ================================================================== *)
(** ** The service *)

Section Service.
Context {E : Externals} {B : Behaviour}.

Definition Js : Type -> Type := M SqsService.

(** Append a call to the log. *)
Definition call (c : Call) : Js unit :=
  modify (fun s =>
    {| consumers := consumers s;
       producers := producers s;
       calls := calls s ++ [c] |}).

(** [this.consumers.set(name, v)] *)
Definition consumers_set (name : QueueName) (v : SqsConsumerMapValues)
  : Js unit :=
  modify (fun s =>
    {| consumers := Map_set name v (consumers s);
       producers := producers s;
       calls := calls s |}).

(** [this.producers.set(name, p)] *)
Definition producers_set (name : QueueName) (p : Producer) : Js unit :=
  modify (fun s =>
    {| consumers := consumers s;
       producers := Map_set name p (producers s);
       calls := calls s |}).

(** [Consumer.create(options)]: the factory checks its options and
    throws on those it rejects. *)
Definition Consumer_create (options : ConsumerOptions) : Js Consumer :=
  call (Consumer_create_call options) ;;;
  match Consumer_create_throws options with
  | Some e => throw e
  | None => ret {| createdWith := options; listeners := [] |}
  end.

(** [Producer.create(options)]: the factory checks its options and
    throws on those it rejects. *)
Definition Producer_create (options : ProducerOptions) : Js Producer :=
  call (Producer_create_call options) ;;;
  match Producer_create_throws options with
  | Some e => throw e
  | None => ret {| producerOptions := options |}
  end.

(** [consumer.addListener(eventName, listener)] *)
Definition addListener (eventName : string) (listener : BoundFunction)
  (c : Consumer) : Consumer :=
  {| createdWith := createdWith c;
     listeners := listeners c ++ [(eventName, listener)] |}.

(** [consumer.start()] *)
Definition start (c : Consumer) : Js unit :=
  call (start_call c) ;;;
  match Consumer_start c with
  | Some e => throw e
  | None => ret tt
  end.

(** [consumer.stop(options)] *)
Definition stop (c : Consumer) (options : StopOptions) : Js unit :=
  call (stop_call c options) ;;;
  match Consumer_stop c options with
  | Some e => throw e
  | None => ret tt
  end.

(** [await sqs.send(command)] *)
Definition sqs_send (client : SQSClient) (command : Command) : Js JsValue :=
  call (sqs_send_call client command) ;;;
  lift (SQSClient_send client command).

(** [this.options.globalStopOptions ?? {}], the value [onModuleInit]
    gives to the private field [globalStopOptions] before it reads
    it. *)
Definition globalStopOptions (options : SqsOptions) : StopOptions :=
  match opt_globalStopOptions options with
  | Some o => o
  | None => {| abort := None |}
  end.

(** [messageHandlers.find(({ meta }) => meta.name === name)] *)
Definition find_metadata
  (hs : list (DiscoveredMethodWithMeta SqsMessageHandlerMeta))
  (name : QueueName) : option (DiscoveredMethodWithMeta SqsMessageHandlerMeta) :=
  find (fun h => mh_name (meta h) =? name) hs.

(** [eventHandlers.filter(({ meta }) => meta.name === name)] *)
Definition filter_eventsMetadata
  (hs : list (DiscoveredMethodWithMeta SqsConsumerEventHandlerMeta))
  (name : QueueName) : list (DiscoveredMethodWithMeta SqsConsumerEventHandlerMeta) :=
  filter (fun h => eh_name (meta h) =? name) hs.

(** [metadata.meta.batch === true] *)
Definition isBatchHandler
  (metadata : DiscoveredMethodWithMeta SqsMessageHandlerMeta) : bool :=
  match mh_batch (meta metadata) with
  | Some true => true
  | _ => false
  end.

(** The argument [onModuleInit] builds for [Consumer.create]
    (lines 60-69). *)
Definition consumer_create_options (consumerOptions : ConsumerSettings)
  (metadata : DiscoveredMethodWithMeta SqsMessageHandlerMeta)
  : ConsumerOptions :=
  let bound :=
    Function_bind (handler (discoveredMethod metadata))
      (dc_instance (parentClass (discoveredMethod metadata))) in
  if isBatchHandler metadata
  then {| settings := consumerOptions;
          handleMessage := None;
          handleMessageBatch := Some bound |}
  else {| settings := consumerOptions;
          handleMessage := Some bound;
          handleMessageBatch := None |}.

(** The loop of lines 72-79.  The test [if (eventMetadata)] holds for
    every element, an element of the filtered array being an
    object. *)
Definition attach_listeners
  (eventsMetadata : list (DiscoveredMethodWithMeta SqsConsumerEventHandlerMeta))
  (metadata : DiscoveredMethodWithMeta SqsMessageHandlerMeta)
  (consumer : Consumer) : Consumer :=
  fold_left
    (fun c eventMetadata =>
       addListener (eh_eventName (meta eventMetadata))
         (Function_bind (handler (discoveredMethod eventMetadata))
            (dc_instance (parentClass (discoveredMethod metadata))))
         c)
    eventsMetadata consumer.

(** The callback of [this.options.consumers?.forEach] (lines 47-81). *)
Definition register_consumer (d : Discovery) (gso : StopOptions)
  (options : SqsConsumerOptions) : Js unit :=
  let name := c_name options in
  has <- gets (fun s => Map_has name (consumers s)) ;;
  if has then throw (Error ("Consumer already exists: " ++ name))
  else
    match find_metadata (messageHandlers d) name with
    | None => call (logger_warn_call ("No metadata found for: " ++ name))
    | Some metadata =>
        consumer <-
          Consumer_create
            (consumer_create_options (c_consumerOptions options) metadata) ;;
        let eventsMetadata := filter_eventsMetadata (eventHandlers d) name in
        let consumer := attach_listeners eventsMetadata metadata consumer in
        consumers_set name
          {| instance := consumer;
             stopOptions :=
               match c_stopOptions options with
               | Some o => o
               | None => gso
               end |}
    end.

(** The callback of [this.options.producers?.forEach] (lines 83-91). *)
Definition register_producer (options : SqsProducerOptions) : Js unit :=
  let name := p_name options in
  has <- gets (fun s => Map_has name (producers s)) ;;
  if has then throw (Error ("Producer already exists: " ++ name))
  else
    producer <- Producer_create (p_producerOptions options) ;;
    producers_set name producer.

(** [xs?.forEach(f)] *)
Definition optional_forEach {A} (f : A -> Js unit) (xs : option (list A))
  : Js unit :=
  match xs with
  | Some l => forEach f l
  | None => ret tt
  end.

(** Lines 47-91: the two registration passes. *)
Definition build_registry (options : SqsOptions) (d : Discovery) : Js unit :=
  optional_forEach (register_consumer d (globalStopOptions options))
    (opt_consumers options) ;;;
  optional_forEach register_producer (opt_producers options).

(** Lines 93-95: the start pass. *)
Definition start_consumers : Js unit :=
  vs <- gets (fun s => Map_values (consumers s)) ;;
  forEach (fun consumer => start (instance consumer)) vs.

Definition onModuleInit (options : SqsOptions) (d : Discovery) : Js unit :=
  build_registry options d ;;;
  start_consumers.

Definition onModuleDestroy : Js unit :=
  vs <- gets (fun s => Map_values (consumers s)) ;;
  forEach (fun consumer => stop (instance consumer) (stopOptions consumer)) vs.

(** The object [getQueueInfo] and the three message operations read
    [sqs] and [queueUrl] from:
    [this.consumers.get(name)?.instance ?? this.producers.get(name)]. *)
Definition consumer_or_producer (name : QueueName) (s : SqsService)
  : option (option SQSClient * string) :=
  match Map_get name (consumers s) with
  | Some v => Some (Consumer_sqs (instance v), Consumer_queueUrl (instance v))
  | None =>
      match Map_get name (producers s) with
      | Some p => Some (Producer_sqs p, Producer_queueUrl p)
      | None => None
      end
  end.

Definition getQueueInfo (name : QueueName) : Js (SQSClient * string) :=
  known <- gets (fun s => Map_has name (consumers s) || Map_has name (producers s)) ;;
  if negb known
  then throw (Error ("Consumer/Producer does not exist: " ++ name))
  else
    found <- gets (consumer_or_producer name) ;;
    match found with
    | None => throw (TypeError "Cannot destructure property 'sqs' of undefined")
    | Some (None, _) => throw (Error "SQS instance does not exist")
    | Some (Some sqs, queueUrl) => ret (sqs, queueUrl)
    end.

Definition purgeQueue (name : QueueName) : Js JsValue :=
  info <- getQueueInfo name ;;
  let '(sqs, queueUrl) := info in
  sqs_send sqs (PurgeQueueCommand queueUrl).

Definition getQueueAttributes (name : QueueName) : Js JsValue :=
  info <- getQueueInfo name ;;
  let '(sqs, queueUrl) := info in
  response <- sqs_send sqs (GetQueueAttributesCommand queueUrl ["All"]) ;;
  lift (member "Attributes" response).

Definition getProducerQueueSize (name : QueueName) : Js Z :=
  has <- gets (fun s => Map_has name (producers s)) ;;
  if negb has then throw (Error ("Producer does not exist: " ++ name))
  else
    p <- gets (fun s => Map_get name (producers s)) ;;
    match p with
    | None =>
        throw (TypeError "Cannot read properties of undefined (reading 'queueSize')")
    | Some producer =>
        call (queueSize_call producer) ;;;
        ret (Producer_queueSize producer)
    end.

(** [Message<T> | Message<T>[]] *)
Inductive Payload : Type :=
| one_message (message : JsObject)
| message_array (messages : list JsObject).

(** [Array.isArray(payload) ? payload : [payload]] *)
Definition originalMessages (payload : Payload) : list JsObject :=
  match payload with
  | one_message message => [message]
  | message_array messages => messages
  end.

(** The callback of [originalMessages.map] (lines 155-165). *)
Definition wire_message (message : JsObject) : JsObject :=
  let body := obj_get "body" message in
  let body := if negb (typeof_string body) then JSON_stringify body else body in
  obj_set "body" body message.

Definition send (name : QueueName) (payload : Payload) : Js JsValue :=
  has <- gets (fun s => Map_has name (producers s)) ;;
  if negb has then throw (Error ("Producer does not exist: " ++ name))
  else
    let messages := map wire_message (originalMessages payload) in
    p <- gets (fun s => Map_get name (producers s)) ;;
    match p with
    | None => throw (TypeError "Cannot read properties of undefined (reading 'send')")
    | Some producer =>
        call (producer_send_call producer messages) ;;;
        lift (Producer_send producer messages)
    end.

(** The head shared by [changeMessageVisibility], [deleteMessage] and
    [deleteMessageBatch]: the existence test on the consumer map, the
    lookup, the command built from the queue address, and
    [await sqs.send(command)]. *)
Definition on_consumer (name : QueueName) (command : string -> Command)
  : Js JsValue :=
  has <- gets (fun s => Map_has name (consumers s)) ;;
  if negb has then throw (Error ("Consumer does not exist: " ++ name))
  else
    found <- gets (consumer_or_producer name) ;;
    match found with
    | None => throw (TypeError "Cannot destructure property 'sqs' of undefined")
    | Some (None, _) =>
        throw (TypeError "Cannot read properties of undefined (reading 'send')")
    | Some (Some sqs, queueUrl) => sqs_send sqs (command queueUrl)
    end.

Definition changeMessageVisibility (name : QueueName)
  (receiptHandle : string) (visibilityTimeout : Z) : Js JsValue :=
  on_consumer name
    (fun queueUrl =>
       ChangeMessageVisibilityCommand queueUrl receiptHandle visibilityTimeout).

Definition deleteMessage (name : QueueName) (receiptHandle : string)
  : Js JsValue :=
  on_consumer name (fun queueUrl => DeleteMessageCommand queueUrl receiptHandle).

Definition deleteMessageBatch (name : QueueName) (messages : list SqsMessage)
  : Js JsValue :=
  on_consumer name
    (fun queueUrl =>
       DeleteMessageBatchCommand queueUrl
         (map (fun message => (MessageId message, ReceiptHandle message))
            messages)).
End Service.

(* ================================================================== *)
(** ** [JSON.stringify] on the fragment, and a test double *)

Definition double_quote : string := String (ascii_of_nat 34) EmptyString.

Definition backslash : string := String (ascii_of_nat 92) EmptyString.

Local Open Scope string_scope.

Definition hex_digit (n : nat) : string := substring n 1 "0123456789abcdef".

(** One character of [QuoteJSONString]: the two-character escapes, the
    [u00xx] form for the other control characters, the character itself
    otherwise. *)
Definition escape_char (c : ascii) : string :=
  let n := nat_of_ascii c in
  if Nat.eqb n 34 then backslash ++ double_quote
  else if Nat.eqb n 92 then backslash ++ backslash
  else if Nat.eqb n 8 then backslash ++ "b"
  else if Nat.eqb n 9 then backslash ++ "t"
  else if Nat.eqb n 10 then backslash ++ "n"
  else if Nat.eqb n 12 then backslash ++ "f"
  else if Nat.eqb n 13 then backslash ++ "r"
  else if Nat.ltb n 32
       then backslash ++ "u00" ++ hex_digit (n / 16) ++ hex_digit (n mod 16)
  else String c EmptyString.

Fixpoint escape_string (s : string) : string :=
  match s with
  | EmptyString => EmptyString
  | String c rest => escape_char c ++ escape_string rest
  end.

Definition QuoteJSONString (s : string) : string :=
  double_quote ++ escape_string s ++ double_quote.

(** [SerializeJSONProperty]: [None] stands for [undefined].  An
    [undefined] element of an array is written [null], an [undefined]
    property of an object is left out. *)
Fixpoint SerializeJSONProperty (v : JsValue) : option string :=
  match v with
  | JUndefined => None
  | JNull => Some "null"
  | JBool true => Some "true"
  | JBool false => Some "false"
  | JNumber z => Some (NilZero.string_of_int (Z.to_int z))
  | JString s => Some (QuoteJSONString s)
  | JArray items =>
      Some ("[" ++
            String.concat ","
              (map (fun item =>
                      match SerializeJSONProperty item with
                      | Some s => s
                      | None => "null"
                      end) items) ++
            "]")
  | JObject fields =>
      Some ("{" ++
            String.concat ","
              (flat_map (fun kv =>
                           match SerializeJSONProperty (snd kv) with
                           | Some s => [QuoteJSONString (fst kv) ++ ":" ++ s]
                           | None => []
                           end) fields) ++
            "}")
  end.

Local Open Scope list_scope.

(** [JSON.stringify(v)] *)
Definition JSON_stringify_fragment (v : JsValue) : JsValue :=
  match SerializeJSONProperty v with
  | Some s => JString s
  | None => JUndefined
  end.

(** A test double of the collaborators: a factory rejects settings
    without a queue address, and an instance answers what its settings
    say, with a client of the library's when they name none. *)
Record DoubleSettings : Type := {
  td_queueUrl : string;
  td_sqs : option string;
  td_start_error : option Exn;
  td_stop_error : option Exn
}.

#[local] Instance double_externals : Externals := {|
  Handler := string;
  ProviderInstance := string;
  SQSClient := string;
  ConsumerSettings := DoubleSettings;
  ProducerOptions := DoubleSettings
|}.

#[local] Instance double_behaviour : Behaviour := {|
  JSON_stringify := JSON_stringify_fragment;
  Consumer_create_throws := fun o =>
    match td_queueUrl (settings o) with
    | EmptyString => Some (Error "Missing SQS consumer option [ queueUrl ].")
    | _ => None
    end;
  Producer_create_throws := fun o =>
    match td_queueUrl o with
    | EmptyString => Some (Error "Missing SQS producer option [ queueUrl ].")
    | _ => None
    end;
  Consumer_sqs := fun c =>
    Some (match td_sqs (settings (createdWith c)) with
          | Some client => client
          | None => "default-client"
          end);
  Consumer_queueUrl := fun c => td_queueUrl (settings (createdWith c));
  Consumer_start := fun c => td_start_error (settings (createdWith c));
  Consumer_stop := fun c _ => td_stop_error (settings (createdWith c));
  Producer_sqs := fun p =>
    Some (match td_sqs (producerOptions p) with
          | Some client => client
          | None => "default-client"
          end);
  Producer_queueUrl := fun p => td_queueUrl (producerOptions p);
  Producer_queueSize := fun _ => 0%Z;
  Producer_send := fun _ messages => Normal (JArray (map JObject messages));
  SQSClient_send := fun _ _ => Normal (JObject []);
  Consumer_created_with_client :=
    ltac:(intros o ls _ H; cbv beta in H; discriminate H);
  Producer_created_with_client :=
    ltac:(intros o _ H; cbv beta in H; discriminate H)
|}.

(** A queue of the test double, reachable through the client [client]. *)
Definition healthy (url client : string) : DoubleSettings :=
  {| td_queueUrl := url; td_sqs := Some client;
     td_start_error := None; td_stop_error := None |}.

(** A queue of the test double whose poller refuses to stop. *)
Definition stubborn (url client : string) : DoubleSettings :=
  {| td_queueUrl := url; td_sqs := Some client;
     td_start_error := None; td_stop_error := Some (Error "stop failed") |}.

Definition declare (name : QueueName) (settings : DoubleSettings)
  : SqsConsumerOptions :=
  {| c_name := name; c_stopOptions := None; c_consumerOptions := settings |}.

(** Handlers of two providers: [orders] one message at a time,
    [invoices] in batches; a third provider listens to the errors of
    [orders]. *)
Definition td_discovery : Discovery :=
  {| messageHandlers :=
       [ {| meta := {| mh_name := "orders"; mh_batch := None |};
            discoveredMethod :=
              {| handler := "OrdersService.handle";
                 parentClass := {| dc_instance := "ordersService" |} |} |};
         {| meta := {| mh_name := "invoices"; mh_batch := Some true |};
            discoveredMethod :=
              {| handler := "InvoicesService.handleBatch";
                 parentClass := {| dc_instance := "invoicesService" |} |} |} ];
     eventHandlers :=
       [ {| meta := {| eh_name := "orders"; eh_eventName := "error" |};
            discoveredMethod :=
              {| handler := "Monitoring.onError";
                 parentClass := {| dc_instance := "monitoring" |} |} |} ] |}.

Definition orders : SqsConsumerOptions :=
  declare "orders" (healthy "https://sqs/orders" "client-a").

Definition invoices : SqsConsumerOptions :=
  declare "invoices" (healthy "https://sqs/invoices" "client-a").

(** A declaration no handler was discovered for. *)
Definition audit : SqsConsumerOptions :=
  declare "audit" (healthy "https://sqs/audit" "client-a").

Definition orders_out : SqsProducerOptions :=
  {| p_name := "orders";
     p_producerOptions := healthy "https://sqs/orders" "client-b" |}.

Definition td_options (cs : list SqsConsumerOptions) : SqsOptions :=
  {| opt_consumers := Some cs;
     opt_producers := Some [orders_out];
     opt_globalStopOptions := None |}.

(** The service after [onModuleInit] on the declarations [cs]. *)
Definition initialised (cs : list SqsConsumerOptions) : SqsService :=
  fst (onModuleInit (td_options cs) td_discovery new_SqsService).

(** [orders] again, with a poller that refuses to stop. *)
Definition stubborn_orders : SqsConsumerOptions :=
  declare "orders" (stubborn "https://sqs/orders" "client-a").

(** The poller [onModuleInit] builds for [orders]: the handler of
    [ordersService] as its single-message callback, and the error
    handler of [monitoring] as a listener bound to [ordersService]. *)
Definition orders_poller : Consumer :=
  {| createdWith :=
       {| settings := c_consumerOptions orders;
          handleMessage :=
            Some (Function_bind "OrdersService.handle" "ordersService");
          handleMessageBatch := None |};
     listeners := [("error", Function_bind "Monitoring.onError" "ordersService")] |}.

(** The poller [onModuleInit] builds for [invoices]. *)
Definition invoices_poller : Consumer :=
  {| createdWith :=
       {| settings := c_consumerOptions invoices;
          handleMessage := None;
          handleMessageBatch :=
            Some (Function_bind "InvoicesService.handleBatch" "invoicesService") |};
     listeners := [] |}.

(** A message with a structured body and one with a string body. *)
Definition structured_message : JsObject :=
  [("id", JString "1"); ("body", JObject [("a", JNumber 1)])].

Definition string_message : JsObject :=
  [("id", JString "2"); ("body", JString "already-a-string")].

(** [orders] again, without a queue address: the factory rejects it. *)
Definition unaddressed_orders : SqsConsumerOptions :=
  declare "orders" (healthy EmptyString "client-a").

(** The producer [onModuleInit] builds for [orders_out]. *)
Definition orders_sender : Producer :=
  {| producerOptions := p_producerOptions orders_out |}.

(** The service in which [orders] has both roles, with the client
    [client-a] as a consumer and [client-b] as a producer. *)
Definition orders_in_both_roles : SqsService := initialised [orders].

(** The service in which [invoices] is a consumer only and [orders] a
    producer only. *)
Definition one_role_each : SqsService := initialised [invoices].

(** A queue of the test double whose poller refuses to start. *)
Definition reluctant (url client : string) : DoubleSettings :=
  {| td_queueUrl := url; td_sqs := Some client;
     td_start_error := Some (Error "start failed"); td_stop_error := None |}.

(** [orders] again, with a poller that refuses to start. *)
Definition reluctant_orders : SqsConsumerOptions :=
  declare "orders" (reluctant "https://sqs/orders" "client-a").

(** [orders] again, with stop options of its own. *)
Definition aborting_orders : SqsConsumerOptions :=
  {| c_name := "orders";
     c_stopOptions := Some {| abort := Some true |};
     c_consumerOptions := healthy "https://sqs/orders" "client-a" |}.

(** A second producer declaration. *)
Definition invoices_out : SqsProducerOptions :=
  {| p_name := "invoices";
     p_producerOptions := healthy "https://sqs/invoices" "client-b" |}.

(** A configuration with chosen producer declarations. *)
Definition td_options_with (cs : list SqsConsumerOptions)
  (ps : list SqsProducerOptions) : SqsOptions :=
  {| opt_consumers := Some cs;
     opt_producers := Some ps;
     opt_globalStopOptions := None |}.

(** Closes [NoDup] of a list of distinct literal names. *)
Ltac distinct_names :=
  cbv;
  repeat constructor;
  let H := fresh in
  intros H; repeat (destruct H as [H|H]; [discriminate H|]); exact H.

(* ================================================================== *)
(** ** What the passes leave behind *)

Section Descriptions.
Context {E : Externals} {B : Behaviour}.

(** The state with its log replaced. *)
Definition with_calls (cs : list Call) (s : SqsService) : SqsService :=
  {| consumers := consumers s; producers := producers s; calls := cs |}.

(** The state with one more call in its log. *)
Definition logged (c : Call) (s : SqsService) : SqsService :=
  with_calls (calls s ++ [c]) s.

(** The consumer declarations of a configuration. *)
Definition declared_consumers (options : SqsOptions) : list SqsConsumerOptions :=
  match opt_consumers options with
  | Some l => l
  | None => []
  end.

(** The producer declarations of a configuration. *)
Definition declared_producers (options : SqsOptions) : list SqsProducerOptions :=
  match opt_producers options with
  | Some l => l
  | None => []
  end.

(** The map entry [register_consumer] stores for a declaration whose
    message handler is [metadata]. *)
Definition new_entry (d : Discovery) (gso : StopOptions)
  (options : SqsConsumerOptions)
  (metadata : DiscoveredMethodWithMeta SqsMessageHandlerMeta)
  : SqsConsumerMapValues :=
  {| instance :=
       attach_listeners
         (filter_eventsMetadata (eventHandlers d) (c_name options)) metadata
         {| createdWith :=
              consumer_create_options (c_consumerOptions options) metadata;
            listeners := [] |};
     stopOptions :=
       match c_stopOptions options with
       | Some o => o
       | None => gso
       end |}.

(** The entries a run of declarations adds to the consumer map when none
    of them is rejected. *)
Definition registered (d : Discovery) (gso : StopOptions)
  (l : list SqsConsumerOptions) : JsMap SqsConsumerMapValues :=
  flat_map
    (fun o =>
       match find_metadata (messageHandlers d) (c_name o) with
       | Some metadata => [(c_name o, new_entry d gso o metadata)]
       | None => []
       end) l.

(** The call a declaration gives rise to when it is not rejected. *)
Definition declaration_call (d : Discovery) (o : SqsConsumerOptions) : Call :=
  match find_metadata (messageHandlers d) (c_name o) with
  | Some metadata =>
      Consumer_create_call
        (consumer_create_options (c_consumerOptions o) metadata)
  | None => logger_warn_call ("No metadata found for: " ++ c_name o)
  end.

(** The elements a loop visits when [fails] tells which visit raises:
    all of them up to and including the first that raises, and how the
    loop ends. *)
Fixpoint visited {A} (fails : A -> option Exn) (l : list A)
  : list A * Completion unit :=
  match l with
  | [] => ([], Normal tt)
  | x :: rest =>
      match fails x with
      | Some e => ([x], Throw e)
      | None => let (xs, r) := visited fails rest in (x :: xs, r)
      end
  end.

Definition is_start_call (c : Call) : bool :=
  match c with start_call _ => true | _ => false end.

Definition is_stop_call (c : Call) : bool :=
  match c with stop_call _ _ => true | _ => false end.

(** The relation [send] establishes between a message and the message
    it hands to the producer. *)
Definition wire_of (message dispatched : JsObject) : Prop :=
  (forall text,
     obj_get "body" message = JString text ->
     obj_get "body" dispatched = JString text) /\
  ((forall text, obj_get "body" message <> JString text) ->
   obj_get "body" dispatched = JSON_stringify (obj_get "body" message)) /\
  forall k, k <> "body" ->
    obj_get k dispatched = obj_get k message /\
    obj_has k dispatched = obj_has k message.

(** The exception with which [Consumer.create] rejects the poller of a
    declaration, if the declaration has a handler and the factory
    rejects it. *)
Definition rejection (d : Discovery) (o : SqsConsumerOptions) : option Exn :=
  match find_metadata (messageHandlers d) (c_name o) with
  | Some metadata =>
      Consumer_create_throws
        (consumer_create_options (c_consumerOptions o) metadata)
  | None => None
  end.

(** Every stored instance exposes a client. *)
Definition clients_installed (s : SqsService) : Prop :=
  (forall n v, In (n, v) (consumers s) -> Consumer_sqs (instance v) <> None) /\
  (forall n p, In (n, p) (producers s) -> Producer_sqs p <> None).

(** The states of a service: the new service, and what any public
    method leaves when run on one of them. *)
Inductive reachable : SqsService -> Prop :=
| reach_new : reachable new_SqsService
| reach_onModuleInit options d s :
    reachable s -> reachable (fst (onModuleInit options d s))
| reach_onModuleDestroy s :
    reachable s -> reachable (fst (onModuleDestroy s))
| reach_purgeQueue name s :
    reachable s -> reachable (fst (purgeQueue name s))
| reach_getQueueAttributes name s :
    reachable s -> reachable (fst (getQueueAttributes name s))
| reach_getProducerQueueSize name s :
    reachable s -> reachable (fst (getProducerQueueSize name s))
| reach_send name payload s :
    reachable s -> reachable (fst (send name payload s))
| reach_changeMessageVisibility name receiptHandle visibilityTimeout s :
    reachable s ->
    reachable
      (fst (changeMessageVisibility name receiptHandle visibilityTimeout s))
| reach_deleteMessage name receiptHandle s :
    reachable s -> reachable (fst (deleteMessage name receiptHandle s))
| reach_deleteMessageBatch name messages s :
    reachable s -> reachable (fst (deleteMessageBatch name messages s)).

(** A computation that reads nothing from the log and only appends to
    it: run from a state with another log, it appends the same calls,
    and changes the maps and ends in the same way. *)
Definition log_parametric {A} (m : Js A) : Prop :=
  forall s, exists evs, forall cs,
    m (with_calls cs s) = (with_calls (cs ++ evs) (fst (m s)), snd (m s)).

(** The declaration names a queue for which a message handler was
    discovered. *)
Definition has_handler (d : Discovery) (o : SqsConsumerOptions) : bool :=
  match find_metadata (messageHandlers d) (c_name o) with
  | Some _ => true
  | None => false
  end.

(** The entries a run of producer declarations adds to the producer map
    when none of them is rejected. *)
Definition stored_producers (l : list SqsProducerOptions) : JsMap Producer :=
  map (fun o => (p_name o, {| producerOptions := p_producerOptions o |})) l.

(** The call a producer declaration gives rise to when it is not
    rejected. *)
Definition producer_call (o : SqsProducerOptions) : Call :=
  Producer_create_call (p_producerOptions o).

Definition is_Consumer_create_call (c : Call) : bool :=
  match c with Consumer_create_call _ => true | _ => false end.

Definition is_Producer_create_call (c : Call) : bool :=
  match c with Producer_create_call _ => true | _ => false end.

Definition is_warn_call (c : Call) : bool :=
  match c with logger_warn_call _ => true | _ => false end.

(** A computation that leaves the two maps as they are and only adds
    calls to the log. *)
Definition read_only {A} (m : Js A) : Prop :=
  forall s,
    consumers (fst (m s)) = consumers s /\
    producers (fst (m s)) = producers s /\
    exists evs, calls (fst (m s)) = calls s ++ evs.
End Descriptions.

(* ================================================================== *)
(** ** Maps, objects and loops *)

Section ContainerFacts.

Lemma Map_get_app {V} (k : QueueName) (m1 m2 : JsMap V) :
  Map_get k (m1 ++ m2) =
  match Map_get k m1 with Some v => Some v | None => Map_get k m2 end.
Proof.
  induction m1 as [|[k' v'] m1 IH]; simpl; [reflexivity|].
  destruct (k' =? k); [reflexivity | exact IH].
Qed.

Lemma Map_has_app {V} (k : QueueName) (m1 m2 : JsMap V) :
  Map_has k (m1 ++ m2) = Map_has k m1 || Map_has k m2.
Proof.
  unfold Map_has. rewrite Map_get_app.
  destruct (Map_get k m1); reflexivity.
Qed.

Lemma Map_set_fresh {V} (k : QueueName) (v : V) (m : JsMap V) :
  Map_has k m = false -> Map_set k v m = m ++ [(k, v)].
Proof.
  unfold Map_has. induction m as [|[k' v'] m IH]; simpl; [reflexivity|].
  destruct (k' =? k); [discriminate|].
  intros H. rewrite (IH H). reflexivity.
Qed.

Lemma Map_get_In {V} (k : QueueName) (v : V) (m : JsMap V) :
  Map_get k m = Some v -> In (k, v) m.
Proof.
  induction m as [|[k' v'] m IH]; simpl; [discriminate|].
  destruct (k' =? k) eqn:Hk.
  - apply String.eqb_eq in Hk. intros [= ->]. left. congruence.
  - intros H. right. exact (IH H).
Qed.

Lemma Map_has_singleton {V} (k : QueueName) (v : V) :
  Map_has k [(k, v)] = true.
Proof. unfold Map_has. simpl. now rewrite String.eqb_refl. Qed.

Lemma obj_get_set_same (k : string) (v : JsValue) (o : JsObject) :
  obj_get k (obj_set k v o) = v.
Proof.
  induction o as [|[k' v'] o IH]; simpl.
  - now rewrite String.eqb_refl.
  - destruct (k' =? k) eqn:Hk; simpl; rewrite Hk; [reflexivity | exact IH].
Qed.

Lemma obj_get_set_other (k k0 : string) (v : JsValue) (o : JsObject) :
  k0 <> k -> obj_get k0 (obj_set k v o) = obj_get k0 o.
Proof.
  intros Hne. induction o as [|[k' v'] o IH]; simpl.
  - destruct (k =? k0) eqn:Hk; [|reflexivity].
    apply String.eqb_eq in Hk. congruence.
  - destruct (k' =? k) eqn:Hk; simpl.
    + destruct (k' =? k0) eqn:Hk0; [|reflexivity].
      apply String.eqb_eq in Hk, Hk0. congruence.
    + destruct (k' =? k0); [reflexivity | exact IH].
Qed.

Lemma obj_has_set_other (k k0 : string) (v : JsValue) (o : JsObject) :
  k0 <> k -> obj_has k0 (obj_set k v o) = obj_has k0 o.
Proof.
  intros Hne. induction o as [|[k' v'] o IH]; simpl.
  - destruct (k =? k0) eqn:Hk; [|reflexivity].
    apply String.eqb_eq in Hk. congruence.
  - destruct (k' =? k) eqn:Hk; simpl.
    + destruct (k' =? k0) eqn:Hk0; [|reflexivity].
      apply String.eqb_eq in Hk, Hk0. congruence.
    + destruct (k' =? k0); [reflexivity | exact IH].
Qed.

Lemma forEach_app {S A} (f : A -> M S unit) (l1 l2 : list A) (s : S) :
  forEach f (l1 ++ l2) s = (forEach f l1 ;;; forEach f l2) s.
Proof.
  revert s. induction l1 as [|x l1 IH]; intros s; simpl.
  - reflexivity.
  - unfold mbind in *. simpl. destruct (f x s) as [s1 [[]|e]]; [|reflexivity].
    rewrite IH. reflexivity.
Qed.

(** Where an element that is not in [l1] sits in [l1 ++ l2]. *)
Lemma split_after_prefix {A} (l1 l2 before after : list A) (a : A) :
  l1 ++ l2 = before ++ a :: after -> ~ In a l1 ->
  exists x, before = l1 ++ x /\ l2 = x ++ a :: after.
Proof.
  revert before. induction l1 as [|y l1 IH]; intros before Heq Hnin.
  - exists before. split; [reflexivity | exact Heq].
  - destruct before as [|b before]; simpl in Heq.
    + injection Heq as -> _. exfalso. apply Hnin. now left.
    + injection Heq as -> Heq.
      destruct (IH before Heq) as [x [-> ->]].
      * intros Hin. apply Hnin. now right.
      * exists x. split; reflexivity.
Qed.

Lemma visited_all {A} (fails : A -> option Exn) (l : list A) :
  Forall (fun x => fails x = None) l -> visited fails l = (l, Normal tt).
Proof.
  induction 1 as [|x l Hx _ IH]; simpl; [reflexivity|].
  now rewrite Hx, IH.
Qed.

Lemma visited_first {A} (fails : A -> option Exn) (pre post : list A)
  (x : A) (e : Exn) :
  Forall (fun y => fails y = None) pre -> fails x = Some e ->
  visited fails (pre ++ x :: post) = (pre ++ [x], Throw e).
Proof.
  intros Hpre Hx. induction Hpre as [|y pre Hy _ IH]; simpl.
  - now rewrite Hx.
  - now rewrite Hy, IH.
Qed.
End ContainerFacts.

(* ================================================================== *)
(** ** The consumer registration pass *)

Section ConsumerPass.
Context {E : Externals} {B : Behaviour}.
Variables (d : Discovery) (gso : StopOptions).

Lemma with_calls_same (s : SqsService) : with_calls (calls s) s = s.
Proof. now destruct s. Qed.

Lemma registered_cons (o : SqsConsumerOptions) (l : list SqsConsumerOptions) :
  registered d gso (o :: l) = registered d gso [o] ++ registered d gso l.
Proof. unfold registered. simpl. now rewrite app_nil_r. Qed.

Lemma registered_app (l1 l2 : list SqsConsumerOptions) :
  registered d gso (l1 ++ l2) = registered d gso l1 ++ registered d gso l2.
Proof. unfold registered. apply flat_map_app. Qed.

Lemma registered_In (n : QueueName) (v : SqsConsumerMapValues)
  (l : list SqsConsumerOptions) :
  In (n, v) (registered d gso l) ->
  exists o metadata,
    In o l /\ c_name o = n /\
    find_metadata (messageHandlers d) n = Some metadata /\
    v = new_entry d gso o metadata.
Proof.
  unfold registered. rewrite in_flat_map. intros [o [Ho Hin]].
  destruct (find_metadata (messageHandlers d) (c_name o)) as [md|] eqn:Hmd;
    [|contradiction].
  destruct Hin as [[= <- <-]|[]].
  exists o, md. auto.
Qed.

Lemma registered_without_handler (n : QueueName) (l : list SqsConsumerOptions) :
  find_metadata (messageHandlers d) n = None ->
  Map_has n (registered d gso l) = false.
Proof.
  intros Hnone. unfold Map_has.
  destruct (Map_get n (registered d gso l)) as [v|] eqn:Hg; [|reflexivity].
  apply Map_get_In, registered_In in Hg.
  destruct Hg as [o [md [_ [_ [Hmd _]]]]]. congruence.
Qed.

Lemma register_consumer_rejects (o : SqsConsumerOptions) (s : SqsService) :
  Map_has (c_name o) (consumers s) = true ->
  register_consumer d gso o s =
  (s, Throw (Error ("Consumer already exists: " ++ c_name o))).
Proof.
  intros Hhas. unfold register_consumer, mbind, gets. now rewrite Hhas.
Qed.

Lemma register_consumer_accepts (o : SqsConsumerOptions) (s : SqsService) :
  Map_has (c_name o) (consumers s) = false ->
  rejection d o = None ->
  register_consumer d gso o s =
  ({| consumers := consumers s ++ registered d gso [o];
      producers := producers s;
      calls := calls s ++ [declaration_call d o] |}, Normal tt).
Proof.
  intros Hhas Hok.
  unfold register_consumer, mbind, gets, registered, declaration_call.
  unfold rejection in Hok.
  rewrite Hhas. simpl.
  destruct (find_metadata (messageHandlers d) (c_name o)) as [md|].
  - unfold Consumer_create, consumers_set, call, modify, mbind, ret. simpl.
    rewrite Hok. rewrite (Map_set_fresh _ _ _ Hhas). reflexivity.
  - unfold call, modify. simpl. now rewrite app_nil_r.
Qed.

(** A declaration the factory rejects: the call is made, the factory's
    exception is thrown, and nothing is stored. *)
Lemma register_consumer_refused (o : SqsConsumerOptions) (s : SqsService)
  (e : Exn) :
  Map_has (c_name o) (consumers s) = false ->
  rejection d o = Some e ->
  register_consumer d gso o s =
  ({| consumers := consumers s;
      producers := producers s;
      calls := calls s ++ [declaration_call d o] |}, Throw e).
Proof.
  intros Hhas Hno.
  unfold register_consumer, mbind, gets, declaration_call.
  unfold rejection in Hno.
  rewrite Hhas. simpl.
  destruct (find_metadata (messageHandlers d) (c_name o)) as [md|];
    [|discriminate].
  unfold Consumer_create, call, modify, mbind, throw. simpl.
  rewrite Hno. reflexivity.
Qed.

(** A pass that ends normally has stored one entry per declaration with
    a handler and made one call per declaration, in order. *)
Lemma consumer_pass_ok (l : list SqsConsumerOptions) :
  forall s s',
    forEach (register_consumer d gso) l s = (s', Normal tt) ->
    s' = {| consumers := consumers s ++ registered d gso l;
            producers := producers s;
            calls := calls s ++ map (declaration_call d) l |}.
Proof.
  induction l as [|o l IH]; intros s s' Hrun.
  - injection Hrun as <-. destruct s. simpl. now rewrite !app_nil_r.
  - simpl in Hrun. unfold mbind in Hrun.
    destruct (Map_has (c_name o) (consumers s)) eqn:Hhas.
    + rewrite (register_consumer_rejects _ _ Hhas) in Hrun. discriminate.
    + destruct (rejection d o) as [e|] eqn:Hrej.
      * rewrite (register_consumer_refused _ _ _ Hhas Hrej) in Hrun.
        discriminate.
      * rewrite (register_consumer_accepts _ _ Hhas Hrej) in Hrun.
        apply IH in Hrun. subst s'. cbn [consumers producers calls].
        rewrite (registered_cons o l), <- !app_assoc. reflexivity.
Qed.

(** In a pass that ends normally the factory has accepted every
    declaration. *)
Lemma consumer_pass_ok_accepted (l : list SqsConsumerOptions) :
  forall s s',
    forEach (register_consumer d gso) l s = (s', Normal tt) ->
    Forall (fun o => rejection d o = None) l.
Proof.
  induction l as [|o l IH]; intros s s' Hrun; [constructor|].
  simpl in Hrun. unfold mbind in Hrun.
  destruct (Map_has (c_name o) (consumers s)) eqn:Hhas.
  - rewrite (register_consumer_rejects _ _ Hhas) in Hrun. discriminate.
  - destruct (rejection d o) as [e|] eqn:Hrej.
    + rewrite (register_consumer_refused _ _ _ Hhas Hrej) in Hrun.
      discriminate.
    + rewrite (register_consumer_accepts _ _ Hhas Hrej) in Hrun.
      constructor; [exact Hrej | exact (IH _ _ Hrun)].
Qed.

(** A pass that throws has thrown at the first declaration whose name
    was already in the map or whose poller the factory rejected, and
    leaves the state the declarations before that one had built, with
    the rejected call in its log in the second case. *)
Lemma consumer_pass_stops (l : list SqsConsumerOptions) :
  forall s s' e,
    forEach (register_consumer d gso) l s = (s', Throw e) ->
    exists done o' rest s0,
      l = done ++ o' :: rest /\
      forEach (register_consumer d gso) done s = (s0, Normal tt) /\
      ((Map_has (c_name o') (consumers s0) = true /\
        e = Error ("Consumer already exists: " ++ c_name o') /\
        s' = s0) \/
       (Map_has (c_name o') (consumers s0) = false /\
        rejection d o' = Some e /\
        s' = logged (declaration_call d o') s0)).
Proof.
  induction l as [|o l IH]; intros s s' e Hrun.
  - discriminate.
  - simpl in Hrun. unfold mbind in Hrun.
    destruct (Map_has (c_name o) (consumers s)) eqn:Hhas.
    + rewrite (register_consumer_rejects _ _ Hhas) in Hrun.
      injection Hrun as <- <-.
      exists [], o, l, s. split; [reflexivity|]. split; [reflexivity|].
      left. auto.
    + destruct (rejection d o) as [e0|] eqn:Hrej.
      * rewrite (register_consumer_refused _ _ _ Hhas Hrej) in Hrun.
        injection Hrun as <- <-.
        exists [], o, l, s. split; [reflexivity|]. split; [reflexivity|].
        right. auto.
      * rewrite (register_consumer_accepts _ _ Hhas Hrej) in Hrun.
        destruct (IH _ _ _ Hrun) as [done [o' [rest [s0 [-> [Hdone Hend]]]]]].
        exists (o :: done), o', rest, s0.
        split; [reflexivity|]. split; [|exact Hend].
        simpl. unfold mbind.
        now rewrite (register_consumer_accepts _ _ Hhas Hrej).
Qed.

(** A declaration whose name is already in the map makes the pass
    throw. *)
Lemma consumer_pass_known_name (l : list SqsConsumerOptions) :
  forall s o,
    In o l -> Map_has (c_name o) (consumers s) = true ->
    exists s' e, forEach (register_consumer d gso) l s = (s', Throw e).
Proof.
  induction l as [|x l IH]; intros s o Hin Hhas; [contradiction|].
  simpl. unfold mbind.
  destruct (Map_has (c_name x) (consumers s)) eqn:Hx.
  - rewrite (register_consumer_rejects _ _ Hx). eauto.
  - destruct (rejection d x) as [e0|] eqn:Hrej.
    + rewrite (register_consumer_refused _ _ _ Hx Hrej). eauto.
    + rewrite (register_consumer_accepts _ _ Hx Hrej).
      destruct Hin as [->|Hin]; [congruence|].
      apply (IH _ o Hin). simpl. rewrite Map_has_app, Hhas. reflexivity.
Qed.

(** Two declarations of one name that has a handler make the pass
    throw. *)
Lemma consumer_pass_repeated_name
  (pre mid post : list SqsConsumerOptions) (o1 o2 : SqsConsumerOptions)
  (metadata : DiscoveredMethodWithMeta SqsMessageHandlerMeta) :
  c_name o2 = c_name o1 ->
  find_metadata (messageHandlers d) (c_name o1) = Some metadata ->
  forall s, exists s' e,
    forEach (register_consumer d gso) (pre ++ o1 :: mid ++ o2 :: post) s
    = (s', Throw e).
Proof.
  intros Hname Hmd. induction pre as [|x pre IH]; intros s.
  - simpl. unfold mbind.
    destruct (Map_has (c_name o1) (consumers s)) eqn:H1.
    + rewrite (register_consumer_rejects _ _ H1). eauto.
    + destruct (rejection d o1) as [e0|] eqn:Hrej.
      * rewrite (register_consumer_refused _ _ _ H1 Hrej). eauto.
      * rewrite (register_consumer_accepts _ _ H1 Hrej).
        apply (consumer_pass_known_name _ _ o2).
        -- apply in_or_app. right. now left.
        -- simpl. rewrite Hname, Map_has_app. unfold registered. simpl.
           rewrite Hmd. simpl. rewrite Map_has_singleton.
           apply orb_true_r.
  - simpl. unfold mbind.
    destruct (Map_has (c_name x) (consumers s)) eqn:Hx.
    + rewrite (register_consumer_rejects _ _ Hx). eauto.
    + destruct (rejection d x) as [e0|] eqn:Hrej.
      * rewrite (register_consumer_refused _ _ _ Hx Hrej). eauto.
      * rewrite (register_consumer_accepts _ _ Hx Hrej). apply IH.
Qed.
End ConsumerPass.

(* ================================================================== *)
(** ** The log is write-only *)

Section LogParametric.
Context {E : Externals} {B : Behaviour}.

Lemma lp_ret {A} (a : A) : log_parametric (ret a).
Proof. intros s. exists []. intros cs. unfold ret. simpl. now rewrite app_nil_r. Qed.

Lemma lp_throw {A} (e : Exn) : log_parametric (@throw _ A e).
Proof. intros s. exists []. intros cs. unfold throw. simpl. now rewrite app_nil_r. Qed.

Lemma lp_gets {A} (f : SqsService -> A) :
  (forall cs s, f (with_calls cs s) = f s) -> log_parametric (gets f).
Proof.
  intros Hf s. exists []. intros cs. unfold gets. simpl.
  now rewrite Hf, app_nil_r.
Qed.

Lemma lp_call (c : Call) : log_parametric (call c).
Proof. intros s. exists [c]. intros cs. reflexivity. Qed.

Lemma lp_consumers_set (n : QueueName) (v : SqsConsumerMapValues) :
  log_parametric (consumers_set n v).
Proof.
  intros s. exists []. intros cs. unfold consumers_set, modify, with_calls.
  simpl. now rewrite app_nil_r.
Qed.

Lemma lp_producers_set (n : QueueName) (p : Producer) :
  log_parametric (producers_set n p).
Proof.
  intros s. exists []. intros cs. unfold producers_set, modify, with_calls.
  simpl. now rewrite app_nil_r.
Qed.

Lemma lp_bind {A C} (m : Js A) (k : A -> Js C) :
  log_parametric m -> (forall a, log_parametric (k a)) ->
  log_parametric (mbind m k).
Proof.
  intros Hm Hk s. destruct (Hm s) as [evs1 H1].
  unfold mbind. destruct (m s) as [s1 [a|e]] eqn:Hms; simpl in H1.
  - destruct (Hk a s1) as [evs2 H2].
    exists (evs1 ++ evs2). intros cs.
    rewrite H1, H2, app_assoc. reflexivity.
  - exists evs1. intros cs. rewrite H1. reflexivity.
Qed.

Lemma lp_forEach {A} (f : A -> Js unit) (l : list A) :
  (forall x, log_parametric (f x)) -> log_parametric (forEach f l).
Proof.
  intros Hf. induction l as [|x l IH]; simpl.
  - apply lp_ret.
  - apply lp_bind; auto.
Qed.

Lemma lp_optional_forEach {A} (f : A -> Js unit) (xs : option (list A)) :
  (forall x, log_parametric (f x)) -> log_parametric (optional_forEach f xs).
Proof.
  intros Hf. destruct xs; simpl; [now apply lp_forEach | apply lp_ret].
Qed.

Lemma lp_register_consumer (d : Discovery) (gso : StopOptions)
  (o : SqsConsumerOptions) : log_parametric (register_consumer d gso o).
Proof.
  unfold register_consumer. apply lp_bind; [now apply lp_gets|].
  intros [|]; [apply lp_throw|].
  destruct (find_metadata (messageHandlers d) (c_name o)); [|apply lp_call].
  apply lp_bind.
  - unfold Consumer_create. apply lp_bind; [apply lp_call|].
    intros _. destruct (Consumer_create_throws _);
      [apply lp_throw | apply lp_ret].
  - intros c. apply lp_consumers_set.
Qed.

Lemma lp_register_producer (o : SqsProducerOptions) :
  log_parametric (register_producer o).
Proof.
  unfold register_producer. apply lp_bind; [now apply lp_gets|].
  intros [|]; [apply lp_throw|].
  apply lp_bind.
  - unfold Producer_create. apply lp_bind; [apply lp_call|].
    intros _. destruct (Producer_create_throws _);
      [apply lp_throw | apply lp_ret].
  - intros p. apply lp_producers_set.
Qed.

Lemma lp_start (c : Consumer) : log_parametric (start c).
Proof.
  unfold start. apply lp_bind; [apply lp_call|].
  intros _. destruct (Consumer_start c); [apply lp_throw | apply lp_ret].
Qed.

Lemma lp_start_consumers : log_parametric start_consumers.
Proof.
  unfold start_consumers. apply lp_bind; [now apply lp_gets|].
  intros vs. apply lp_forEach. intros v. apply lp_start.
Qed.

Lemma lp_producers_and_start (options : SqsOptions) :
  log_parametric
    (optional_forEach register_producer (opt_producers options) ;;;
     start_consumers).
Proof.
  apply lp_bind.
  - apply lp_optional_forEach, lp_register_producer.
  - intros _. apply lp_start_consumers.
Qed.

(** One more call in the log before a log-parametric computation is one
    more call at the same place in the log after it. *)
Lemma lp_one_more {A} (m : Js A) (c : Call) (s : SqsService) :
  log_parametric m ->
  exists evs,
    calls (fst (m s)) = calls s ++ evs /\
    m (logged c s) =
    (with_calls (calls s ++ c :: evs) (fst (m s)), snd (m s)).
Proof.
  intros Hm. destruct (Hm s) as [evs H]. exists evs. split.
  - specialize (H (calls s)). rewrite with_calls_same in H.
    destruct (m s) as [s1 r1]. simpl in *. injection H as H.
    rewrite H at 1. reflexivity.
  - unfold logged.
    replace (with_calls (calls s ++ [c]) s)
      with (with_calls (calls s ++ [c]) (with_calls (calls s) s))
      by reflexivity.
    rewrite with_calls_same, H, <- app_assoc. reflexivity.
Qed.
End LogParametric.

(* ================================================================== *)
(** ** The producer pass, the start pass and the stop pass *)

Section OtherPasses.
Context {E : Externals} {B : Behaviour}.

Lemma optional_forEach_declared_consumers (f : SqsConsumerOptions -> Js unit)
  (options : SqsOptions) :
  optional_forEach f (opt_consumers options) =
  forEach f (declared_consumers options).
Proof. unfold declared_consumers. now destruct (opt_consumers options). Qed.

Lemma optional_forEach_declared_producers (f : SqsProducerOptions -> Js unit)
  (options : SqsOptions) :
  optional_forEach f (opt_producers options) =
  forEach f (declared_producers options).
Proof. unfold declared_producers. now destruct (opt_producers options). Qed.

(** A loop whose body logs one call on the element and then throws or
    not visits [visited fails l]. *)
Lemma loop_visited {A} (ev : A -> Call) (fails : A -> option Exn)
  (l : list A) :
  forall s,
    forEach
      (fun x =>
         call (ev x) ;;;
         match fails x with Some e => throw e | None => ret tt end) l s
    = (with_calls (calls s ++ map ev (fst (visited fails l))) s,
       snd (visited fails l)).
Proof.
  induction l as [|x l IH]; intros s; simpl.
  - unfold ret. rewrite app_nil_r, with_calls_same. reflexivity.
  - unfold mbind at 1. unfold mbind at 1. unfold call, modify. simpl.
    destruct (fails x) as [e|]; simpl.
    + reflexivity.
    + rewrite IH. destruct (visited fails l) as [xs r]. simpl.
      unfold with_calls. simpl. rewrite <- app_assoc. reflexivity.
Qed.

Lemma start_consumers_visited (s : SqsService) :
  start_consumers s =
  (with_calls
     (calls s ++
      map (fun v => start_call (instance v))
        (fst (visited (fun v => Consumer_start (instance v))
                (Map_values (consumers s))))) s,
   snd (visited (fun v => Consumer_start (instance v))
          (Map_values (consumers s)))).
Proof.
  unfold start_consumers, mbind, gets.
  exact (loop_visited (fun v => start_call (instance v))
           (fun v => Consumer_start (instance v)) _ s).
Qed.

Lemma onModuleDestroy_visited (s : SqsService) :
  onModuleDestroy s =
  (with_calls
     (calls s ++
      map (fun v => stop_call (instance v) (stopOptions v))
        (fst (visited (fun v => Consumer_stop (instance v) (stopOptions v))
                (Map_values (consumers s))))) s,
   snd (visited (fun v => Consumer_stop (instance v) (stopOptions v))
          (Map_values (consumers s)))).
Proof.
  unfold onModuleDestroy, mbind, gets.
  exact (loop_visited (fun v => stop_call (instance v) (stopOptions v))
           (fun v => Consumer_stop (instance v) (stopOptions v)) _ s).
Qed.

Lemma register_producer_rejects (o : SqsProducerOptions) (s : SqsService) :
  Map_has (p_name o) (producers s) = true ->
  register_producer o s =
  (s, Throw (Error ("Producer already exists: " ++ p_name o))).
Proof.
  intros Hhas. unfold register_producer, mbind, gets. now rewrite Hhas.
Qed.

Lemma register_producer_accepts (o : SqsProducerOptions) (s : SqsService) :
  Map_has (p_name o) (producers s) = false ->
  Producer_create_throws (p_producerOptions o) = None ->
  register_producer o s =
  ({| consumers := consumers s;
      producers :=
        producers s ++
        [(p_name o, {| producerOptions := p_producerOptions o |})];
      calls := calls s ++ [Producer_create_call (p_producerOptions o)] |},
   Normal tt).
Proof.
  intros Hhas Hok.
  unfold register_producer, Producer_create, producers_set, call, modify,
    mbind, gets, ret.
  rewrite Hhas. simpl. rewrite Hok, (Map_set_fresh _ _ _ Hhas). reflexivity.
Qed.

(** A producer declaration the factory rejects: the call is made, the
    factory's exception is thrown, and nothing is stored. *)
Lemma register_producer_refused (o : SqsProducerOptions) (s : SqsService)
  (e : Exn) :
  Map_has (p_name o) (producers s) = false ->
  Producer_create_throws (p_producerOptions o) = Some e ->
  register_producer o s =
  ({| consumers := consumers s;
      producers := producers s;
      calls := calls s ++ [Producer_create_call (p_producerOptions o)] |},
   Throw e).
Proof.
  intros Hhas Hno.
  unfold register_producer, Producer_create, call, modify, mbind, gets, throw.
  rewrite Hhas. simpl. rewrite Hno. reflexivity.
Qed.

(** The producer pass leaves the consumer map alone, keeps the names
    the producer map had, logs nothing but [Producer.create] calls, and
    has stored every declaration when it ends normally. *)
Lemma producer_pass (l : list SqsProducerOptions) :
  forall s s' r,
    forEach register_producer l s = (s', r) ->
    consumers s' = consumers s /\
    (exists ps, calls s' = calls s ++ map Producer_create_call ps) /\
    (forall n, Map_has n (producers s) = true ->
               Map_has n (producers s') = true) /\
    (r = Normal tt ->
     forall o, In o l -> Map_has (p_name o) (producers s') = true).
Proof.
  induction l as [|o l IH]; intros s s' r Hrun.
  - injection Hrun as <- <-.
    split; [reflexivity|]. split; [|split].
    + exists []. simpl. now rewrite app_nil_r.
    + auto.
    + intros _ o [].
  - simpl in Hrun. unfold mbind in Hrun.
    destruct (Map_has (p_name o) (producers s)) eqn:Hhas.
    + rewrite (register_producer_rejects _ _ Hhas) in Hrun.
      injection Hrun as <- <-.
      split; [reflexivity|]. split; [|split].
      * exists []. simpl. now rewrite app_nil_r.
      * auto.
      * discriminate.
    + destruct (Producer_create_throws (p_producerOptions o)) as [e|] eqn:Hrej.
      * rewrite (register_producer_refused _ _ _ Hhas Hrej) in Hrun.
        injection Hrun as <- <-. simpl.
        split; [reflexivity|]. split; [|split].
        -- now exists [p_producerOptions o].
        -- auto.
        -- discriminate.
      * rewrite (register_producer_accepts _ _ Hhas Hrej) in Hrun.
        destruct (IH _ _ _ Hrun) as [Hc [[ps Hcalls] [Hkeep Hall]]].
        simpl in *.
        split; [exact Hc|]. split; [|split].
        -- exists (p_producerOptions o :: ps). rewrite Hcalls, <- app_assoc.
           reflexivity.
        -- intros n Hn. apply Hkeep. rewrite Map_has_app, Hn. reflexivity.
        -- intros Hr o' [<-|Hin]; [|now apply Hall].
           apply Hkeep. rewrite Map_has_app, Map_has_singleton.
           apply orb_true_r.
Qed.

(** The call of a declaration is no [start], and when it is a
    [Consumer.create] its argument is the one built for the
    declaration and a handler. *)
Lemma declaration_call_shape (d : Discovery) (x : SqsConsumerOptions) :
  (forall c, declaration_call d x <> start_call c) /\
  (forall o, declaration_call d x = Consumer_create_call o ->
             exists metadata,
               o = consumer_create_options (c_consumerOptions x) metadata).
Proof.
  unfold declaration_call.
  destruct (find_metadata (messageHandlers d) (c_name x)) as [md|]; split;
    try discriminate.
  intros o [= <-]. now exists md.
Qed.

(** What [build_registry] leaves behind, from the empty service: the
    entries and the calls of a prefix of the consumer declarations, and
    after them calls that start nothing and create only what a
    declaration asks for. *)
Lemma build_registry_spec (options : SqsOptions) (d : Discovery)
  (s1 : SqsService) (r1 : Completion unit) :
  build_registry options d new_SqsService = (s1, r1) ->
  exists done rest more,
    declared_consumers options = done ++ rest /\
    consumers s1 = registered d (globalStopOptions options) done /\
    calls s1 = map (declaration_call d) done ++ more /\
    (forall c, ~ In (start_call c) more) /\
    (forall o, In (Consumer_create_call o) more ->
               exists x metadata,
                 o = consumer_create_options (c_consumerOptions x) metadata) /\
    (r1 = Normal tt ->
     rest = [] /\
     forall o, In o (declared_producers options) ->
               Map_has (p_name o) (producers s1) = true).
Proof.
  unfold build_registry, mbind.
  rewrite optional_forEach_declared_consumers,
    optional_forEach_declared_producers.
  destruct (forEach (register_consumer d (globalStopOptions options))
              (declared_consumers options) new_SqsService)
    as [s0 [[]|e]] eqn:Hcons.
  - intros Hprod. apply consumer_pass_ok in Hcons.
    destruct (producer_pass _ _ _ _ Hprod) as [Hc [[ps Hcalls] [_ Hall]]].
    exists (declared_consumers options), [], (map Producer_create_call ps).
    rewrite app_nil_r, Hc, Hcalls, Hcons. simpl.
    split; [reflexivity|]. split; [reflexivity|]. split; [reflexivity|].
    split; [|split].
    + intros c Hin. apply in_map_iff in Hin.
      destruct Hin as [x [Hx _]]. discriminate.
    + intros o Hin. apply in_map_iff in Hin.
      destruct Hin as [x [Hx _]]. discriminate.
    + intros ->. auto.
  - intros [= <- <-].
    destruct (consumer_pass_stops _ _ _ _ _ _ Hcons)
      as [done [o' [rest [s_done [Hl [Hdone Hend]]]]]].
    apply consumer_pass_ok in Hdone. simpl in Hdone.
    destruct Hend as [[_ [_ ->]]|[_ [Hrej ->]]].
    + exists done, (o' :: rest), []. rewrite Hdone. simpl.
      rewrite app_nil_r.
      split; [exact Hl|]. split; [reflexivity|]. split; [reflexivity|].
      split; [|split]; [intros c [] | intros o [] | discriminate].
    + exists done, (o' :: rest), [declaration_call d o'].
      rewrite Hdone. simpl.
      split; [exact Hl|]. split; [reflexivity|]. split; [reflexivity|].
      destruct (declaration_call_shape d o') as [Hns Hcreate].
      split; [|split].
      * intros c [Heq|[]]. exact (Hns c Heq).
      * intros o [Heq|[]]. exists o'. exact (Hcreate o Heq).
      * discriminate.
Qed.

Lemma declaration_call_not_start (d : Discovery)
  (l : list SqsConsumerOptions) (c : Consumer) :
  ~ In (start_call c) (map (declaration_call d) l).
Proof.
  intros Hin. apply in_map_iff in Hin. destruct Hin as [x [Hx _]].
  exact (proj1 (declaration_call_shape d x) c Hx).
Qed.

(** The consumer map and the log after [onModuleInit], however it ended:
    the entries and the calls of a prefix of the declarations, all of
    them when it ended normally, followed by calls that create only
    what a declaration asks for. *)
Lemma onModuleInit_consumers (options : SqsOptions) (d : Discovery)
  (s' : SqsService) (r : Completion unit) :
  onModuleInit options d new_SqsService = (s', r) ->
  exists done rest more,
    declared_consumers options = done ++ rest /\
    consumers s' = registered d (globalStopOptions options) done /\
    (r = Normal tt -> rest = []) /\
    calls s' = map (declaration_call d) done ++ more /\
    (forall o, In (Consumer_create_call o) more ->
               exists x metadata,
                 o = consumer_create_options (c_consumerOptions x) metadata).
Proof.
  unfold onModuleInit, mbind.
  destruct (build_registry options d new_SqsService) as [s1 r1] eqn:Hb.
  destruct (build_registry_spec _ _ _ _ Hb)
    as [done [rest [more [Hl [Hc [Hcalls [_ [Hcreate Hok]]]]]]]].
  destruct r1 as [[]|e].
  - rewrite start_consumers_visited. intros [= <- <-].
    exists done, rest. eexists. simpl.
    split; [exact Hl|]. split; [exact Hc|]. split; [intros _; now apply Hok|].
    split; [rewrite Hcalls, <- app_assoc; reflexivity|].
    intros o Hin. apply in_app_or in Hin. destruct Hin as [Hin|Hin].
    + exact (Hcreate o Hin).
    + apply in_map_iff in Hin. destruct Hin as [x [Hx _]]. discriminate.
  - intros [= <- <-]. exists done, rest, more.
    split; [exact Hl|]. split; [exact Hc|]. split; [discriminate|].
    split; [exact Hcalls | exact Hcreate].
Qed.

Lemma registered_has (d : Discovery) (gso : StopOptions)
  (l : list SqsConsumerOptions) (o : SqsConsumerOptions)
  (metadata : DiscoveredMethodWithMeta SqsMessageHandlerMeta) :
  In o l ->
  find_metadata (messageHandlers d) (c_name o) = Some metadata ->
  Map_has (c_name o) (registered d gso l) = true.
Proof.
  intros Hin Hmd. apply in_split in Hin. destruct Hin as [l1 [l2 ->]].
  rewrite registered_app, registered_cons, !Map_has_app.
  unfold registered at 2. simpl. rewrite Hmd. simpl.
  rewrite Map_has_singleton. simpl. apply orb_true_r.
Qed.

Lemma attach_listeners_createdWith
  (evs : list (DiscoveredMethodWithMeta SqsConsumerEventHandlerMeta))
  (metadata : DiscoveredMethodWithMeta SqsMessageHandlerMeta) :
  forall c, createdWith (attach_listeners evs metadata c) = createdWith c.
Proof.
  unfold attach_listeners. induction evs as [|ev evs IH]; intros c; simpl.
  - reflexivity.
  - rewrite IH. reflexivity.
Qed.

Lemma attach_listeners_listeners
  (evs : list (DiscoveredMethodWithMeta SqsConsumerEventHandlerMeta))
  (metadata : DiscoveredMethodWithMeta SqsMessageHandlerMeta) :
  forall c,
    listeners (attach_listeners evs metadata c) =
    listeners c ++
    map (fun ev =>
           (eh_eventName (meta ev),
            Function_bind (handler (discoveredMethod ev))
              (dc_instance (parentClass (discoveredMethod metadata)))))
      evs.
Proof.
  unfold attach_listeners. induction evs as [|ev evs IH]; intros c; simpl.
  - now rewrite app_nil_r.
  - rewrite IH. simpl. rewrite <- app_assoc. reflexivity.
Qed.

(** [onModuleInit] is the consumer pass, then the producer pass, then
    the starts, each run only when the one before ended normally. *)
Lemma onModuleInit_steps (options : SqsOptions) (d : Discovery)
  (s : SqsService) :
  onModuleInit options d s =
  match forEach (register_consumer d (globalStopOptions options))
          (declared_consumers options) s with
  | (s0, Throw e) => (s0, Throw e)
  | (s0, Normal _) =>
      match forEach register_producer (declared_producers options) s0 with
      | (s1, Throw e) => (s1, Throw e)
      | (s1, Normal _) => start_consumers s1
      end
  end.
Proof.
  unfold onModuleInit, build_registry.
  rewrite optional_forEach_declared_consumers,
    optional_forEach_declared_producers.
  unfold mbind.
  destruct (forEach (register_consumer d (globalStopOptions options))
              (declared_consumers options) s) as [s0 [[]|e]]; [|reflexivity].
  destruct (forEach register_producer (declared_producers options) s0)
    as [s1 [[]|e]]; reflexivity.
Qed.
End OtherPasses.

(* ================================================================== *)
(** ** Properties of the registry *)

Section Lifecycle.
Context {E : Externals} {B : Behaviour}.

(** C1, as amended.  The stop pass asks the consumers to stop in the
    order of the consumer map, each with its stored stop options, up to
    and including the first one whose [stop] throws: that exception ends
    the pass and reaches the caller, and the consumers after it are not
    asked.  When no [stop] throws, every registered consumer is asked
    once, in order, and the pass ends normally.  The maps are left as
    they were. *)
Theorem stop_pass_ends_at_first_failure (s : SqsService) :
  (Forall (fun v => Consumer_stop (instance v) (stopOptions v) = None)
     (Map_values (consumers s)) ->
   onModuleDestroy s =
   (with_calls
      (calls s ++
       map (fun v => stop_call (instance v) (stopOptions v))
         (Map_values (consumers s))) s,
    Normal tt)) /\
  (forall pre v post e,
     Map_values (consumers s) = pre ++ v :: post ->
     Forall (fun v => Consumer_stop (instance v) (stopOptions v) = None) pre ->
     Consumer_stop (instance v) (stopOptions v) = Some e ->
     onModuleDestroy s =
     (with_calls
        (calls s ++
         map (fun v => stop_call (instance v) (stopOptions v)) (pre ++ [v])) s,
      Throw e)).
Proof.
  split.
  - intros Hall. rewrite onModuleDestroy_visited.
    now rewrite (visited_all _ _ Hall).
  - intros pre v post e Hvs Hpre Hv. rewrite onModuleDestroy_visited, Hvs.
    now rewrite (visited_first _ pre post v e Hpre Hv).
Qed.

(** Where two ways of cutting one list meet. *)
Lemma cut_point {A} (a done rest post : list A) (x y : A) :
  a ++ x :: post = done ++ y :: rest ->
  (exists z, a = done ++ y :: z) \/
  (done = a /\ y = x) \/
  (exists z, done = a ++ x :: z).
Proof.
  intros Heq. apply app_eq_app in Heq.
  destruct Heq as [z [[Ha Hr]|[Hd Hr]]].
  - destruct z as [|z0 z].
    + rewrite app_nil_r in Ha. injection Hr as -> _. right. left. auto.
    + injection Hr as -> _. left. now exists z.
  - destruct z as [|z0 z].
    + rewrite app_nil_r in Hd. injection Hr as <- _. right. left. auto.
    + injection Hr as <- _. right. right. now exists z.
Qed.

(** C2, as amended.  When two consumer declarations share a name for
    which a message handler was discovered, [onModuleInit] throws at
    the first declaration whose name is already in the consumer map or
    whose poller [Consumer.create] rejects, and that declaration is the
    second of the two or an earlier one.  In the first case the
    exception is "Consumer already exists" and the state is the one the
    declarations before it had built: their entries, no producer, their
    [Consumer.create] calls and warnings.  In the second case the
    declaration comes before the second of the two, the exception is
    the factory's, and the log holds the rejected call as well.  When
    the factory accepts the declarations before the second of the two,
    the exception is "Consumer already exists". *)
Theorem repeated_consumer_with_handler_is_fatal
  (options : SqsOptions) (d : Discovery)
  (pre mid post : list SqsConsumerOptions) (o1 o2 : SqsConsumerOptions)
  (metadata : DiscoveredMethodWithMeta SqsMessageHandlerMeta) :
  opt_consumers options = Some (pre ++ o1 :: mid ++ o2 :: post) ->
  c_name o2 = c_name o1 ->
  find_metadata (messageHandlers d) (c_name o1) = Some metadata ->
  exists done o' rest e,
    pre ++ o1 :: mid ++ o2 :: post = done ++ o' :: rest /\
    length done <= length (pre ++ o1 :: mid) /\
    ((Map_has (c_name o')
        (registered d (globalStopOptions options) done) = true /\
      e = Error ("Consumer already exists: " ++ c_name o') /\
      onModuleInit options d new_SqsService =
      ({| consumers := registered d (globalStopOptions options) done;
          producers := [];
          calls := map (declaration_call d) done |},
       Throw e)) \/
     (In o' (pre ++ o1 :: mid) /\
      rejection d o' = Some e /\
      onModuleInit options d new_SqsService =
      ({| consumers := registered d (globalStopOptions options) done;
          producers := [];
          calls := map (declaration_call d) done ++ [declaration_call d o'] |},
       Throw e))) /\
    (Forall (fun o => rejection d o = None) (pre ++ o1 :: mid) ->
     e = Error ("Consumer already exists: " ++ c_name o')).
Proof.
  intros Hopt Hname Hmd.
  set (gso := globalStopOptions options).
  destruct (consumer_pass_repeated_name d gso pre mid post o1 o2 metadata
              Hname Hmd new_SqsService) as [s' [e Hrun]].
  destruct (consumer_pass_stops _ _ _ _ _ _ Hrun)
    as [done [o' [rest [s0 [Hl [Hdone Hend]]]]]].
  pose proof (consumer_pass_ok _ _ _ _ _ Hdone) as Hs0. simpl in Hs0.
  assert (Hinit : onModuleInit options d new_SqsService = (s', Throw e)).
  { unfold onModuleInit, build_registry. rewrite Hopt. simpl.
    unfold mbind. fold gso. now rewrite Hrun. }
  replace (pre ++ o1 :: mid ++ o2 :: post)
    with ((pre ++ o1 :: mid) ++ o2 :: post) in Hl
    by (rewrite <- app_assoc; reflexivity).
  assert (Hcut : (exists z, pre ++ o1 :: mid = done ++ o' :: z) \/
                 (done = pre ++ o1 :: mid /\ o' = o2)).
  { destruct (cut_point _ _ _ _ _ _ Hl) as [Hc|[Hc|[z Hz]]]; auto.
    exfalso. rewrite Hz, <- app_assoc in Hdone. simpl in Hdone.
    destruct (consumer_pass_repeated_name d gso pre mid z o1 o2 metadata
                Hname Hmd new_SqsService) as [s2 [e2 Hthrow]].
    rewrite Hthrow in Hdone. discriminate. }
  assert (Hlen : length done <= length (pre ++ o1 :: mid)).
  { destruct Hcut as [[z Hz]|[-> _]]; [|lia].
    rewrite Hz, length_app. lia. }
  exists done, o', rest, e.
  split; [rewrite <- app_assoc in Hl; exact Hl|]. split; [exact Hlen|].
  destruct Hend as [[Hhas [-> ->]]|[Hhas [Hrej ->]]].
  - split; [|reflexivity]. left. rewrite Hs0 in Hhas.
    split; [exact Hhas|]. split; [reflexivity|]. now rewrite Hinit, Hs0.
  - assert (Hin : In o' (pre ++ o1 :: mid)).
    { destruct Hcut as [[z Hz]|[Hd Ho]].
      - rewrite Hz. apply in_elt.
      - exfalso. subst done o'. rewrite Hs0 in Hhas. cbn [consumers] in Hhas.
        rewrite Hname in Hhas.
        rewrite (registered_has d gso (pre ++ o1 :: mid) o1 metadata) in Hhas;
          [discriminate | apply in_elt | exact Hmd]. }
    split.
    + right. split; [exact Hin|]. split; [exact Hrej|].
      rewrite Hinit, Hs0. reflexivity.
    + intros Hall. rewrite Forall_forall in Hall.
      rewrite (Hall o' Hin) in Hrej. discriminate.
Qed.

Lemma onModuleInit_split (options : SqsOptions) (d : Discovery)
  (l1 l2 : list SqsConsumerOptions) (s : SqsService) :
  opt_consumers options = Some (l1 ++ l2) ->
  onModuleInit options d s =
  match forEach (register_consumer d (globalStopOptions options)) l1 s with
  | (s1, Normal _) =>
      mbind (forEach (register_consumer d (globalStopOptions options)) l2)
        (fun _ =>
           optional_forEach register_producer (opt_producers options) ;;;
           start_consumers) s1
  | (s1, Throw e) => (s1, Throw e)
  end.
Proof.
  intros Hopt. unfold onModuleInit, build_registry. rewrite Hopt. simpl.
  unfold mbind. rewrite forEach_app. unfold mbind.
  destruct (forEach (register_consumer d (globalStopOptions options)) l1 s)
    as [s1 [[]|e]]; [|reflexivity].
  destruct (forEach (register_consumer d (globalStopOptions options)) l2 s1)
    as [s2 [[]|e]]; reflexivity.
Qed.

(** C3.  A consumer declaration without a discovered message handler is
    skipped: registering it logs one warning, creates nothing, changes
    neither map and does not throw; its name is absent from the consumer
    map after [onModuleInit]; and [onModuleInit] ends as it does on the
    configuration without that declaration, with the same two maps and
    the same calls, the warning apart (no warning when a declaration
    before it was rejected). *)
Theorem consumer_without_handler_is_skipped
  (options : SqsOptions) (d : Discovery)
  (pre post : list SqsConsumerOptions) (o : SqsConsumerOptions) :
  opt_consumers options = Some (pre ++ o :: post) ->
  find_metadata (messageHandlers d) (c_name o) = None ->
  let warning := logger_warn_call ("No metadata found for: " ++ c_name o) in
  let without :=
    {| opt_consumers := Some (pre ++ post);
       opt_producers := opt_producers options;
       opt_globalStopOptions := opt_globalStopOptions options |} in
  let with_o := onModuleInit options d new_SqsService in
  let without_o := onModuleInit without d new_SqsService in
  (forall s,
     Map_has (c_name o) (consumers s) = false ->
     register_consumer d (globalStopOptions options) o s
     = (logged warning s, Normal tt)) /\
  Map_has (c_name o) (consumers (fst with_o)) = false /\
  snd with_o = snd without_o /\
  consumers (fst with_o) = consumers (fst without_o) /\
  producers (fst with_o) = producers (fst without_o) /\
  ((exists a b,
      calls (fst without_o) = a ++ b /\
      calls (fst with_o) = a ++ warning :: b) \/
   (calls (fst with_o) = calls (fst without_o) /\
    exists e, snd with_o = Throw e)).
Proof.
  intros Hopt Hnone warning without with_o without_o.
  set (gso := globalStopOptions options).
  assert (Hstep : forall s,
             Map_has (c_name o) (consumers s) = false ->
             register_consumer d gso o s = (logged warning s, Normal tt)).
  { intros s Hhas.
    assert (Hrej : rejection d o = None)
      by (unfold rejection; now rewrite Hnone).
    rewrite (register_consumer_accepts _ _ _ _ Hhas Hrej).
    unfold registered, declaration_call. simpl. rewrite Hnone. simpl.
    rewrite app_nil_r. reflexivity. }
  split; [exact Hstep|]. split.
  - destruct with_o as [s' r] eqn:Hw. simpl.
    destruct (onModuleInit_consumers _ _ _ _ Hw)
      as [done [rest [more [_ [-> _]]]]].
    now apply registered_without_handler.
  - set (PS := (optional_forEach register_producer (opt_producers options) ;;;
                start_consumers)).
    set (R := (forEach (register_consumer d gso) post ;;; PS)).
    assert (HR : log_parametric R).
    { apply lp_bind; [apply lp_forEach, lp_register_consumer|].
      intros _. apply lp_producers_and_start. }
    unfold with_o, without_o.
    rewrite (onModuleInit_split options d pre (o :: post) _ Hopt).
    rewrite (onModuleInit_split without d pre post _ eq_refl).
    fold gso PS. change (globalStopOptions without) with gso.
    change (opt_producers without) with (opt_producers options). fold PS.
    destruct (forEach (register_consumer d gso) pre new_SqsService)
      as [s1 [[]|e]] eqn:Hpre.
    + pose proof (consumer_pass_ok _ _ _ _ _ Hpre) as Hs1.
      assert (Hhas : Map_has (c_name o) (consumers s1) = false).
      { rewrite Hs1. simpl. now apply registered_without_handler. }
      assert (Hgo : mbind (forEach (register_consumer d gso) (o :: post))
                      (fun _ => PS) s1 = R (logged warning s1)).
      { unfold R. cbn [forEach]. unfold mbind.
        rewrite (Hstep _ Hhas). reflexivity. }
      rewrite Hgo. fold R.
      destruct (lp_one_more R warning s1 HR) as [evs [Hcalls ->]].
      simpl. repeat split.
      left. exists (calls s1), evs. split; [exact Hcalls | reflexivity].
    + simpl. repeat split. right. split; [reflexivity | now exists e].
Qed.
End Lifecycle.

Section Wiring.
Context {E : Externals} {B : Behaviour}.

(** Every entry of the consumer map after [onModuleInit] is the entry
    built for a declaration of that name and for the message handler
    found for it, and the [Consumer.create] call that made its poller is
    in the log. *)
Lemma onModuleInit_entry (options : SqsOptions) (d : Discovery)
  (s' : SqsService) (r : Completion unit) (name : QueueName)
  (v : SqsConsumerMapValues) :
  onModuleInit options d new_SqsService = (s', r) ->
  Map_get name (consumers s') = Some v ->
  exists o metadata,
    In o (declared_consumers options) /\ c_name o = name /\
    find_metadata (messageHandlers d) name = Some metadata /\
    v = new_entry d (globalStopOptions options) o metadata /\
    In (Consumer_create_call (createdWith (instance v))) (calls s').
Proof.
  intros Hinit Hget.
  destruct (onModuleInit_consumers _ _ _ _ Hinit)
    as [done [rest [more [Hl [Hc [_ [Hcalls _]]]]]]].
  rewrite Hc in Hget. apply Map_get_In, registered_In in Hget.
  destruct Hget as [o [md [Hin [Hname [Hmd ->]]]]].
  exists o, md. split; [rewrite Hl; apply in_or_app; now left|].
  split; [exact Hname|]. split; [exact Hmd|]. split; [reflexivity|].
  rewrite Hcalls. apply in_or_app. left. apply in_map_iff.
  exists o. split; [|exact Hin].
  unfold declaration_call. rewrite Hname, Hmd. simpl.
  now rewrite attach_listeners_createdWith.
Qed.

(** C8.  After [onModuleInit], the poller stored for a queue name was
    created with exactly one callback, the discovered handler bound to
    its owner: [handleMessageBatch] when the handler is flagged
    [batch: true], [handleMessage] otherwise.  Every [Consumer.create]
    call of the log carries exactly one of the two, and when
    [onModuleInit] ends normally every declaration with a handler has
    such a poller. *)
Theorem exactly_one_callback_kind (options : SqsOptions) (d : Discovery)
  (s' : SqsService) (r : Completion unit) :
  onModuleInit options d new_SqsService = (s', r) ->
  (forall name v,
     Map_get name (consumers s') = Some v ->
     exists metadata,
       find_metadata (messageHandlers d) name = Some metadata /\
       In (Consumer_create_call (createdWith (instance v))) (calls s') /\
       let bound :=
         Function_bind (handler (discoveredMethod metadata))
           (dc_instance (parentClass (discoveredMethod metadata))) in
       (mh_batch (meta metadata) = Some true ->
        handleMessageBatch (createdWith (instance v)) = Some bound /\
        handleMessage (createdWith (instance v)) = None) /\
       (mh_batch (meta metadata) <> Some true ->
        handleMessage (createdWith (instance v)) = Some bound /\
        handleMessageBatch (createdWith (instance v)) = None)) /\
  (forall o,
     In (Consumer_create_call o) (calls s') ->
     (handleMessage o = None /\ handleMessageBatch o <> None) \/
     (handleMessage o <> None /\ handleMessageBatch o = None)) /\
  (r = Normal tt ->
   forall o metadata,
     In o (declared_consumers options) ->
     find_metadata (messageHandlers d) (c_name o) = Some metadata ->
     Map_has (c_name o) (consumers s') = true).
Proof.
  intros Hinit. split; [|split].
  - intros name v Hget.
    destruct (onModuleInit_entry _ _ _ _ _ _ Hinit Hget)
      as [o [md [_ [_ [Hmd [-> Hcall]]]]]].
    exists md. split; [exact Hmd|]. split; [exact Hcall|].
    simpl. rewrite attach_listeners_createdWith. simpl.
    unfold consumer_create_options, isBatchHandler.
    destruct (mh_batch (meta md)) as [[|]|]; simpl; split;
      intros H; try discriminate; try (now auto); now exfalso.
  - intros o Hin.
    destruct (onModuleInit_consumers _ _ _ _ Hinit)
      as [done [rest [more [_ [_ [_ [Hcalls Hmore]]]]]]].
    assert (Hbuilt : exists x md,
               o = consumer_create_options (c_consumerOptions x) md).
    { rewrite Hcalls in Hin. apply in_app_or in Hin.
      destruct Hin as [Hin|Hin]; [|exact (Hmore o Hin)].
      apply in_map_iff in Hin. destruct Hin as [x [Hx _]].
      exists x. exact (proj2 (declaration_call_shape d x) o Hx). }
    destruct Hbuilt as [x [md ->]]. unfold consumer_create_options.
    destruct (isBatchHandler md); simpl; [left | right];
      split; congruence.
  - intros -> o md Hin Hmd.
    destruct (onModuleInit_consumers _ _ _ _ Hinit)
      as [done [rest [more [Hl [Hc [Hrest _]]]]]].
    rewrite (Hrest eq_refl), app_nil_r in Hl. rewrite Hc, <- Hl.
    now apply (registered_has _ _ _ _ md).
Qed.

(** C10.  After [onModuleInit], the listeners of the poller stored for a
    queue name are the event handlers discovered for that name, in
    discovery order, each under its event name and each bound to the
    instance that owns the message handler of the queue, whatever
    instance owns the event handler itself. *)
Theorem event_handlers_bound_to_message_handler_owner
  (options : SqsOptions) (d : Discovery)
  (s' : SqsService) (r : Completion unit)
  (name : QueueName) (v : SqsConsumerMapValues) :
  onModuleInit options d new_SqsService = (s', r) ->
  Map_get name (consumers s') = Some v ->
  exists metadata,
    find_metadata (messageHandlers d) name = Some metadata /\
    listeners (instance v) =
      map (fun ev =>
             (eh_eventName (meta ev),
              Function_bind (handler (discoveredMethod ev))
                (dc_instance (parentClass (discoveredMethod metadata)))))
        (filter_eventsMetadata (eventHandlers d) name) /\
    forall eventName listener,
      In (eventName, listener) (listeners (instance v)) ->
      boundThis listener =
      dc_instance (parentClass (discoveredMethod metadata)).
Proof.
  intros Hinit Hget.
  destruct (onModuleInit_entry _ _ _ _ _ _ Hinit Hget)
    as [o [md [_ [Hname [Hmd [-> _]]]]]].
  exists md. split; [exact Hmd|].
  assert (Hl : listeners (instance (new_entry d (globalStopOptions options) o md))
               = map (fun ev =>
                        (eh_eventName (meta ev),
                         Function_bind (handler (discoveredMethod ev))
                           (dc_instance (parentClass (discoveredMethod md)))))
                   (filter_eventsMetadata (eventHandlers d) name)).
  { simpl. rewrite attach_listeners_listeners, Hname. reflexivity. }
  split; [exact Hl|].
  intros eventName listener Hin. rewrite Hl in Hin.
  apply in_map_iff in Hin. destruct Hin as [ev [[= _ <-] _]]. reflexivity.
Qed.

(** C9.  In the log of [onModuleInit], a [start] call comes only after
    the registry is complete: the two registration passes have ended
    normally by then, their calls all precede it, the maps they built
    hold every declared producer and every declared consumer that has a
    handler and are the maps [onModuleInit] leaves, and only [start]
    calls follow. *)
Theorem start_only_after_full_registry (options : SqsOptions) (d : Discovery)
  (s' : SqsService) (r : Completion unit)
  (before after : list Call) (c : Consumer) :
  onModuleInit options d new_SqsService = (s', r) ->
  calls s' = before ++ start_call c :: after ->
  exists s1,
    build_registry options d new_SqsService = (s1, Normal tt) /\
    (exists x, before = calls s1 ++ x) /\
    (forall c', ~ In (start_call c') (calls s1)) /\
    consumers s' = consumers s1 /\
    producers s' = producers s1 /\
    (forall o, In o (declared_producers options) ->
               Map_has (p_name o) (producers s1) = true) /\
    (forall o metadata,
       In o (declared_consumers options) ->
       find_metadata (messageHandlers d) (c_name o) = Some metadata ->
       Map_has (c_name o) (consumers s1) = true) /\
    Forall (fun x => is_start_call x = true) after.
Proof.
  unfold onModuleInit, mbind.
  destruct (build_registry options d new_SqsService) as [s1 r1] eqn:Hb.
  destruct (build_registry_spec _ _ _ _ Hb)
    as [done [rest [more [Hl [Hc [Hcalls [Hmore [_ Hok]]]]]]]].
  assert (Hnostart : forall c', ~ In (start_call c') (calls s1)).
  { intros c' Hin. rewrite Hcalls in Hin. apply in_app_or in Hin.
    destruct Hin as [Hin|Hin].
    - exact (declaration_call_not_start d done c' Hin).
    - exact (Hmore c' Hin). }
  destruct r1 as [[]|e].
  - rewrite start_consumers_visited. intros [= <- <-] Hlog. simpl in Hlog.
    destruct (Hok eq_refl) as [-> Hprod]. rewrite app_nil_r in Hl.
    destruct (split_after_prefix _ _ _ _ _ Hlog (Hnostart c)) as [x [Hx Hstarts]].
    exists s1. split; [reflexivity|]. split; [now exists x|].
    split; [exact Hnostart|]. split; [reflexivity|]. split; [reflexivity|].
    split; [exact Hprod|]. split.
    + intros o md Hin Hmd. rewrite Hc, <- Hl.
      now apply (registered_has _ _ _ _ md).
    + assert (Hall : Forall (fun y => is_start_call y = true)
                       (x ++ start_call c :: after)).
      { rewrite <- Hstarts. apply Forall_forall. intros y Hy.
        apply in_map_iff in Hy. destruct Hy as [z [<- _]]. reflexivity. }
      apply Forall_app in Hall. destruct Hall as [_ Hall].
      now inversion Hall.
  - intros [= <- <-] Hlog. exfalso. apply (Hnostart c).
    rewrite Hlog. apply in_elt.
Qed.
End Wiring.

(* ================================================================== *)
(** ** Properties of the control-plane operations *)

Section ControlPlane.
Context {E : Externals} {B : Behaviour}.

Lemma wire_message_wire_of (message : JsObject) :
  wire_of message (wire_message message).
Proof.
  unfold wire_of, wire_message. rewrite obj_get_set_same.
  split; [|split].
  - intros text Hbody. now rewrite Hbody.
  - intros Hnot.
    destruct (obj_get "body" message) as [| | | |text| |] eqn:Hbody;
      try reflexivity.
    exfalso. exact (Hnot text eq_refl).
  - intros k Hk. split.
    + now apply obj_get_set_other.
    + now apply obj_has_set_other.
Qed.

Lemma Map_has_get {V} (k : QueueName) (m : JsMap V) :
  Map_has k m = true -> exists v, Map_get k m = Some v.
Proof.
  unfold Map_has. destruct (Map_get k m) as [v|]; [eauto | discriminate].
Qed.

(** C4.  For a name of the producer map, [send] makes one call, on the
    producer stored under that name: with exactly one message when the
    payload is a single message, and with one message per element, in
    order, when the payload is an array.  The body of each message
    handed over is the original body when that is a string and
    [JSON.stringify] of it when it is anything else, and every other
    property is the original's.  What the producer answers is what
    [send] returns. *)
Theorem send_serializes_bodies (name : QueueName) (payload : Payload)
  (s : SqsService) :
  Map_has name (producers s) = true ->
  exists producer dispatched,
    Map_get name (producers s) = Some producer /\
    send name payload s =
    (logged (producer_send_call producer dispatched) s,
     Producer_send producer dispatched) /\
    match payload with
    | one_message message =>
        exists sent, dispatched = [sent] /\ wire_of message sent
    | message_array messages => Forall2 wire_of messages dispatched
    end.
Proof.
  intros Hhas. destruct (Map_has_get _ _ Hhas) as [producer Hget].
  exists producer, (map wire_message (originalMessages payload)).
  split; [exact Hget|]. split.
  - unfold send, mbind, gets. rewrite Hhas. simpl. rewrite Hget.
    unfold call, modify, lift. reflexivity.
  - destruct payload as [message|messages]; simpl.
    + exists (wire_message message). split; [reflexivity|].
      apply wire_message_wire_of.
    + induction messages as [|m l IH]; simpl; constructor.
      * apply wire_message_wire_of.
      * exact IH.
Qed.

(** The cases of [getQueueInfo], on any service.  It reads the
    instance of the consumer entry when the name is in the consumer map
    and the producer otherwise.  It returns the client and the queue
    address of that instance when the instance exposes a client, and
    throws "SQS instance does not exist" when it exposes none, without
    turning to the producer map.  It throws "Consumer/Producer does not
    exist" when the name is in neither map.  [purgeQueue] sends its
    command to the client [getQueueInfo] returns. *)
Lemma getQueueInfo_cases (name : QueueName) (s : SqsService) :
  (forall v,
     Map_get name (consumers s) = Some v ->
     (forall sqs,
        Consumer_sqs (instance v) = Some sqs ->
        getQueueInfo name s =
          (s, Normal (sqs, Consumer_queueUrl (instance v))) /\
        fst (purgeQueue name s) =
          logged (sqs_send_call sqs
                    (PurgeQueueCommand (Consumer_queueUrl (instance v)))) s /\
        fst (getQueueAttributes name s) =
          logged (sqs_send_call sqs
                    (GetQueueAttributesCommand
                       (Consumer_queueUrl (instance v)) ["All"])) s) /\
     (Consumer_sqs (instance v) = None ->
      getQueueInfo name s = (s, Throw (Error "SQS instance does not exist")))) /\
  (Map_get name (consumers s) = None ->
   forall p,
     Map_get name (producers s) = Some p ->
     (forall sqs,
        Producer_sqs p = Some sqs ->
        getQueueInfo name s = (s, Normal (sqs, Producer_queueUrl p)) /\
        fst (purgeQueue name s) =
          logged (sqs_send_call sqs (PurgeQueueCommand (Producer_queueUrl p))) s /\
        fst (getQueueAttributes name s) =
          logged (sqs_send_call sqs
                    (GetQueueAttributesCommand (Producer_queueUrl p) ["All"])) s) /\
     (Producer_sqs p = None ->
      getQueueInfo name s = (s, Throw (Error "SQS instance does not exist")))) /\
  (Map_get name (consumers s) = None ->
   Map_get name (producers s) = None ->
   let not_found := Error ("Consumer/Producer does not exist: " ++ name) in
   getQueueInfo name s = (s, Throw not_found) /\
   purgeQueue name s = (s, Throw not_found) /\
   getQueueAttributes name s = (s, Throw not_found)).
Proof.
  split; [|split].
  - intros v Hget.
    assert (Hh : Map_has name (consumers s) = true)
      by (unfold Map_has; now rewrite Hget).
    split.
    + intros sqs Hsqs.
      assert (Hinfo : getQueueInfo name s =
                      (s, Normal (sqs, Consumer_queueUrl (instance v)))).
      { unfold getQueueInfo, mbind, gets. rewrite Hh. simpl.
        unfold consumer_or_producer. now rewrite Hget, Hsqs. }
      split; [exact Hinfo|]. split.
      * unfold purgeQueue, mbind. rewrite Hinfo.
        unfold sqs_send, call, modify, mbind, lift. simpl.
        first [ reflexivity
              | now destruct (SQSClient_send sqs (GetQueueAttributesCommand _ _)) ].
      * unfold getQueueAttributes, mbind. rewrite Hinfo.
        unfold sqs_send, call, modify, mbind, lift. simpl.
        first [ reflexivity
              | now destruct (SQSClient_send sqs (GetQueueAttributesCommand _ _)) ].
    + intros Hsqs. unfold getQueueInfo, mbind, gets. rewrite Hh. simpl.
      unfold consumer_or_producer. now rewrite Hget, Hsqs.
  - intros Hnone p Hget.
    assert (Hc : Map_has name (consumers s) = false)
      by (unfold Map_has; now rewrite Hnone).
    assert (Hp : Map_has name (producers s) = true)
      by (unfold Map_has; now rewrite Hget).
    split.
    + intros sqs Hsqs.
      assert (Hinfo : getQueueInfo name s =
                      (s, Normal (sqs, Producer_queueUrl p))).
      { unfold getQueueInfo, mbind, gets. rewrite Hc, Hp. simpl.
        unfold consumer_or_producer. now rewrite Hnone, Hget, Hsqs. }
      split; [exact Hinfo|]. split.
      * unfold purgeQueue, mbind. rewrite Hinfo.
        unfold sqs_send, call, modify, mbind, lift. simpl.
        first [ reflexivity
              | now destruct (SQSClient_send sqs (GetQueueAttributesCommand _ _)) ].
      * unfold getQueueAttributes, mbind. rewrite Hinfo.
        unfold sqs_send, call, modify, mbind, lift. simpl.
        first [ reflexivity
              | now destruct (SQSClient_send sqs (GetQueueAttributesCommand _ _)) ].
    + intros Hsqs. unfold getQueueInfo, mbind, gets. rewrite Hc, Hp. simpl.
      unfold consumer_or_producer. now rewrite Hnone, Hget, Hsqs.
  - intros Hnc Hnp not_found.
    assert (Hc : Map_has name (consumers s) = false)
      by (unfold Map_has; now rewrite Hnc).
    assert (Hp : Map_has name (producers s) = false)
      by (unfold Map_has; now rewrite Hnp).
    assert (Hinfo : getQueueInfo name s = (s, Throw not_found)).
    { unfold getQueueInfo, mbind, gets. rewrite Hc, Hp. reflexivity. }
    split; [exact Hinfo|]. split.
    + unfold purgeQueue, mbind. now rewrite Hinfo.
    + unfold getQueueAttributes, mbind. now rewrite Hinfo.
Qed.

(** For a name that is not in the consumer map, the bodies of
    [changeMessageVisibility], [deleteMessage] and [deleteMessageBatch]
    throw "Consumer does not exist" and leave the service and the log
    as they were. *)
Lemma message_operation_bodies_throw (name : QueueName) (s : SqsService)
  (receiptHandle : string) (visibilityTimeout : Z)
  (messages : list SqsMessage) :
  Map_has name (consumers s) = false ->
  let not_found := Error ("Consumer does not exist: " ++ name) in
  changeMessageVisibility name receiptHandle visibilityTimeout s
    = (s, Throw not_found) /\
  deleteMessage name receiptHandle s = (s, Throw not_found) /\
  deleteMessageBatch name messages s = (s, Throw not_found).
Proof.
  intros Hhas not_found.
  unfold changeMessageVisibility, deleteMessage, deleteMessageBatch,
    on_consumer, mbind, gets.
  rewrite Hhas. simpl. auto.
Qed.

(** C6, as amended.  For a name that is not in the consumer map,
    whether or not it is in the producer map, a call of
    [changeMessageVisibility], [deleteMessage] or [deleteMessageBatch]
    throws nothing: the three methods are [async], and the call returns
    a promise that is already rejected with "Consumer does not exist".
    The service and the log are left as they were: no command is
    sent. *)
Theorem message_operations_reject_without_a_consumer
  (name : QueueName) (s : SqsService)
  (receiptHandle : string) (visibilityTimeout : Z)
  (messages : list SqsMessage) :
  Map_has name (consumers s) = false ->
  let not_found := Error ("Consumer does not exist: " ++ name) in
  async (changeMessageVisibility name receiptHandle visibilityTimeout) s
    = (s, Normal (Rejected not_found)) /\
  async (deleteMessage name receiptHandle) s
    = (s, Normal (Rejected not_found)) /\
  async (deleteMessageBatch name messages) s
    = (s, Normal (Rejected not_found)).
Proof.
  intros Hhas not_found.
  destruct (message_operation_bodies_throw name s receiptHandle
              visibilityTimeout messages Hhas) as [H1 [H2 H3]].
  unfold async. rewrite H1, H2, H3. auto.
Qed.

(** C7.  For a name that is not in the producer map, whether or not it
    is in the consumer map, [send] and [getProducerQueueSize] throw
    "Producer does not exist" and leave the service and the log as they
    were: nothing is handed to a producer. *)
Theorem producer_operations_need_a_producer (name : QueueName)
  (s : SqsService) (payload : Payload) :
  Map_has name (producers s) = false ->
  let not_found := Error ("Producer does not exist: " ++ name) in
  send name payload s = (s, Throw not_found) /\
  getProducerQueueSize name s = (s, Throw not_found).
Proof.
  intros Hhas not_found.
  unfold send, getProducerQueueSize, mbind, gets.
  rewrite Hhas. simpl. auto.
Qed.
End ControlPlane.

(* ================================================================== *)
(** ** The states a service reaches *)

Section Reachable.
Context {E : Externals} {B : Behaviour}.

Lemma ro_ret {A} (a : A) : read_only (ret a).
Proof. intros s. simpl. repeat split. exists []. now rewrite app_nil_r. Qed.

Lemma ro_throw {A} (e : Exn) : read_only (@throw _ A e).
Proof. intros s. simpl. repeat split. exists []. now rewrite app_nil_r. Qed.

Lemma ro_lift {A} (c : Completion A) : read_only (lift c).
Proof. intros s. simpl. repeat split. exists []. now rewrite app_nil_r. Qed.

Lemma ro_gets {A} (f : SqsService -> A) : read_only (gets f).
Proof. intros s. simpl. repeat split. exists []. now rewrite app_nil_r. Qed.

Lemma ro_call (c : Call) : read_only (call c).
Proof. intros s. simpl. repeat split. now exists [c]. Qed.

Lemma ro_bind {A C} (m : Js A) (k : A -> Js C) :
  read_only m -> (forall a, read_only (k a)) -> read_only (mbind m k).
Proof.
  intros Hm Hk s. unfold mbind.
  destruct (Hm s) as [Hc [Hp [evs Hl]]].
  destruct (m s) as [s1 [a|e]]; simpl in *.
  - destruct (Hk a s1) as [Hc' [Hp' [evs' Hl']]].
    split; [congruence|]. split; [congruence|].
    exists (evs ++ evs'). now rewrite Hl', Hl, app_assoc.
  - split; [exact Hc|]. split; [exact Hp|]. now exists evs.
Qed.

Lemma ro_forEach {A} (f : A -> Js unit) (l : list A) :
  (forall x, read_only (f x)) -> read_only (forEach f l).
Proof.
  intros Hf. induction l as [|x l IH]; simpl.
  - apply ro_ret.
  - apply ro_bind; auto.
Qed.

Lemma ro_sqs_send (client : SQSClient) (command : Command) :
  read_only (sqs_send client command).
Proof.
  unfold sqs_send. apply ro_bind; [apply ro_call|]. intros _. apply ro_lift.
Qed.

Lemma ro_getQueueInfo (name : QueueName) : read_only (getQueueInfo name).
Proof.
  unfold getQueueInfo. apply ro_bind; [apply ro_gets|].
  intros known. destruct (negb known); [apply ro_throw|].
  apply ro_bind; [apply ro_gets|].
  intros [[[sqs|] url]|]; [apply ro_ret | apply ro_throw | apply ro_throw].
Qed.

Lemma ro_on_consumer (name : QueueName) (command : string -> Command) :
  read_only (on_consumer name command).
Proof.
  unfold on_consumer. apply ro_bind; [apply ro_gets|].
  intros has. destruct (negb has); [apply ro_throw|].
  apply ro_bind; [apply ro_gets|].
  intros [[[sqs|] url]|]; [apply ro_sqs_send | apply ro_throw | apply ro_throw].
Qed.

Lemma ro_purgeQueue (name : QueueName) : read_only (purgeQueue name).
Proof.
  unfold purgeQueue. apply ro_bind; [apply ro_getQueueInfo|].
  intros [sqs url]. apply ro_sqs_send.
Qed.

Lemma ro_getQueueAttributes (name : QueueName) :
  read_only (getQueueAttributes name).
Proof.
  unfold getQueueAttributes. apply ro_bind; [apply ro_getQueueInfo|].
  intros [sqs url]. apply ro_bind; [apply ro_sqs_send|].
  intros response. apply ro_lift.
Qed.

Lemma ro_getProducerQueueSize (name : QueueName) :
  read_only (getProducerQueueSize name).
Proof.
  unfold getProducerQueueSize. apply ro_bind; [apply ro_gets|].
  intros has. destruct (negb has); [apply ro_throw|].
  apply ro_bind; [apply ro_gets|].
  intros [p|]; [|apply ro_throw].
  apply ro_bind; [apply ro_call|]. intros _. apply ro_ret.
Qed.

Lemma ro_send (name : QueueName) (payload : Payload) :
  read_only (send name payload).
Proof.
  unfold send. apply ro_bind; [apply ro_gets|].
  intros has. destruct (negb has); [apply ro_throw|].
  apply ro_bind; [apply ro_gets|].
  intros [p|]; [|apply ro_throw].
  apply ro_bind; [apply ro_call|]. intros _. apply ro_lift.
Qed.

Lemma ro_onModuleDestroy : read_only onModuleDestroy.
Proof.
  unfold onModuleDestroy. apply ro_bind; [apply ro_gets|].
  intros vs. apply ro_forEach. intros v. unfold stop.
  apply ro_bind; [apply ro_call|].
  intros _. destruct (Consumer_stop (instance v) (stopOptions v));
    [apply ro_throw | apply ro_ret].
Qed.

(** Whether every stored instance exposes a client depends on the two
    maps only. *)
Lemma clients_installed_maps (s s' : SqsService) :
  consumers s' = consumers s ->
  producers s' = producers s ->
  clients_installed s -> clients_installed s'.
Proof. unfold clients_installed. now intros -> ->. Qed.

Lemma read_only_keeps_clients {A} (m : Js A) (s : SqsService) :
  read_only m -> clients_installed s -> clients_installed (fst (m s)).
Proof.
  intros Hro. destruct (Hro s) as [Hc [Hp _]].
  now apply clients_installed_maps.
Qed.

(** The entry stored for a declaration the factory accepts holds a
    poller that exposes a client. *)
Lemma registered_one_client (d : Discovery) (gso : StopOptions)
  (o : SqsConsumerOptions) (n : QueueName) (v : SqsConsumerMapValues) :
  rejection d o = None ->
  In (n, v) (registered d gso [o]) ->
  Consumer_sqs (instance v) <> None.
Proof.
  unfold rejection, registered. simpl.
  destruct (find_metadata (messageHandlers d) (c_name o)) as [metadata|];
    [|intros _ []].
  intros Hacc [[= _ <-]|[]]. simpl.
  pose proof (attach_listeners_createdWith
                (filter_eventsMetadata (eventHandlers d) (c_name o)) metadata
                {| createdWith :=
                     consumer_create_options (c_consumerOptions o) metadata;
                   listeners := [] |}) as Hcw.
  destruct (attach_listeners _ metadata _) as [cw ls]. simpl in Hcw.
  subst cw. now apply Consumer_created_with_client.
Qed.

Lemma consumer_pass_clients (d : Discovery) (gso : StopOptions)
  (l : list SqsConsumerOptions) :
  forall s,
    clients_installed s ->
    clients_installed (fst (forEach (register_consumer d gso) l s)).
Proof.
  induction l as [|o l IH]; intros s Hs; [exact Hs|].
  simpl. unfold mbind.
  destruct (Map_has (c_name o) (consumers s)) eqn:Hhas.
  - now rewrite (register_consumer_rejects _ _ _ _ Hhas).
  - destruct (rejection d o) as [e|] eqn:Hrej.
    + rewrite (register_consumer_refused _ _ _ _ _ Hhas Hrej). simpl.
      now apply (clients_installed_maps s).
    + rewrite (register_consumer_accepts _ _ _ _ Hhas Hrej).
      apply IH. destruct Hs as [Hc Hp]. split; [|exact Hp].
      intros n v Hin. cbn [consumers] in Hin.
      apply in_app_or in Hin. destruct Hin as [Hin|Hin].
      * exact (Hc n v Hin).
      * exact (registered_one_client d gso o n v Hrej Hin).
Qed.

Lemma producer_pass_clients (l : list SqsProducerOptions) :
  forall s,
    clients_installed s ->
    clients_installed (fst (forEach register_producer l s)).
Proof.
  induction l as [|o l IH]; intros s Hs; [exact Hs|].
  simpl. unfold mbind.
  destruct (Map_has (p_name o) (producers s)) eqn:Hhas.
  - now rewrite (register_producer_rejects _ _ Hhas).
  - destruct (Producer_create_throws (p_producerOptions o)) as [e|] eqn:Hrej.
    + rewrite (register_producer_refused _ _ _ Hhas Hrej). simpl.
      now apply (clients_installed_maps s).
    + rewrite (register_producer_accepts _ _ Hhas Hrej).
      apply IH. destruct Hs as [Hc Hp]. split; [exact Hc|].
      intros n p Hin. cbn [producers] in Hin.
      apply in_app_or in Hin. destruct Hin as [Hin|[[= _ <-]|[]]].
      * exact (Hp n p Hin).
      * now apply Producer_created_with_client.
Qed.

Lemma onModuleInit_keeps_clients (options : SqsOptions) (d : Discovery)
  (s : SqsService) :
  clients_installed s ->
  clients_installed (fst (onModuleInit options d s)).
Proof.
  intros Hs. rewrite onModuleInit_steps.
  pose proof (consumer_pass_clients d (globalStopOptions options)
                (declared_consumers options) s Hs) as H0.
  destruct (forEach (register_consumer d (globalStopOptions options))
              (declared_consumers options) s) as [s0 [[]|e]]; [|exact H0].
  pose proof (producer_pass_clients (declared_producers options) s0 H0) as H1.
  destruct (forEach register_producer (declared_producers options) s0)
    as [s1 [[]|e]]; [|exact H1].
  rewrite start_consumers_visited. now apply (clients_installed_maps s1).
Qed.

(** Every instance a service holds was made by a factory, and exposes
    the client the factory installed. *)
Lemma reachable_clients_installed (s : SqsService) :
  reachable s -> clients_installed s.
Proof.
  induction 1 as [|options d s _ IH|s _ IH|name s _ IH|name s _ IH
                 |name s _ IH|name payload s _ IH
                 |name receiptHandle visibilityTimeout s _ IH
                 |name receiptHandle s _ IH|name messages s _ IH].
  - split; intros n v [].
  - now apply onModuleInit_keeps_clients.
  - apply read_only_keeps_clients; [apply ro_onModuleDestroy | exact IH].
  - apply read_only_keeps_clients; [apply ro_purgeQueue | exact IH].
  - apply read_only_keeps_clients; [apply ro_getQueueAttributes | exact IH].
  - apply read_only_keeps_clients; [apply ro_getProducerQueueSize | exact IH].
  - apply read_only_keeps_clients; [apply ro_send | exact IH].
  - apply read_only_keeps_clients; [apply ro_on_consumer | exact IH].
  - apply read_only_keeps_clients; [apply ro_on_consumer | exact IH].
  - apply read_only_keeps_clients; [apply ro_on_consumer | exact IH].
Qed.

(** C5.  On every service the methods can reach, [getQueueInfo]
    resolves a name consumer first.  For a name of the consumer map it
    returns the client and the queue address of the poller stored under
    it, whether or not the producer map has the name too, and
    [purgeQueue] and [getQueueAttributes] send their command to that
    client: to the consumer's client when the two roles have different
    clients.  For a name of the producer map only, it returns the client
    and the queue address of the producer, and the two methods use
    them.  For a name of neither map the three throw "Consumer/Producer
    does not exist", and nothing is sent. *)
Theorem resolution_prefers_consumer (name : QueueName) (s : SqsService) :
  reachable s ->
  match Map_get name (consumers s) with
  | Some v =>
      let url := Consumer_queueUrl (instance v) in
      exists sqs,
        Consumer_sqs (instance v) = Some sqs /\
        getQueueInfo name s = (s, Normal (sqs, url)) /\
        purgeQueue name s =
          (logged (sqs_send_call sqs (PurgeQueueCommand url)) s,
           SQSClient_send sqs (PurgeQueueCommand url)) /\
        fst (getQueueAttributes name s) =
          logged (sqs_send_call sqs (GetQueueAttributesCommand url ["All"])) s
  | None =>
      match Map_get name (producers s) with
      | Some p =>
          let url := Producer_queueUrl p in
          exists sqs,
            Producer_sqs p = Some sqs /\
            getQueueInfo name s = (s, Normal (sqs, url)) /\
            purgeQueue name s =
              (logged (sqs_send_call sqs (PurgeQueueCommand url)) s,
               SQSClient_send sqs (PurgeQueueCommand url)) /\
            fst (getQueueAttributes name s) =
              logged
                (sqs_send_call sqs (GetQueueAttributesCommand url ["All"])) s
      | None =>
          let not_found :=
            Error ("Consumer/Producer does not exist: " ++ name) in
          getQueueInfo name s = (s, Throw not_found) /\
          purgeQueue name s = (s, Throw not_found) /\
          getQueueAttributes name s = (s, Throw not_found)
      end
  end.
Proof.
  intros Hreach.
  destruct (reachable_clients_installed s Hreach) as [Hcs Hps].
  destruct (getQueueInfo_cases name s) as [Hc [Hp Hn]].
  destruct (Map_get name (consumers s)) as [v|] eqn:Hgc.
  - intros url.
    destruct (Consumer_sqs (instance v)) as [sqs|] eqn:Hsqs.
    + exists sqs. split; [reflexivity|].
      destruct (proj1 (Hc v eq_refl) sqs Hsqs) as [Hinfo [_ Hattr]].
      split; [exact Hinfo|]. split; [|exact Hattr].
      unfold purgeQueue, mbind. rewrite Hinfo. reflexivity.
    + exfalso. exact (Hcs name v (Map_get_In _ _ _ Hgc) Hsqs).
  - destruct (Map_get name (producers s)) as [p|] eqn:Hgp.
    + intros url.
      destruct (Producer_sqs p) as [sqs|] eqn:Hsqs.
      * exists sqs. split; [reflexivity|].
        destruct (proj1 (Hp eq_refl p eq_refl) sqs Hsqs) as [Hinfo [_ Hattr]].
        split; [exact Hinfo|]. split; [|exact Hattr].
        unfold purgeQueue, mbind. rewrite Hinfo. reflexivity.
      * exfalso. exact (Hps name p (Map_get_In _ _ _ Hgp) Hsqs).
    + exact (Hn eq_refl eq_refl).
Qed.
End Reachable.

(* ================================================================== *)
(** ** The properties on the test double *)

(** [onModuleInit] on [orders], [audit] and [invoices]: two pollers in
    declaration order, one producer, and a log of two creations around a
    warning, the producer's creation and two starts. *)
Example onModuleInit_example :
  onModuleInit (td_options [orders; audit; invoices]) td_discovery
    new_SqsService =
  ({| consumers :=
        [("orders",
          {| instance := orders_poller; stopOptions := {| abort := None |} |});
         ("invoices",
          {| instance := invoices_poller; stopOptions := {| abort := None |} |})];
      producers := [("orders", orders_sender)];
      calls :=
        [Consumer_create_call (createdWith orders_poller);
         logger_warn_call "No metadata found for: audit";
         Consumer_create_call (createdWith invoices_poller);
         Producer_create_call (p_producerOptions orders_out);
         start_call orders_poller;
         start_call invoices_poller] |},
   Normal tt).
Proof. reflexivity. Qed.

(** C1, as stated, fails.  After [onModuleInit] on two consumers of
    which the first refuses to stop, [onModuleDestroy] throws at the
    first: the log holds one [stop] call, and none on the second
    consumer. *)
Lemma stop_pass_skips_consumers_after_a_failure :
  exists first second,
    Map_values (consumers (initialised [stubborn_orders; invoices]))
      = [first; second] /\
    Consumer_stop (instance first) (stopOptions first)
      = Some (Error "stop failed") /\
    snd (onModuleDestroy (initialised [stubborn_orders; invoices]))
      = Throw (Error "stop failed") /\
    length
      (filter is_stop_call
         (calls (fst (onModuleDestroy (initialised [stubborn_orders; invoices])))))
      = 1 /\
    ~ In (stop_call (instance second) (stopOptions second))
        (calls (fst (onModuleDestroy (initialised [stubborn_orders; invoices])))).
Proof.
  eexists. eexists. split; [reflexivity|].
  split; [reflexivity|]. split; [reflexivity|]. split; [reflexivity|].
  vm_compute. intros H.
  repeat (destruct H as [H|H]; [discriminate H|]). exact H.
Qed.

(** The stop pass on the same service: one [stop] call, on the first
    consumer, and its exception. *)
Lemma stop_pass_ends_at_first_failure_witness :
  exists first second,
    Map_values (consumers (initialised [stubborn_orders; invoices]))
      = [] ++ first :: [second] /\
    onModuleDestroy (initialised [stubborn_orders; invoices]) =
    (with_calls
       (calls (initialised [stubborn_orders; invoices]) ++
        map (fun v => stop_call (instance v) (stopOptions v)) ([] ++ [first]))
       (initialised [stubborn_orders; invoices]),
     Throw (Error "stop failed")).
Proof.
  eexists. eexists. split; [reflexivity|].
  eapply (proj2 (stop_pass_ends_at_first_failure
                   (initialised [stubborn_orders; invoices]))
            [] _ [_] (Error "stop failed")).
  - reflexivity.
  - constructor.
  - reflexivity.
Defined.

(** C2, as stated, fails.  Two declarations of a name for which no
    handler was discovered are both skipped with a warning, and
    [onModuleInit] ends normally. *)
Lemma repeated_consumer_without_handler_is_accepted :
  opt_consumers (td_options [audit; audit]) = Some [audit; audit] /\
  c_name audit = c_name audit /\
  onModuleInit (td_options [audit; audit]) td_discovery new_SqsService =
  ({| consumers := [];
      producers := [("orders", {| producerOptions := p_producerOptions orders_out |})];
      calls := [logger_warn_call "No metadata found for: audit";
                logger_warn_call "No metadata found for: audit";
                Producer_create_call (p_producerOptions orders_out)] |},
   Normal tt).
Proof. repeat split. Qed.

(** [orders] declared twice, with a handler-less declaration in
    between, all accepted by the factory: the second [orders] is
    rejected as a duplicate. *)
Lemma repeated_consumer_with_handler_is_fatal_witness :
  exists done o' rest,
    [orders; audit; orders; invoices] = done ++ o' :: rest /\
    length done <= 2 /\
    snd (onModuleInit (td_options [orders; audit; orders; invoices])
           td_discovery new_SqsService)
    = Throw (Error ("Consumer already exists: " ++ c_name o')).
Proof.
  destruct (repeated_consumer_with_handler_is_fatal
              (td_options [orders; audit; orders; invoices]) td_discovery
              [] [audit] [invoices] orders orders _
              eq_refl eq_refl eq_refl)
    as [done [o' [rest [e [Hl [Hlen [Hcase Hdup]]]]]]].
  assert (Haccepted : Forall (fun o => rejection td_discovery o = None)
                        ([] ++ [orders; audit]))
    by (repeat constructor).
  exists done, o', rest. split; [exact Hl|]. split; [exact Hlen|].
  rewrite <- (Hdup Haccepted).
  destruct Hcase as [[_ [_ ->]]|[_ [_ ->]]]; reflexivity.
Defined.

(** A declaration without a queue address before a declaration of the
    same name: [onModuleInit] throws the factory's exception, with one
    [Consumer.create] call in the log and nothing stored. *)
Example rejected_declaration_example :
  onModuleInit (td_options [unaddressed_orders; orders]) td_discovery
    new_SqsService =
  ({| consumers := [];
      producers := [];
      calls := [declaration_call td_discovery unaddressed_orders] |},
   Throw (Error "Missing SQS consumer option [ queueUrl ].")).
Proof. reflexivity. Qed.

(** [audit] between [orders] and [invoices]: absent from the map, and
    the construction ends as it does without it. *)
Lemma consumer_without_handler_is_skipped_witness :
  Map_has "audit"
    (consumers (fst (onModuleInit (td_options [orders; audit; invoices])
                       td_discovery new_SqsService))) = false /\
  snd (onModuleInit (td_options [orders; audit; invoices])
         td_discovery new_SqsService) =
  snd (onModuleInit (td_options [orders; invoices])
         td_discovery new_SqsService).
Proof.
  pose proof (consumer_without_handler_is_skipped
                (td_options [orders; audit; invoices]) td_discovery
                [orders] [invoices] audit eq_refl eq_refl) as H.
  destruct H as [_ [Habsent [Hsame _]]].
  split; [exact Habsent | exact Hsame].
Defined.

(** The poller of [invoices], whose handler is flagged [batch: true],
    has the batch callback only. *)
Lemma exactly_one_callback_kind_witness :
  Map_get "invoices" (consumers (initialised [orders; audit; invoices]))
    = Some {| instance := invoices_poller; stopOptions := {| abort := None |} |} /\
  exists metadata,
    find_metadata (messageHandlers td_discovery) "invoices" = Some metadata /\
    (mh_batch (meta metadata) = Some true ->
     handleMessageBatch (createdWith invoices_poller) =
       Some (Function_bind (handler (discoveredMethod metadata))
               (dc_instance (parentClass (discoveredMethod metadata)))) /\
     handleMessage (createdWith invoices_poller) = None).
Proof.
  split; [reflexivity|].
  assert (Hinit : onModuleInit (td_options [orders; audit; invoices])
                    td_discovery new_SqsService
                  = (initialised [orders; audit; invoices], Normal tt))
    by reflexivity.
  destruct (proj1 (exactly_one_callback_kind
                     (td_options [orders; audit; invoices]) td_discovery
                     (initialised [orders; audit; invoices]) (Normal tt)
                     Hinit)
              "invoices"
              {| instance := invoices_poller; stopOptions := {| abort := None |} |}
              eq_refl)
    as [metadata [Hfind [_ [Hbatch _]]]].
  exists metadata. split; [exact Hfind | exact Hbatch].
Defined.

(** The fifth call of the log is the first [start]: the four before it
    are those of the registration passes, [start] calls alone follow. *)
Lemma start_only_after_full_registry_witness :
  calls (initialised [orders; audit; invoices]) =
    firstn 4 (calls (initialised [orders; audit; invoices])) ++
    start_call orders_poller ::
    skipn 5 (calls (initialised [orders; audit; invoices])) /\
  exists s1,
    build_registry (td_options [orders; audit; invoices]) td_discovery
      new_SqsService = (s1, Normal tt) /\
    (exists x, firstn 4 (calls (initialised [orders; audit; invoices]))
               = calls s1 ++ x) /\
    Forall (fun x => is_start_call x = true)
      (skipn 5 (calls (initialised [orders; audit; invoices]))).
Proof.
  split; [reflexivity|].
  assert (Hinit : onModuleInit (td_options [orders; audit; invoices])
                    td_discovery new_SqsService
                  = (initialised [orders; audit; invoices], Normal tt))
    by reflexivity.
  destruct (start_only_after_full_registry
              (td_options [orders; audit; invoices]) td_discovery
              (initialised [orders; audit; invoices]) (Normal tt)
              (firstn 4 (calls (initialised [orders; audit; invoices])))
              (skipn 5 (calls (initialised [orders; audit; invoices])))
              orders_poller Hinit eq_refl)
    as [s1 [Hbuild [Hbefore [_ [_ [_ [_ [_ Hafter]]]]]]]].
  exists s1. split; [exact Hbuild|]. split; [exact Hbefore | exact Hafter].
Defined.

(** The error listener of [orders] is a method of [monitoring] and is
    bound to [ordersService], the owner of the message handler. *)
Lemma event_handlers_bound_to_message_handler_owner_witness :
  Map_get "orders" (consumers (initialised [orders; audit; invoices]))
    = Some {| instance := orders_poller; stopOptions := {| abort := None |} |} /\
  map (fun h => dc_instance (parentClass (discoveredMethod h)))
    (filter_eventsMetadata (eventHandlers td_discovery) "orders")
    = ["monitoring"] /\
  exists metadata,
    find_metadata (messageHandlers td_discovery) "orders" = Some metadata /\
    forall eventName listener,
      In (eventName, listener) (listeners orders_poller) ->
      boundThis listener =
      dc_instance (parentClass (discoveredMethod metadata)).
Proof.
  split; [reflexivity|]. split; [reflexivity|].
  assert (Hinit : onModuleInit (td_options [orders; audit; invoices])
                    td_discovery new_SqsService
                  = (initialised [orders; audit; invoices], Normal tt))
    by reflexivity.
  destruct (event_handlers_bound_to_message_handler_owner
              (td_options [orders; audit; invoices]) td_discovery
              (initialised [orders; audit; invoices]) (Normal tt) "orders"
              {| instance := orders_poller; stopOptions := {| abort := None |} |}
              Hinit eq_refl)
    as [metadata [Hfind [_ Hbound]]].
  exists metadata. split; [exact Hfind | exact Hbound].
Defined.

(** The specification's example, as a single message: the body
    [{a: 1}] leaves as its JSON text and [id] is untouched; and a
    string body in an array leaves as it came. *)
Lemma send_serializes_bodies_witness :
  (exists producer sent,
     send "orders" (one_message structured_message) one_role_each =
     (logged (producer_send_call producer [sent]) one_role_each,
      Producer_send producer [sent]) /\
     obj_get "body" sent =
       JString ("{" ++ double_quote ++ "a" ++ double_quote ++ ":1}")%string /\
     obj_get "id" sent = JString "1") /\
  (exists producer dispatched,
     send "orders" (message_array [string_message]) one_role_each =
     (logged (producer_send_call producer dispatched) one_role_each,
      Producer_send producer dispatched) /\
     Forall2 wire_of [string_message] dispatched).
Proof.
  assert (Hhas : Map_has "orders" (producers one_role_each) = true)
    by reflexivity.
  split.
  - destruct (send_serializes_bodies "orders"
                (one_message structured_message) one_role_each Hhas)
      as [producer [dispatched [_ [Hsend [sent [-> [_ [Hother Hrest]]]]]]]].
    exists producer, sent. split; [exact Hsend|]. split.
    + rewrite Hother; [reflexivity|]. intros text H. discriminate H.
    + assert (Hid : "id" <> "body") by discriminate.
      rewrite (proj1 (Hrest "id" Hid)). reflexivity.
  - destruct (send_serializes_bodies "orders"
                (message_array [string_message]) one_role_each Hhas)
      as [producer [dispatched [_ [Hsend Hall]]]].
    exists producer, dispatched. split; [exact Hsend | exact Hall].
Defined.

(** The two sends of the specification's example: the body [{a: 1}]
    leaves as the seven characters of its JSON text, the string body
    leaves as it came, and [id] is untouched in both. *)
Example send_example :
  fst (send "orders" (message_array [structured_message; string_message])
         one_role_each) =
  logged
    (producer_send_call orders_sender
       [ [("id", JString "1");
          ("body",
           JString ("{" ++ double_quote ++ "a" ++ double_quote ++ ":1}")%string)];
         [("id", JString "2"); ("body", JString "already-a-string")] ])
    one_role_each.
Proof. reflexivity. Qed.

(** [orders] in both roles, reached by [onModuleInit] on the new
    service: the producer holds [client-b], and [purgeQueue] sends its
    command to the consumer's [client-a].  Where [orders] is a producer
    only, the command goes to [client-b]; a name of neither map is not
    found. *)
Lemma resolution_prefers_consumer_witness :
  (Map_get "orders" (producers orders_in_both_roles) = Some orders_sender /\
   Producer_sqs orders_sender = Some "client-b" /\
   purgeQueue "orders" orders_in_both_roles =
   (logged (sqs_send_call "client-a" (PurgeQueueCommand "https://sqs/orders"))
      orders_in_both_roles,
    SQSClient_send "client-a" (PurgeQueueCommand "https://sqs/orders"))) /\
  purgeQueue "orders" one_role_each =
  (logged (sqs_send_call "client-b" (PurgeQueueCommand "https://sqs/orders"))
     one_role_each,
   SQSClient_send "client-b" (PurgeQueueCommand "https://sqs/orders")) /\
  purgeQueue "payments" one_role_each =
  (one_role_each, Throw (Error "Consumer/Producer does not exist: payments")).
Proof.
  assert (Hboth : reachable orders_in_both_roles)
    by exact (reach_onModuleInit (td_options [orders]) td_discovery _
                reach_new).
  assert (Hone : reachable one_role_each)
    by exact (reach_onModuleInit (td_options [invoices]) td_discovery _
                reach_new).
  pose proof (resolution_prefers_consumer "orders" orders_in_both_roles Hboth)
    as H1.
  pose proof (resolution_prefers_consumer "orders" one_role_each Hone) as H2.
  pose proof (resolution_prefers_consumer "payments" one_role_each Hone)
    as H3.
  cbv in H1, H2, H3.
  destruct H1 as [sqs1 [Hs1 [_ [Hpurge1 _]]]]. injection Hs1 as <-.
  destruct H2 as [sqs2 [Hs2 [_ [Hpurge2 _]]]]. injection Hs2 as <-.
  destruct H3 as [_ [Hpurge3 _]].
  split; [split; [reflexivity | split; [reflexivity | exact Hpurge1]]|].
  split; [exact Hpurge2 | exact Hpurge3].
Defined.

(** C6, as stated, fails.  [orders] is a producer only here, and a
    call of each of the three operations on it throws nothing, now or
    later: it returns a promise, rejected with the not-found error. *)
Lemma message_operations_do_not_throw :
  Map_has "orders" (consumers one_role_each) = false /\
  async (changeMessageVisibility "orders" "receipt" 30) one_role_each =
    (one_role_each, Normal (Rejected (Error "Consumer does not exist: orders"))) /\
  async (deleteMessage "orders" "receipt") one_role_each =
    (one_role_each, Normal (Rejected (Error "Consumer does not exist: orders"))) /\
  async (deleteMessageBatch "orders"
           [{| MessageId := Some "m1"; ReceiptHandle := Some "receipt" |}])
    one_role_each =
    (one_role_each, Normal (Rejected (Error "Consumer does not exist: orders"))) /\
  forall e,
    snd (async (changeMessageVisibility "orders" "receipt" 30) one_role_each)
      <> Throw e /\
    snd (async (deleteMessage "orders" "receipt") one_role_each) <> Throw e /\
    snd (async (deleteMessageBatch "orders"
                  [{| MessageId := Some "m1"; ReceiptHandle := Some "receipt" |}])
           one_role_each) <> Throw e.
Proof.
  split; [reflexivity|]. split; [reflexivity|]. split; [reflexivity|].
  split; [reflexivity|]. intros e. repeat split; discriminate.
Qed.

(** [orders] is a producer only here: the promises of the three message
    operations are rejected. *)
Lemma message_operations_reject_without_a_consumer_witness :
  Map_has "orders" (consumers one_role_each) = false /\
  Map_has "orders" (producers one_role_each) = true /\
  async (changeMessageVisibility "orders" "receipt" 30) one_role_each =
    (one_role_each, Normal (Rejected (Error "Consumer does not exist: orders"))) /\
  async (deleteMessage "orders" "receipt") one_role_each =
    (one_role_each, Normal (Rejected (Error "Consumer does not exist: orders"))) /\
  async (deleteMessageBatch "orders"
           [{| MessageId := Some "m1"; ReceiptHandle := Some "receipt" |}])
    one_role_each =
    (one_role_each, Normal (Rejected (Error "Consumer does not exist: orders"))).
Proof.
  split; [reflexivity|]. split; [reflexivity|].
  assert (Hhas : Map_has "orders" (consumers one_role_each) = false)
    by reflexivity.
  exact (message_operations_reject_without_a_consumer "orders" one_role_each
           "receipt" 30
           [{| MessageId := Some "m1"; ReceiptHandle := Some "receipt" |}]
           Hhas).
Defined.

(** [invoices] is a consumer only here: [send] and
    [getProducerQueueSize] reject it. *)
Lemma producer_operations_need_a_producer_witness :
  Map_has "invoices" (producers one_role_each) = false /\
  Map_has "invoices" (consumers one_role_each) = true /\
  send "invoices" (one_message structured_message) one_role_each =
    (one_role_each, Throw (Error "Producer does not exist: invoices")) /\
  getProducerQueueSize "invoices" one_role_each =
    (one_role_each, Throw (Error "Producer does not exist: invoices")).
Proof.
  split; [reflexivity|]. split; [reflexivity|].
  assert (Hhas : Map_has "invoices" (producers one_role_each) = false)
    by reflexivity.
  exact (producer_operations_need_a_producer "invoices" one_role_each
           (one_message structured_message) Hhas).
Defined.

(* ================================================================== *)
(** ** Names and keys *)

Section Keys.
Context {E : Externals} {B : Behaviour}.

Lemma Map_has_one {V} (n k : QueueName) (v : V) :
  Map_has n [(k, v)] = (k =? n).
Proof. unfold Map_has. simpl. now destruct (k =? n). Qed.

Lemma Map_has_false_not_In {V} (k : QueueName) (m : JsMap V) :
  Map_has k m = false -> ~ In k (map fst m).
Proof.
  unfold Map_has. induction m as [|[k' v'] m IH]; simpl; [tauto|].
  destruct (k' =? k) eqn:Hk; [discriminate|].
  intros Hm [Heq|Hin]; [|exact (IH Hm Hin)].
  apply String.eqb_neq in Hk. contradiction.
Qed.

Lemma NoDup_snoc {A} (l : list A) (x : A) :
  NoDup l -> ~ In x l -> NoDup (l ++ [x]).
Proof.
  intros Hl Hx. apply NoDup_app; [exact Hl | repeat constructor; tauto |].
  intros a Ha [<-|[]]. contradiction.
Qed.

Lemma find_prefix {A} (f : A -> bool) (l1 l2 : list A) (x : A) :
  find f l1 = Some x -> find f (l1 ++ l2) = Some x.
Proof.
  induction l1 as [|y l1 IH]; simpl; [discriminate|].
  destruct (f y); [trivial | exact IH].
Qed.

Lemma visited_is_prefix {A} (fails : A -> option Exn) (l : list A) :
  exists rest, l = fst (visited fails l) ++ rest.
Proof.
  induction l as [|x l [rest IH]]; simpl.
  - now exists [].
  - destruct (fails x).
    + now exists l.
    + destruct (visited fails l) as [xs r]. simpl in *.
      exists rest. now rewrite IH at 1.
Qed.

Lemma visited_normal {A} (fails : A -> option Exn) (l : list A) :
  snd (visited fails l) = Normal tt ->
  fst (visited fails l) = l /\ Forall (fun x => fails x = None) l.
Proof.
  induction l as [|x l IH]; simpl.
  - intros _. split; [reflexivity | constructor].
  - destruct (fails x) eqn:Hx; [discriminate|].
    destruct (visited fails l) as [xs r]. simpl in *.
    intros Hr. destruct (IH Hr) as [-> Hall].
    split; [reflexivity | now constructor].
Qed.

Lemma has_handler_name (d : Discovery) (o o' : SqsConsumerOptions) :
  c_name o = c_name o' -> has_handler d o = has_handler d o'.
Proof. unfold has_handler. now intros ->. Qed.

Lemma registered_keys (d : Discovery) (gso : StopOptions)
  (l : list SqsConsumerOptions) :
  map fst (registered d gso l) = map c_name (filter (has_handler d) l).
Proof.
  induction l as [|o l IH]; [reflexivity|].
  rewrite registered_cons, map_app, IH.
  unfold registered, has_handler. simpl.
  now destruct (find_metadata (messageHandlers d) (c_name o)).
Qed.

Lemma stored_producers_keys (l : list SqsProducerOptions) :
  map fst (stored_producers l) = map p_name l.
Proof. unfold stored_producers. rewrite map_map. reflexivity. Qed.

Lemma stored_producers_app (l1 l2 : list SqsProducerOptions) :
  stored_producers (l1 ++ l2) = stored_producers l1 ++ stored_producers l2.
Proof. unfold stored_producers. apply map_app. Qed.

(** The consumer map keeps its keys distinct through the consumer
    pass, however the pass ends. *)
Lemma consumer_pass_keys (d : Discovery) (gso : StopOptions)
  (l : list SqsConsumerOptions) :
  forall s s' r,
    forEach (register_consumer d gso) l s = (s', r) ->
    producers s' = producers s /\
    (NoDup (map fst (consumers s)) -> NoDup (map fst (consumers s'))).
Proof.
  induction l as [|o l IH]; intros s s' r Hrun.
  - injection Hrun as <- _. auto.
  - simpl in Hrun. unfold mbind in Hrun.
    destruct (Map_has (c_name o) (consumers s)) eqn:Hhas.
    + rewrite (register_consumer_rejects _ _ _ _ Hhas) in Hrun.
      injection Hrun as <- _. auto.
    + destruct (rejection d o) as [e|] eqn:Hrej.
      * rewrite (register_consumer_refused _ _ _ _ _ Hhas Hrej) in Hrun.
        injection Hrun as <- _. auto.
      * rewrite (register_consumer_accepts _ _ _ _ Hhas Hrej) in Hrun.
        destruct (IH _ _ _ Hrun) as [Hp Hk]. simpl in Hp, Hk.
        split; [exact Hp|]. intros Hnd. apply Hk.
        unfold registered. simpl.
        destruct (find_metadata (messageHandlers d) (c_name o)); simpl.
        -- rewrite map_app. simpl. apply NoDup_snoc; [exact Hnd|].
           now apply Map_has_false_not_In.
        -- now rewrite app_nil_r.
Qed.

(** A producer pass that ends normally has stored one producer per
    declaration and made one call per declaration, in order, and the
    factory has accepted every declaration. *)
Lemma producer_pass_ok (l : list SqsProducerOptions) :
  forall s s',
    forEach register_producer l s = (s', Normal tt) ->
    s' = {| consumers := consumers s;
            producers := producers s ++ stored_producers l;
            calls := calls s ++ map producer_call l |} /\
    Forall (fun o => Producer_create_throws (p_producerOptions o) = None) l.
Proof.
  induction l as [|o l IH]; intros s s' Hrun.
  - injection Hrun as <-. destruct s. simpl. rewrite !app_nil_r.
    split; [reflexivity | constructor].
  - simpl in Hrun. unfold mbind in Hrun.
    destruct (Map_has (p_name o) (producers s)) eqn:Hhas.
    + rewrite (register_producer_rejects _ _ Hhas) in Hrun. discriminate.
    + destruct (Producer_create_throws (p_producerOptions o)) as [e|] eqn:Hrej.
      * rewrite (register_producer_refused _ _ _ Hhas Hrej) in Hrun.
        discriminate.
      * rewrite (register_producer_accepts _ _ Hhas Hrej) in Hrun.
        destruct (IH _ _ Hrun) as [-> Hall].
        split; [|now constructor].
        cbn [consumers producers calls].
        unfold stored_producers, producer_call. simpl.
        rewrite <- !app_assoc. reflexivity.
Qed.

(** A producer pass that throws has thrown at the first declaration
    whose name was already in the map or which the factory rejected. *)
Lemma producer_pass_stops (l : list SqsProducerOptions) :
  forall s s' e,
    forEach register_producer l s = (s', Throw e) ->
    exists done o' rest s0,
      l = done ++ o' :: rest /\
      forEach register_producer done s = (s0, Normal tt) /\
      ((Map_has (p_name o') (producers s0) = true /\
        e = Error ("Producer already exists: " ++ p_name o') /\
        s' = s0) \/
       (Map_has (p_name o') (producers s0) = false /\
        Producer_create_throws (p_producerOptions o') = Some e /\
        s' = logged (producer_call o') s0)).
Proof.
  induction l as [|o l IH]; intros s s' e Hrun.
  - discriminate.
  - simpl in Hrun. unfold mbind in Hrun.
    destruct (Map_has (p_name o) (producers s)) eqn:Hhas.
    + rewrite (register_producer_rejects _ _ Hhas) in Hrun.
      injection Hrun as <- <-.
      exists [], o, l, s. split; [reflexivity|]. split; [reflexivity|].
      left. auto.
    + destruct (Producer_create_throws (p_producerOptions o)) as [e0|] eqn:Hrej.
      * rewrite (register_producer_refused _ _ _ Hhas Hrej) in Hrun.
        injection Hrun as <- <-.
        exists [], o, l, s. split; [reflexivity|]. split; [reflexivity|].
        right. auto.
      * rewrite (register_producer_accepts _ _ Hhas Hrej) in Hrun.
        destruct (IH _ _ _ Hrun) as [done [o' [rest [s0 [-> [Hdone Hend]]]]]].
        exists (o :: done), o', rest, s0.
        split; [reflexivity|]. split; [|exact Hend].
        simpl. unfold mbind.
        now rewrite (register_producer_accepts _ _ Hhas Hrej).
Qed.

Lemma producer_pass_known_name (l : list SqsProducerOptions) :
  forall s o,
    In o l -> Map_has (p_name o) (producers s) = true ->
    exists s' e, forEach register_producer l s = (s', Throw e).
Proof.
  induction l as [|x l IH]; intros s o Hin Hhas; [contradiction|].
  simpl. unfold mbind.
  destruct (Map_has (p_name x) (producers s)) eqn:Hx.
  - rewrite (register_producer_rejects _ _ Hx). eauto.
  - destruct (Producer_create_throws (p_producerOptions x)) as [e0|] eqn:Hrej.
    + rewrite (register_producer_refused _ _ _ Hx Hrej). eauto.
    + rewrite (register_producer_accepts _ _ Hx Hrej).
      destruct Hin as [->|Hin]; [congruence|].
      apply (IH _ o Hin). simpl. rewrite Map_has_app, Hhas. reflexivity.
Qed.

Lemma producer_pass_repeated_name
  (pre mid post : list SqsProducerOptions) (o1 o2 : SqsProducerOptions) :
  p_name o2 = p_name o1 ->
  forall s, exists s' e,
    forEach register_producer (pre ++ o1 :: mid ++ o2 :: post) s
    = (s', Throw e).
Proof.
  intros Hname. induction pre as [|x pre IH]; intros s.
  - simpl. unfold mbind.
    destruct (Map_has (p_name o1) (producers s)) eqn:H1.
    + rewrite (register_producer_rejects _ _ H1). eauto.
    + destruct (Producer_create_throws (p_producerOptions o1)) as [e0|] eqn:Hrej.
      * rewrite (register_producer_refused _ _ _ H1 Hrej). eauto.
      * rewrite (register_producer_accepts _ _ H1 Hrej).
        apply (producer_pass_known_name _ _ o2).
        -- apply in_or_app. right. now left.
        -- simpl. rewrite Hname, Map_has_app, Map_has_singleton.
           apply orb_true_r.
  - simpl. unfold mbind.
    destruct (Map_has (p_name x) (producers s)) eqn:Hx.
    + rewrite (register_producer_rejects _ _ Hx). eauto.
    + destruct (Producer_create_throws (p_producerOptions x)) as [e0|] eqn:Hrej.
      * rewrite (register_producer_refused _ _ _ Hx Hrej). eauto.
      * rewrite (register_producer_accepts _ _ Hx Hrej). apply IH.
Qed.

Lemma producer_pass_keys (l : list SqsProducerOptions) :
  forall s s' r,
    forEach register_producer l s = (s', r) ->
    NoDup (map fst (producers s)) -> NoDup (map fst (producers s')).
Proof.
  induction l as [|o l IH]; intros s s' r Hrun.
  - injection Hrun as <- _. auto.
  - simpl in Hrun. unfold mbind in Hrun.
    destruct (Map_has (p_name o) (producers s)) eqn:Hhas.
    + rewrite (register_producer_rejects _ _ Hhas) in Hrun.
      injection Hrun as <- _. auto.
    + destruct (Producer_create_throws (p_producerOptions o)) as [e0|] eqn:Hrej.
      * rewrite (register_producer_refused _ _ _ Hhas Hrej) in Hrun.
        injection Hrun as <- _. auto.
      * rewrite (register_producer_accepts _ _ Hhas Hrej) in Hrun.
        intros Hnd. apply (IH _ _ _ Hrun). simpl.
        rewrite map_app. simpl. apply NoDup_snoc; [exact Hnd|].
        now apply Map_has_false_not_In.
Qed.

(** Declarations the factory accepts, whose names are new to the map
    and distinct among those that have a handler, are all stored. *)
Lemma consumer_pass_succeeds (d : Discovery) (gso : StopOptions)
  (l : list SqsConsumerOptions) :
  forall s,
    (forall o, In o l -> Map_has (c_name o) (consumers s) = false) ->
    NoDup (map c_name (filter (has_handler d) l)) ->
    Forall (fun o => rejection d o = None) l ->
    exists s', forEach (register_consumer d gso) l s = (s', Normal tt).
Proof.
  induction l as [|o l IH]; intros s Hnew Hnd Hacc.
  - exists s. reflexivity.
  - simpl. unfold mbind.
    apply Forall_cons_iff in Hacc. destruct Hacc as [Ho Hacc].
    rewrite (register_consumer_accepts _ _ _ _
               (Hnew o (or_introl eq_refl)) Ho).
    apply IH; [| |exact Hacc].
    + intros o' Hin. cbn [consumers].
      rewrite Map_has_app, (Hnew o' (or_intror Hin)). simpl.
      unfold registered. simpl. simpl in Hnd.
      destruct (find_metadata (messageHandlers d) (c_name o)) as [md|] eqn:Hmd;
        [|reflexivity].
      simpl. rewrite Map_has_one. apply String.eqb_neq. intros Heq.
      assert (Hh : has_handler d o = true)
        by (unfold has_handler; now rewrite Hmd).
      rewrite Hh in Hnd. simpl in Hnd. apply NoDup_cons_iff in Hnd.
      destruct Hnd as [Hnin _]. apply Hnin. rewrite Heq.
      apply in_map, filter_In. split; [exact Hin|].
      now rewrite <- (has_handler_name d o o' Heq).
    + simpl in Hnd. destruct (has_handler d o); [|exact Hnd].
      simpl in Hnd. now apply NoDup_cons_iff in Hnd.
Qed.

(** Producer declarations the factory accepts, whose names are new to
    the map and distinct, are all stored. *)
Lemma producer_pass_succeeds (l : list SqsProducerOptions) :
  forall s,
    (forall o, In o l -> Map_has (p_name o) (producers s) = false) ->
    NoDup (map p_name l) ->
    Forall (fun o => Producer_create_throws (p_producerOptions o) = None) l ->
    exists s', forEach register_producer l s = (s', Normal tt).
Proof.
  induction l as [|o l IH]; intros s Hnew Hnd Hacc.
  - exists s. reflexivity.
  - simpl. unfold mbind.
    apply Forall_cons_iff in Hacc. destruct Hacc as [Ho Hacc].
    rewrite (register_producer_accepts _ _ (Hnew o (or_introl eq_refl)) Ho).
    simpl in Hnd. apply NoDup_cons_iff in Hnd. destruct Hnd as [Hnin Hnd].
    apply IH; [|exact Hnd|exact Hacc].
    intros o' Hin. cbn [producers].
    rewrite Map_has_app, (Hnew o' (or_intror Hin)), Map_has_one. simpl.
    apply String.eqb_neq. intros Heq. apply Hnin. rewrite Heq.
    now apply in_map.
Qed.
End Keys.

(* ================================================================== *)
(** ** When [onModuleInit] succeeds, and what it leaves *)

Section Construction.
Context {E : Externals} {B : Behaviour}.


(** The shape of the service after [onModuleInit], however it ended:
    the entries of a prefix of the consumer declarations, the producers
    of a prefix of the producer declarations, their calls, the factory
    call that threw when one did, and the [start] calls on a prefix of
    the pollers. *)
Lemma onModuleInit_shape (options : SqsOptions) (d : Discovery)
  (s' : SqsService) (r : Completion unit) :
  onModuleInit options d new_SqsService = (s', r) ->
  exists cs cs' ps ps' vs vs' failed,
    declared_consumers options = cs ++ cs' /\
    declared_producers options = ps ++ ps' /\
    Map_values (registered d (globalStopOptions options) cs) = vs ++ vs' /\
    s' = {| consumers := registered d (globalStopOptions options) cs;
            producers := stored_producers ps;
            calls := map (declaration_call d) cs ++ map producer_call ps ++
                     failed ++
                     map (fun v => start_call (instance v)) vs |} /\
    (failed = [] \/
     (exists o rest e,
        cs' = o :: rest /\ rejection d o = Some e /\ r = Throw e /\
        failed = [declaration_call d o] /\ ps = [] /\ vs = []) \/
     (exists p rest e,
        ps' = p :: rest /\
        Producer_create_throws (p_producerOptions p) = Some e /\
        r = Throw e /\
        failed = [producer_call p] /\ vs = [])) /\
    (r = Normal tt ->
     cs' = [] /\ ps' = [] /\ vs' = [] /\ failed = [] /\
     Forall (fun v => Consumer_start (instance v) = None) vs).
Proof.
  rewrite onModuleInit_steps.
  set (gso := globalStopOptions options).
  destruct (forEach (register_consumer d gso) (declared_consumers options)
              new_SqsService) as [s0 [[]|e]] eqn:Hc.
  - pose proof (consumer_pass_ok _ _ _ _ _ Hc) as Hs0. simpl in Hs0.
    destruct (forEach register_producer (declared_producers options) s0)
      as [s1 [[]|e]] eqn:Hp.
    + pose proof (proj1 (producer_pass_ok _ _ _ Hp)) as Hs1.
      rewrite Hs0 in Hs1. simpl in Hs1.
      rewrite start_consumers_visited. intros [= <- <-].
      destruct (visited_is_prefix
                  (fun v => Consumer_start (instance v))
                  (Map_values (consumers s1))) as [rest Hrest].
      exists (declared_consumers options), [], (declared_producers options), [].
      exists (fst (visited (fun v => Consumer_start (instance v))
                     (Map_values (consumers s1)))), rest, [].
      rewrite !app_nil_r. rewrite Hs1 in *. cbn [consumers producers calls] in *.
      split; [reflexivity|]. split; [reflexivity|]. split; [exact Hrest|].
      split; [unfold with_calls; simpl; rewrite <- app_assoc; reflexivity|].
      split; [now left|].
      intros Hr. apply visited_normal in Hr. destruct Hr as [Hall Hnone].
      rewrite Hall in *. split; [reflexivity|]. split; [reflexivity|].
      split; [|split; [reflexivity | exact Hnone]].
      apply (app_inv_head (Map_values (registered d gso (declared_consumers options)))).
      now rewrite app_nil_r.
    + intros [= <- <-].
      destruct (producer_pass_stops _ _ _ _ Hp)
        as [done [p' [rest [s2 [Hl [Hdone Hend]]]]]].
      pose proof (proj1 (producer_pass_ok _ _ _ Hdone)) as Hs2.
      rewrite Hs0 in Hs2. simpl in Hs2.
      exists (declared_consumers options), [], done, (p' :: rest), [].
      exists (Map_values (registered d gso (declared_consumers options))).
      destruct Hend as [[_ [_ ->]]|[_ [Hrej ->]]].
      * exists []. rewrite !app_nil_r. split; [reflexivity|].
        split; [exact Hl|]. split; [reflexivity|]. split; [exact Hs2|].
        split; [now left | discriminate].
      * exists [producer_call p']. rewrite !app_nil_r.
        split; [reflexivity|]. split; [exact Hl|]. split; [reflexivity|].
        split; [rewrite Hs2; unfold logged, with_calls; simpl;
                rewrite <- app_assoc; reflexivity|].
        split; [|discriminate].
        right. right. exists p', rest, e. repeat split; auto.
  - intros [= <- <-].
    destruct (consumer_pass_stops _ _ _ _ _ _ Hc)
      as [done [o' [rest [s2 [Hl [Hdone Hend]]]]]].
    pose proof (consumer_pass_ok _ _ _ _ _ Hdone) as Hs2. simpl in Hs2.
    exists done, (o' :: rest), [], (declared_producers options), [].
    exists (Map_values (registered d gso done)).
    destruct Hend as [[_ [_ ->]]|[_ [Hrej ->]]].
    + exists []. split; [exact Hl|]. split; [reflexivity|].
      split; [reflexivity|].
      split; [rewrite Hs2; simpl; now rewrite app_nil_r|].
      split; [now left | discriminate].
    + exists [declaration_call d o']. split; [exact Hl|].
      split; [reflexivity|]. split; [reflexivity|].
      split; [rewrite Hs2; reflexivity|].
      split; [|discriminate].
      right. left. exists o', rest, e. repeat split; auto.
Qed.

(** Distinct names and declarations the factories accept make the two
    registration passes succeed. *)
Lemma build_passes_succeed (options : SqsOptions) (d : Discovery) :
  NoDup (map c_name (filter (has_handler d) (declared_consumers options))) ->
  NoDup (map p_name (declared_producers options)) ->
  Forall (fun o => rejection d o = None) (declared_consumers options) ->
  Forall (fun p => Producer_create_throws (p_producerOptions p) = None)
    (declared_producers options) ->
  forEach (register_consumer d (globalStopOptions options))
    (declared_consumers options) new_SqsService =
  ({| consumers := registered d (globalStopOptions options)
                     (declared_consumers options);
      producers := [];
      calls := map (declaration_call d) (declared_consumers options) |},
   Normal tt) /\
  forEach register_producer (declared_producers options)
    {| consumers := registered d (globalStopOptions options)
                      (declared_consumers options);
       producers := [];
       calls := map (declaration_call d) (declared_consumers options) |} =
  ({| consumers := registered d (globalStopOptions options)
                     (declared_consumers options);
      producers := stored_producers (declared_producers options);
      calls := map (declaration_call d) (declared_consumers options) ++
               map producer_call (declared_producers options) |},
   Normal tt).
Proof.
  intros Hc Hp Hca Hpa. split.
  - destruct (consumer_pass_succeeds d (globalStopOptions options)
                (declared_consumers options) new_SqsService
                (fun _ _ => eq_refl) Hc Hca) as [s0 Hrun].
    rewrite Hrun. now rewrite (consumer_pass_ok _ _ _ _ _ Hrun).
  - match goal with |- forEach _ _ ?s = _ =>
      destruct (producer_pass_succeeds (declared_producers options) s
                  (fun _ _ => eq_refl) Hp Hpa) as [s1 Hrun]
    end.
    rewrite Hrun. now rewrite (proj1 (producer_pass_ok _ _ _ Hrun)).
Qed.

(** X1.  Two producer declarations of one name are fatal, whatever the
    consumer map holds: when the consumer declarations are accepted (the
    names that have a handler distinct, no poller rejected by
    [Consumer.create]) and [Producer.create] accepts the producer
    declarations before the second of the two, [onModuleInit] throws
    "Producer already exists" at the first producer declaration whose
    name is already in the producer map (the second of the two or an
    earlier one).  Every consumer is built and stored by then, the
    producers declared before that one are stored, and no consumer is
    started. *)
Theorem repeated_producer_is_fatal
  (options : SqsOptions) (d : Discovery)
  (pre mid post : list SqsProducerOptions) (p1 p2 : SqsProducerOptions) :
  opt_producers options = Some (pre ++ p1 :: mid ++ p2 :: post) ->
  p_name p2 = p_name p1 ->
  NoDup (map c_name (filter (has_handler d) (declared_consumers options))) ->
  Forall (fun o => rejection d o = None) (declared_consumers options) ->
  Forall (fun p => Producer_create_throws (p_producerOptions p) = None)
    (pre ++ p1 :: mid) ->
  exists done p' rest,
    pre ++ p1 :: mid ++ p2 :: post = done ++ p' :: rest /\
    length done <= length (pre ++ p1 :: mid) /\
    Map_has (p_name p') (stored_producers done) = true /\
    onModuleInit options d new_SqsService =
    ({| consumers := registered d (globalStopOptions options)
                       (declared_consumers options);
        producers := stored_producers done;
        calls := map (declaration_call d) (declared_consumers options) ++
                 map producer_call done |},
     Throw (Error ("Producer already exists: " ++ p_name p'))).
Proof.
  intros Hopt Hname Hc Hca Hpa.
  assert (Hdecl : declared_producers options = pre ++ p1 :: mid ++ p2 :: post)
    by (unfold declared_producers; now rewrite Hopt).
  set (gso := globalStopOptions options).
  destruct (consumer_pass_succeeds d gso (declared_consumers options)
              new_SqsService (fun _ _ => eq_refl) Hc Hca) as [s0 Hrun0].
  pose proof (consumer_pass_ok _ _ _ _ _ Hrun0) as Hs0. simpl in Hs0.
  destruct (producer_pass_repeated_name pre mid post p1 p2 Hname s0)
    as [s1 [e Hrun]].
  destruct (producer_pass_stops _ _ _ _ Hrun)
    as [done [p' [rest [s2 [Hl [Hdone Hend]]]]]].
  pose proof (proj1 (producer_pass_ok _ _ _ Hdone)) as Hs2.
  rewrite Hs0 in Hs2. simpl in Hs2.
  assert (Hcut : (exists z, pre ++ p1 :: mid = done ++ p' :: z) \/
                 (done = pre ++ p1 :: mid /\ p' = p2)).
  { replace (pre ++ p1 :: mid ++ p2 :: post)
      with ((pre ++ p1 :: mid) ++ p2 :: post) in Hl
      by (rewrite <- app_assoc; reflexivity).
    destruct (cut_point _ _ _ _ _ _ Hl) as [Hz|[Hz|[z Hz]]];
      [now left | now right |].
    exfalso. rewrite Hz, <- !app_assoc in Hdone. simpl in Hdone.
    destruct (producer_pass_repeated_name pre mid z p1 p2 Hname s0)
      as [s3 [e3 Hthrow]].
    rewrite Hthrow in Hdone. discriminate. }
  assert (Hdup : Map_has (p_name p') (producers s2) = true /\
                 e = Error ("Producer already exists: " ++ p_name p') /\
                 s1 = s2).
  { destruct Hend as [Hend|[Hnew [Hrej _]]]; [exact Hend|]. exfalso.
    destruct Hcut as [[z Hz]|[Hz ->]].
    - rewrite Hz in Hpa. apply Forall_app in Hpa. destruct Hpa as [_ Hpa].
      apply Forall_cons_iff in Hpa. destruct Hpa as [Hpa _]. congruence.
    - rewrite Hs2 in Hnew. cbn [producers] in Hnew. rewrite Hz in Hnew.
      assert (Hin : Map_has (p_name p1)
                      (stored_producers (pre ++ p1 :: mid)) = true).
      { unfold stored_producers. rewrite map_app, Map_has_app. simpl.
        unfold Map_has at 2. simpl. rewrite String.eqb_refl.
        apply orb_true_r. }
      rewrite Hname in Hnew. congruence. }
  destruct Hdup as [Hhas [-> ->]].
  exists done, p', rest. split; [exact Hl|]. split; [|split].
  - destruct Hcut as [[z Hz]|[Hz _]].
    + rewrite Hz, length_app. lia.
    + rewrite Hz. lia.
  - rewrite Hs2 in Hhas. exact Hhas.
  - rewrite onModuleInit_steps. fold gso. rewrite Hrun0, Hdecl, Hrun, Hs2.
    reflexivity.
Qed.

(** X2.  [onModuleInit] on a new service ends normally exactly when the
    consumer declarations that have a handler carry distinct names, the
    producer declarations carry distinct names, [Consumer.create]
    accepts the options built for every declaration that has a handler,
    [Producer.create] accepts the options of every producer declaration,
    and no poller built for a declaration throws when started.
    Handler-less declarations and names shared between the two roles
    put no condition. *)
Theorem onModuleInit_succeeds_iff (options : SqsOptions) (d : Discovery) :
  (exists s', onModuleInit options d new_SqsService = (s', Normal tt)) <->
  NoDup (map c_name (filter (has_handler d) (declared_consumers options))) /\
  NoDup (map p_name (declared_producers options)) /\
  Forall (fun o => rejection d o = None) (declared_consumers options) /\
  Forall (fun p => Producer_create_throws (p_producerOptions p) = None)
    (declared_producers options) /\
  Forall (fun v => Consumer_start (instance v) = None)
    (Map_values (registered d (globalStopOptions options)
                   (declared_consumers options))).
Proof.
  split.
  - intros [s' Hinit].
    destruct (onModuleInit_shape _ _ _ _ Hinit)
      as [cs [cs' [ps [ps' [vs [vs' [failed
            [Hcs [Hps [Hvs [Hs' [_ Hok]]]]]]]]]]]].
    destruct (Hok eq_refl) as [-> [-> [-> [_ Hstart]]]].
    rewrite app_nil_r in Hcs, Hps, Hvs.
    rewrite onModuleInit_steps in Hinit.
    destruct (forEach (register_consumer d (globalStopOptions options))
                (declared_consumers options) new_SqsService)
      as [s0 [[]|e]] eqn:Hc; [|discriminate].
    destruct (forEach register_producer (declared_producers options) s0)
      as [s1 [[]|e]] eqn:Hp; [|discriminate].
    destruct (consumer_pass_keys _ _ _ _ _ _ Hc) as [Hprod Hk].
    specialize (Hk (NoDup_nil _)).
    rewrite (consumer_pass_ok _ _ _ _ _ Hc) in Hk. simpl in Hk.
    rewrite registered_keys in Hk.
    pose proof (producer_pass_keys _ _ _ _ Hp) as Hkp.
    rewrite Hprod in Hkp. specialize (Hkp (NoDup_nil _)).
    destruct (producer_pass_ok _ _ _ Hp) as [Hs1 Hpa].
    rewrite Hs1, Hprod in Hkp. simpl in Hkp.
    rewrite stored_producers_keys in Hkp.
    split; [exact Hk|]. split; [exact Hkp|].
    split; [exact (consumer_pass_ok_accepted _ _ _ _ _ Hc)|].
    split; [exact Hpa|].
    rewrite Hcs at 1. rewrite Hvs. exact Hstart.
  - intros [Hc [Hp [Hca [Hpa Hstart]]]].
    destruct (build_passes_succeed options d Hc Hp Hca Hpa) as [Hrun0 Hrun1].
    rewrite onModuleInit_steps, Hrun0, Hrun1, start_consumers_visited.
    cbn [consumers]. rewrite (visited_all _ _ Hstart). eauto.
Qed.

(** X3.  When [onModuleInit] ends normally on a new service, the
    consumer map holds one entry per consumer declaration that has a
    handler, the producer map one producer per producer declaration,
    both in declaration order, and the log holds one call per consumer
    declaration (a creation or a warning), then one creation per
    producer declaration, then one [start] per stored poller, in map
    order, and nothing else. *)
Theorem onModuleInit_result (options : SqsOptions) (d : Discovery)
  (s' : SqsService) :
  onModuleInit options d new_SqsService = (s', Normal tt) ->
  s' = {| consumers := registered d (globalStopOptions options)
                         (declared_consumers options);
          producers := stored_producers (declared_producers options);
          calls :=
            map (declaration_call d) (declared_consumers options) ++
            map producer_call (declared_producers options) ++
            map (fun v => start_call (instance v))
              (Map_values (registered d (globalStopOptions options)
                             (declared_consumers options))) |}.
Proof.
  intros Hinit.
  destruct (onModuleInit_shape _ _ _ _ Hinit)
    as [cs [cs' [ps [ps' [vs [vs' [failed
          [Hcs [Hps [Hvs [Hs' [_ Hok]]]]]]]]]]]].
  destruct (Hok eq_refl) as [-> [-> [-> [-> _]]]].
  rewrite app_nil_r in Hcs, Hps, Hvs.
  rewrite Hcs, Hps, Hvs. exact Hs'.
Qed.

Lemma created_consumers_count (d : Discovery) (gso : StopOptions)
  (l : list SqsConsumerOptions) :
  length (filter is_Consumer_create_call (map (declaration_call d) l)) =
  length (registered d gso l) /\
  filter is_Producer_create_call (map (declaration_call d) l) = [] /\
  filter is_start_call (map (declaration_call d) l) = [] /\
  filter is_stop_call (map (declaration_call d) l) = [].
Proof.
  induction l as [|o l [IH1 [IH2 [IH3 IH4]]]]; [now repeat split|].
  rewrite registered_cons, length_app. cbn [map filter].
  assert (Hhead :
            is_Producer_create_call (declaration_call d o) = false /\
            is_start_call (declaration_call d o) = false /\
            is_stop_call (declaration_call d o) = false /\
            ((is_Consumer_create_call (declaration_call d o) = true /\
              length (registered d gso [o]) = 1) \/
             (is_Consumer_create_call (declaration_call d o) = false /\
              length (registered d gso [o]) = 0))).
  { unfold declaration_call, registered. simpl.
    destruct (find_metadata (messageHandlers d) (c_name o)); simpl;
      repeat split; [left | right]; split; reflexivity. }
  destruct Hhead as [-> [-> [-> [[-> ->]|[-> ->]]]]]; simpl;
    rewrite IH1; auto.
Qed.

Lemma created_producers_count (l : list SqsProducerOptions) :
  filter is_Consumer_create_call (map producer_call l) = [] /\
  length (filter is_Producer_create_call (map producer_call l)) =
  length (stored_producers l) /\
  filter is_start_call (map producer_call l) = [] /\
  filter is_stop_call (map producer_call l) = [].
Proof.
  induction l as [|o l [IH1 [IH2 [IH3 IH4]]]]; [now repeat split|].
  simpl. rewrite IH1, IH2, IH3, IH4. now repeat split.
Qed.

Lemma start_calls_only (vs : list SqsConsumerMapValues) :
  filter is_Consumer_create_call
    (map (fun v => start_call (instance v)) vs) = [] /\
  filter is_Producer_create_call
    (map (fun v => start_call (instance v)) vs) = [] /\
  filter is_start_call (map (fun v => start_call (instance v)) vs) =
    map (fun v => start_call (instance v)) vs /\
  filter is_stop_call (map (fun v => start_call (instance v)) vs) = [].
Proof.
  induction vs as [|v vs [IH1 [IH2 [IH3 IH4]]]]; [now repeat split|].
  simpl. rewrite IH1, IH2, IH3, IH4. now repeat split.
Qed.

End Construction.

(* ================================================================== *)
(** ** Entries, starts and stops *)

Section Entries.
Context {E : Externals} {B : Behaviour}.

(** Looking a name up among the registered entries is looking up the
    first declaration of that name and the handler of that name. *)
Lemma Map_get_registered (d : Discovery) (gso : StopOptions)
  (n : QueueName) (l : list SqsConsumerOptions) :
  Map_get n (registered d gso l) =
  match find (fun o => c_name o =? n) l with
  | Some o =>
      match find_metadata (messageHandlers d) n with
      | Some metadata => Some (new_entry d gso o metadata)
      | None => None
      end
  | None => None
  end.
Proof.
  induction l as [|o l IH]; [reflexivity|].
  assert (Hone : registered d gso [o] =
                 match find_metadata (messageHandlers d) (c_name o) with
                 | Some metadata => [(c_name o, new_entry d gso o metadata)]
                 | None => []
                 end).
  { unfold registered. simpl.
    now destruct (find_metadata (messageHandlers d) (c_name o)). }
  rewrite registered_cons, Map_get_app, Hone. cbn [find].
  destruct (c_name o =? n) eqn:Hn.
  - apply String.eqb_eq in Hn. subst n.
    destruct (find_metadata (messageHandlers d) (c_name o)) as [md|] eqn:Hmd.
    + simpl. now rewrite String.eqb_refl.
    + pose proof (registered_without_handler d gso _ l Hmd) as Hno.
      unfold Map_has in Hno. simpl.
      now destruct (Map_get (c_name o) (registered d gso l)).
  - destruct (find_metadata (messageHandlers d) (c_name o)); simpl;
      [rewrite Hn|]; exact IH.
Qed.

(** X6.  An entry of the consumer map is never overwritten: after
    [onModuleInit] on a new service, however it ended, the entry under
    a name is the one built from the first declaration of that name,
    and its stop options are those of that declaration when it has
    some, the global stop options of the module otherwise, and the
    empty options when the module has none either. *)
Theorem entry_is_built_from_first_declaration
  (options : SqsOptions) (d : Discovery)
  (s' : SqsService) (r : Completion unit)
  (name : QueueName) (v : SqsConsumerMapValues) :
  onModuleInit options d new_SqsService = (s', r) ->
  Map_get name (consumers s') = Some v ->
  exists o metadata,
    find (fun o => c_name o =? name) (declared_consumers options) = Some o /\
    find_metadata (messageHandlers d) name = Some metadata /\
    v = new_entry d (globalStopOptions options) o metadata /\
    stopOptions v =
      match c_stopOptions o with
      | Some own => own
      | None =>
          match opt_globalStopOptions options with
          | Some global => global
          | None => {| abort := None |}
          end
      end.
Proof.
  intros Hinit Hget.
  destruct (onModuleInit_shape _ _ _ _ Hinit)
    as [cs [cs' [ps [ps' [vs [vs' [failed [Hcs [_ [_ [-> _]]]]]]]]]]].
  cbn [consumers] in Hget. rewrite Map_get_registered in Hget.
  destruct (find (fun o => c_name o =? name) cs) as [o|] eqn:Hfind;
    [|discriminate].
  destruct (find_metadata (messageHandlers d) name) as [md|]; [|discriminate].
  injection Hget as <-. exists o, md.
  split; [rewrite Hcs; now apply find_prefix|].
  split; [reflexivity|]. split; [reflexivity|]. reflexivity.
Qed.

(** X7.  A [start] that throws ends [onModuleInit] with that exception
    and leaves the registry built: with distinct names in each role and
    declarations the two factories accept, both maps are complete, the
    pollers before the failing one and the failing one have been asked
    to start, in map order, and the pollers after it have not. *)
Theorem failed_start_leaves_registry_built
  (options : SqsOptions) (d : Discovery)
  (pre post : list SqsConsumerMapValues) (v : SqsConsumerMapValues)
  (e : Exn) :
  NoDup (map c_name (filter (has_handler d) (declared_consumers options))) ->
  NoDup (map p_name (declared_producers options)) ->
  Forall (fun o => rejection d o = None) (declared_consumers options) ->
  Forall (fun p => Producer_create_throws (p_producerOptions p) = None)
    (declared_producers options) ->
  Map_values (registered d (globalStopOptions options)
                (declared_consumers options)) = pre ++ v :: post ->
  Forall (fun x => Consumer_start (instance x) = None) pre ->
  Consumer_start (instance v) = Some e ->
  onModuleInit options d new_SqsService =
  ({| consumers := registered d (globalStopOptions options)
                     (declared_consumers options);
      producers := stored_producers (declared_producers options);
      calls :=
        map (declaration_call d) (declared_consumers options) ++
        map producer_call (declared_producers options) ++
        map (fun x => start_call (instance x)) (pre ++ [v]) |},
   Throw e).
Proof.
  intros Hc Hp Hca Hpa Hvs Hpre Hv.
  destruct (build_passes_succeed options d Hc Hp Hca Hpa) as [Hrun0 Hrun1].
  rewrite onModuleInit_steps, Hrun0, Hrun1, start_consumers_visited.
  cbn [consumers calls]. rewrite Hvs.
  rewrite (visited_first _ pre post v e Hpre Hv).
  unfold with_calls. simpl. rewrite <- app_assoc. reflexivity.
Qed.

Lemma register_consumer_skips (d : Discovery) (gso : StopOptions)
  (o : SqsConsumerOptions) (s : SqsService) :
  Map_has (c_name o) (consumers s) = false ->
  has_handler d o = false ->
  register_consumer d gso o s =
  (logged (logger_warn_call ("No metadata found for: " ++ c_name o)) s,
   Normal tt).
Proof.
  intros Hhas Hno.
  assert (Hrej : rejection d o = None).
  { unfold rejection, has_handler in *.
    now destruct (find_metadata (messageHandlers d) (c_name o)). }
  rewrite (register_consumer_accepts _ _ _ _ Hhas Hrej).
  unfold registered, declaration_call, has_handler in *. simpl.
  destruct (find_metadata (messageHandlers d) (c_name o)); [discriminate|].
  simpl. now rewrite app_nil_r.
Qed.

(** On a service that already holds every declared name that has a
    handler, the consumer pass warns about the handler-less declarations
    it meets and throws at the first declaration that has a handler. *)
Lemma consumer_pass_on_built (d : Discovery) (gso : StopOptions)
  (l : list SqsConsumerOptions) :
  forall s,
    (forall o, In o l -> Map_has (c_name o) (consumers s) = has_handler d o) ->
    (exists o, In o l /\ has_handler d o = true) ->
    exists n ws,
      Map_has n (consumers s) = true /\
      forEach (register_consumer d gso) l s =
      (with_calls (calls s ++ map logger_warn_call ws) s,
       Throw (Error ("Consumer already exists: " ++ n))).
Proof.
  induction l as [|o l IH]; intros s Hmap [o1 [Hin Ho1]]; [contradiction|].
  pose proof (Hmap o (or_introl eq_refl)) as Ho.
  simpl. unfold mbind. destruct (has_handler d o) eqn:Hh.
  - exists (c_name o), []. split; [exact Ho|].
    rewrite (register_consumer_rejects _ _ _ _ Ho). simpl.
    now rewrite app_nil_r, with_calls_same.
  - rewrite (register_consumer_skips _ _ _ _ Ho Hh).
    destruct Hin as [->|Hin]; [congruence|].
    destruct (IH (logged (logger_warn_call
                            ("No metadata found for: " ++ c_name o)) s))
      as [n [ws [Hn Hrun]]].
    + intros o' Ho'. exact (Hmap o' (or_intror Ho')).
    + now exists o1.
    + exists n, (("No metadata found for: " ++ c_name o)%string :: ws).
      split; [exact Hn|]. rewrite Hrun. unfold logged, with_calls. simpl.
      rewrite <- app_assoc. reflexivity.
Qed.

(** X8.  [onModuleInit] cannot be run twice: on the service a first
    normal run left, with at least one declaration that has a handler,
    a second run throws "Consumer already exists" for a name of the
    consumer map.  It creates and starts nothing and leaves both maps
    as they were; it only logs the warnings of the handler-less
    declarations it met first. *)
Theorem onModuleInit_twice_is_rejected (options : SqsOptions)
  (d : Discovery) (s1 : SqsService) (o : SqsConsumerOptions) :
  onModuleInit options d new_SqsService = (s1, Normal tt) ->
  In o (declared_consumers options) ->
  has_handler d o = true ->
  exists n ws,
    Map_has n (consumers s1) = true /\
    onModuleInit options d s1 =
    (with_calls (calls s1 ++ map logger_warn_call ws) s1,
     Throw (Error ("Consumer already exists: " ++ n))).
Proof.
  intros Hinit Hin Ho.
  destruct (onModuleInit_shape _ _ _ _ Hinit)
    as [cs [cs' [ps [ps' [vs [vs' [failed
          [Hcs [_ [_ [Hs1 [_ Hok]]]]]]]]]]]].
  destruct (Hok eq_refl) as [-> _]. rewrite app_nil_r in Hcs. subst cs.
  destruct (consumer_pass_on_built d (globalStopOptions options)
              (declared_consumers options) s1) as [n [ws [Hn Hrun]]].
  - intros o' Ho'. rewrite Hs1. cbn [consumers].
    unfold has_handler.
    destruct (find_metadata (messageHandlers d) (c_name o')) as [md|] eqn:Hmd.
    + now apply (registered_has _ _ _ _ md).
    + now apply registered_without_handler.
  - now exists o.
  - exists n, ws. split; [exact Hn|].
    rewrite onModuleInit_steps, Hrun. reflexivity.
Qed.

Lemma stop_calls_only (vs : list SqsConsumerMapValues) :
  filter is_start_call
    (map (fun v => stop_call (instance v) (stopOptions v)) vs) = [] /\
  filter is_stop_call
    (map (fun v => stop_call (instance v) (stopOptions v)) vs) =
    map (fun v => stop_call (instance v) (stopOptions v)) vs.
Proof.
  induction vs as [|v vs [IH1 IH2]]; [now split|].
  simpl. rewrite IH1, IH2. now split.
Qed.

(** X9.  Stops follow starts.  After [onModuleInit] ended normally on a
    new service and [onModuleDestroy] ran, the [start] calls of the log
    are one per stored poller, in map order, and the [stop] calls are
    made on a prefix of those same pollers, in the same order, each
    with the stop options stored beside it: on all of them when
    [onModuleDestroy] ends normally. *)
Theorem stops_follow_starts (options : SqsOptions) (d : Discovery)
  (s1 : SqsService) :
  onModuleInit options d new_SqsService = (s1, Normal tt) ->
  filter is_start_call (calls (fst (onModuleDestroy s1))) =
    map (fun v => start_call (instance v)) (Map_values (consumers s1)) /\
  exists vs rest,
    Map_values (consumers s1) = vs ++ rest /\
    filter is_stop_call (calls (fst (onModuleDestroy s1))) =
      map (fun v => stop_call (instance v) (stopOptions v)) vs /\
    (snd (onModuleDestroy s1) = Normal tt -> rest = []).
Proof.
  intros Hinit.
  destruct (onModuleInit_shape _ _ _ _ Hinit)
    as [cs [cs' [ps [ps' [vs [vs' [failed
          [_ [_ [Hvs [Hs1 [_ Hok]]]]]]]]]]]].
  destruct (Hok eq_refl) as [_ [_ [-> [-> _]]]]. rewrite app_nil_r in Hvs.
  rewrite onModuleDestroy_visited. cbn [fst snd].
  set (stopped := visited (fun v => Consumer_stop (instance v) (stopOptions v))
                    (Map_values (consumers s1))).
  assert (Hvalues : Map_values (consumers s1) = vs)
    by (rewrite Hs1; exact Hvs).
  assert (Hlog : calls s1 =
                 map (declaration_call d) cs ++ map producer_call ps ++
                 map (fun v => start_call (instance v)) vs)
    by (rewrite Hs1; reflexivity).
  destruct (created_consumers_count d (globalStopOptions options) cs)
    as [_ [_ [Hc3 Hc4]]].
  destruct (created_producers_count ps) as [_ [_ [Hp3 Hp4]]].
  destruct (start_calls_only vs) as [_ [_ [Hs3 Hs4]]].
  destruct (stop_calls_only (fst stopped)) as [Ht3 Ht4].
  unfold with_calls. cbn [calls]. rewrite Hlog, !filter_app.
  rewrite Hc3, Hc4, Hp3, Hp4, Hs3, Hs4, Ht3, Ht4, Hvalues. simpl.
  split; [now rewrite app_nil_r|].
  destruct (visited_is_prefix
              (fun v => Consumer_stop (instance v) (stopOptions v))
              (Map_values (consumers s1))) as [rest Hrest].
  fold stopped in Hrest. rewrite Hvalues in Hrest.
  exists (fst stopped), rest. split; [exact Hrest|]. split; [reflexivity|].
  intros Hr. apply visited_normal in Hr. destruct Hr as [Hall _].
  fold stopped in Hall. rewrite Hvalues in Hall. rewrite Hall in Hrest.
  apply (app_inv_head vs). now rewrite app_nil_r.
Qed.
End Entries.

(* ================================================================== *)
(** ** The registry after initialisation *)

Section AfterInit.
Context {E : Externals} {B : Behaviour}.

(** X10.  The registry is read-only once built: [purgeQueue],
    [getQueueAttributes], [getProducerQueueSize], [send],
    [changeMessageVisibility], [deleteMessage], [deleteMessageBatch] and
    [onModuleDestroy] leave the consumer map and the producer map as
    they found them, whatever their arguments and however they end, and
    only add calls to the log. *)
Theorem registry_is_read_only_after_init
  (name : QueueName) (payload : Payload) (receiptHandle : string)
  (visibilityTimeout : Z) (messages : list SqsMessage) :
  read_only (purgeQueue name) /\
  read_only (getQueueAttributes name) /\
  read_only (getProducerQueueSize name) /\
  read_only (send name payload) /\
  read_only (changeMessageVisibility name receiptHandle visibilityTimeout) /\
  read_only (deleteMessage name receiptHandle) /\
  read_only (deleteMessageBatch name messages) /\
  read_only onModuleDestroy.
Proof.
  repeat match goal with |- read_only _ /\ _ => split end.
  - apply ro_purgeQueue.
  - apply ro_getQueueAttributes.
  - apply ro_getProducerQueueSize.
  - apply ro_send.
  - apply ro_on_consumer.
  - apply ro_on_consumer.
  - apply ro_on_consumer.
  - apply ro_onModuleDestroy.
Qed.

Lemma on_consumer_sends (name : QueueName) (command : string -> Command)
  (s : SqsService) (v : SqsConsumerMapValues) (sqs : SQSClient) :
  Map_get name (consumers s) = Some v ->
  Consumer_sqs (instance v) = Some sqs ->
  on_consumer name command s =
  (logged (sqs_send_call sqs (command (Consumer_queueUrl (instance v)))) s,
   SQSClient_send sqs (command (Consumer_queueUrl (instance v)))).
Proof.
  intros Hget Hsqs.
  assert (Hh : Map_has name (consumers s) = true)
    by (unfold Map_has; now rewrite Hget).
  unfold on_consumer, mbind, gets. rewrite Hh. simpl.
  unfold consumer_or_producer. rewrite Hget, Hsqs.
  unfold sqs_send, call, modify, mbind, lift. reflexivity.
Qed.

Lemma on_consumer_without_client (name : QueueName)
  (command : string -> Command) (s : SqsService) (v : SqsConsumerMapValues) :
  Map_get name (consumers s) = Some v ->
  Consumer_sqs (instance v) = None ->
  exists message, on_consumer name command s = (s, Throw (TypeError message)).
Proof.
  intros Hget Hsqs.
  assert (Hh : Map_has name (consumers s) = true)
    by (unfold Map_has; now rewrite Hget).
  unfold on_consumer, mbind, gets. rewrite Hh. simpl.
  unfold consumer_or_producer. rewrite Hget, Hsqs.
  eexists. unfold throw. reflexivity.
Qed.

(** X11.  For a name of the consumer map, [changeMessageVisibility],
    [deleteMessage] and [deleteMessageBatch] send one command, built on
    the queue address of the consumer's poller, to the client of that
    poller, and return what the client answers, an exception included:
    the producer stored under the same name, if any, is never used.
    The batch command holds one entry per message, in order, made of
    its id and receipt handle.  When the poller exposes no client they
    throw a [TypeError] and send nothing. *)
Theorem message_operations_use_the_consumer
  (name : QueueName) (s : SqsService) (v : SqsConsumerMapValues)
  (receiptHandle : string) (visibilityTimeout : Z)
  (messages : list SqsMessage) :
  Map_get name (consumers s) = Some v ->
  let url := Consumer_queueUrl (instance v) in
  let change :=
    ChangeMessageVisibilityCommand url receiptHandle visibilityTimeout in
  let delete := DeleteMessageCommand url receiptHandle in
  let delete_batch :=
    DeleteMessageBatchCommand url
      (map (fun m => (MessageId m, ReceiptHandle m)) messages) in
  (forall sqs,
     Consumer_sqs (instance v) = Some sqs ->
     changeMessageVisibility name receiptHandle visibilityTimeout s =
       (logged (sqs_send_call sqs change) s, SQSClient_send sqs change) /\
     deleteMessage name receiptHandle s =
       (logged (sqs_send_call sqs delete) s, SQSClient_send sqs delete) /\
     deleteMessageBatch name messages s =
       (logged (sqs_send_call sqs delete_batch) s,
        SQSClient_send sqs delete_batch)) /\
  (Consumer_sqs (instance v) = None ->
   (exists message,
      changeMessageVisibility name receiptHandle visibilityTimeout s =
      (s, Throw (TypeError message))) /\
   (exists message,
      deleteMessage name receiptHandle s = (s, Throw (TypeError message))) /\
   (exists message,
      deleteMessageBatch name messages s = (s, Throw (TypeError message)))).
Proof.
  intros Hget url change delete delete_batch. split.
  - intros sqs Hsqs.
    unfold changeMessageVisibility, deleteMessage, deleteMessageBatch.
    rewrite !(on_consumer_sends name _ s v sqs Hget Hsqs). auto.
  - intros Hsqs.
    unfold changeMessageVisibility, deleteMessage, deleteMessageBatch.
    repeat split; now apply (on_consumer_without_client name _ s v).
Qed.

Lemma getQueueInfo_pure (name : QueueName) (s : SqsService) :
  fst (getQueueInfo name s) = s.
Proof.
  unfold getQueueInfo, mbind, gets.
  destruct (negb (Map_has name (consumers s) || Map_has name (producers s)));
    [reflexivity|].
  now destruct (consumer_or_producer name s) as [[[sqs|] url]|].
Qed.

(** X12.  [getQueueInfo] touches neither the maps nor the log.  When it
    returns a client and a queue address, [purgeQueue] sends that
    client one purge command for that address and returns its answer,
    and [getQueueAttributes] sends it one command asking for the
    attribute set "All" of that address and returns the [Attributes]
    property of the answer; an exception of the client is thrown on
    unchanged.  When [getQueueInfo] throws, both throw the same
    exception and send nothing. *)
Theorem purge_and_attributes_follow_resolution
  (name : QueueName) (s : SqsService) :
  fst (getQueueInfo name s) = s /\
  match snd (getQueueInfo name s) with
  | Normal (sqs, url) =>
      purgeQueue name s =
        (logged (sqs_send_call sqs (PurgeQueueCommand url)) s,
         SQSClient_send sqs (PurgeQueueCommand url)) /\
      getQueueAttributes name s =
        (logged (sqs_send_call sqs (GetQueueAttributesCommand url ["All"])) s,
         match SQSClient_send sqs (GetQueueAttributesCommand url ["All"]) with
         | Normal response => member "Attributes" response
         | Throw e => Throw e
         end)
  | Throw e =>
      purgeQueue name s = (s, Throw e) /\
      getQueueAttributes name s = (s, Throw e)
  end.
Proof.
  split; [apply getQueueInfo_pure|].
  pose proof (getQueueInfo_pure name s) as Hpure.
  unfold purgeQueue, getQueueAttributes, mbind.
  destruct (getQueueInfo name s) as [s0 [[sqs url]|e]]; simpl in *; subst s0.
  - unfold sqs_send, call, modify, mbind, lift. simpl. split; [reflexivity|].
    now destruct (SQSClient_send sqs (GetQueueAttributesCommand url ["All"])).
  - split; reflexivity.
Qed.
End AfterInit.

(* ================================================================== *)
(** ** Messages on their way out, and a second shutdown *)

Section Outbound.
Context {E : Externals} {B : Behaviour}.

Lemma obj_get_absent (k : string) (o : JsObject) :
  obj_has k o = false -> obj_get k o = JUndefined.
Proof.
  induction o as [|[k' v'] o IH]; simpl; [reflexivity|].
  destruct (k' =? k); [discriminate | exact IH].
Qed.

Lemma obj_set_same (k : string) (o : JsObject) :
  obj_has k o = true -> obj_set k (obj_get k o) o = o.
Proof.
  induction o as [|[k' v'] o IH]; simpl; [discriminate|].
  destruct (k' =? k); [reflexivity|].
  intros Hhas. now rewrite (IH Hhas).
Qed.

Lemma obj_set_present (k : string) (v : JsValue) (o : JsObject) :
  obj_has k o = true -> map fst (obj_set k v o) = map fst o.
Proof.
  induction o as [|[k' v'] o IH]; simpl; [discriminate|].
  destruct (k' =? k); [reflexivity|].
  intros Hhas. simpl. now rewrite (IH Hhas).
Qed.

Lemma obj_set_absent (k : string) (v : JsValue) (o : JsObject) :
  obj_has k o = false -> obj_set k v o = o ++ [(k, v)].
Proof.
  induction o as [|[k' v'] o IH]; simpl; [reflexivity|].
  destruct (k' =? k); [discriminate|].
  intros Hhas. now rewrite (IH Hhas).
Qed.

Lemma wire_message_string_body (message : JsObject) :
  typeof_string (obj_get "body" message) = true ->
  wire_message message = message.
Proof.
  intros Hstr. unfold wire_message. rewrite Hstr. simpl.
  apply obj_set_same.
  destruct (obj_has "body" message) eqn:Hhas; [reflexivity|].
  rewrite (obj_get_absent _ _ Hhas) in Hstr. discriminate.
Qed.

(** X13.  Messages whose bodies are all strings reach the producer
    exactly as they were passed to [send]: the same objects, in the
    same order, with no property added, dropped or moved. *)
Theorem send_passes_string_bodies_through
  (name : QueueName) (payload : Payload) (s : SqsService)
  (producer : Producer) :
  Map_get name (producers s) = Some producer ->
  Forall (fun m => typeof_string (obj_get "body" m) = true)
    (originalMessages payload) ->
  send name payload s =
  (logged (producer_send_call producer (originalMessages payload)) s,
   Producer_send producer (originalMessages payload)).
Proof.
  intros Hget Hall.
  assert (Hh : Map_has name (producers s) = true)
    by (unfold Map_has; now rewrite Hget).
  assert (Hsame : map wire_message (originalMessages payload) =
                  originalMessages payload).
  { induction Hall as [|m l Hm _ IH]; simpl; [reflexivity|].
    now rewrite (wire_message_string_body _ Hm), IH. }
  unfold send, mbind, gets. rewrite Hh. simpl. rewrite Hget, Hsame.
  unfold call, modify, lift. reflexivity.
Qed.

(** X14.  The message [send] hands to the producer has the properties
    of the original under the same names and in the same order when the
    original has a [body]; when it has none, a [body] property holding
    [JSON.stringify(undefined)] is added after the others and nothing
    else changes. *)
Theorem dispatched_message_keeps_its_properties (message : JsObject) :
  (obj_has "body" message = true ->
   map fst (wire_message message) = map fst message) /\
  (obj_has "body" message = false ->
   wire_message message =
   message ++ [("body", JSON_stringify JUndefined)]).
Proof.
  unfold wire_message. split; intros Hhas.
  - now apply obj_set_present.
  - rewrite (obj_get_absent _ _ Hhas). simpl. now apply obj_set_absent.
Qed.

(** X15.  [onModuleDestroy] removes nothing from the consumer map and
    keeps no record of what it stopped: run a second time, it asks the
    same pollers to stop again, in the same order and with the same
    stop options. *)
Theorem onModuleDestroy_twice_stops_twice (s : SqsService) :
  Forall (fun v => Consumer_stop (instance v) (stopOptions v) = None)
    (Map_values (consumers s)) ->
  mbind onModuleDestroy (fun _ => onModuleDestroy) s =
  (with_calls
     (calls s ++
      map (fun v => stop_call (instance v) (stopOptions v))
        (Map_values (consumers s)) ++
      map (fun v => stop_call (instance v) (stopOptions v))
        (Map_values (consumers s))) s,
   Normal tt).
Proof.
  intros Hall. unfold mbind.
  rewrite onModuleDestroy_visited, (visited_all _ _ Hall). cbn [fst snd].
  rewrite onModuleDestroy_visited. cbn [consumers with_calls calls].
  rewrite (visited_all _ _ Hall). cbn [fst snd].
  unfold with_calls. cbn [consumers producers calls].
  now rewrite <- app_assoc.
Qed.
End Outbound.

(* ================================================================== *)
(** ** The further properties on the test double *)

(** [orders] is declared twice as a producer, around [invoices]: the
    second [orders] is rejected, with both consumers built and none
    started. *)
Lemma repeated_producer_is_fatal_witness :
  exists done p' rest,
    [orders_out; invoices_out; orders_out] = done ++ p' :: rest /\
    length done <= 2 /\
    snd (onModuleInit
           (td_options_with [orders; invoices]
              [orders_out; invoices_out; orders_out])
           td_discovery new_SqsService)
    = Throw (Error ("Producer already exists: " ++ p_name p')).
Proof.
  assert (Hnames : NoDup (map c_name
                            (filter (has_handler td_discovery)
                               (declared_consumers
                                  (td_options_with [orders; invoices]
                                     [orders_out; invoices_out; orders_out])))))
    by distinct_names.
  assert (Hpollers : Forall (fun o => rejection td_discovery o = None)
                       (declared_consumers
                          (td_options_with [orders; invoices]
                             [orders_out; invoices_out; orders_out])))
    by (repeat constructor).
  assert (Hsenders : Forall
                       (fun p =>
                          Producer_create_throws (p_producerOptions p) = None)
                       ([] ++ orders_out :: [invoices_out]))
    by (repeat constructor).
  destruct (repeated_producer_is_fatal
              (td_options_with [orders; invoices]
                 [orders_out; invoices_out; orders_out]) td_discovery
              [] [invoices_out] [] orders_out orders_out
              eq_refl eq_refl Hnames Hpollers Hsenders)
    as [done [p' [rest [Hl [Hlen [_ Hthrow]]]]]].
  exists done, p', rest. split; [exact Hl|]. split; [exact Hlen|].
  rewrite Hthrow. reflexivity.
Defined.

(** [orders], the handler-less [audit] and [invoices], with [orders]
    also a producer: the five conditions hold and [onModuleInit] ends
    normally. *)
Lemma onModuleInit_succeeds_iff_witness :
  exists s',
    onModuleInit (td_options [orders; audit; invoices]) td_discovery
      new_SqsService = (s', Normal tt).
Proof.
  apply (proj2 (onModuleInit_succeeds_iff
                  (td_options [orders; audit; invoices]) td_discovery)).
  split; [distinct_names|]. split; [distinct_names|].
  split; [repeat constructor|]. split; [repeat constructor|].
  cbv. repeat constructor.
Defined.

(** The log of that run, read off the declarations. *)
Lemma onModuleInit_result_witness :
  calls (initialised [orders; audit; invoices]) =
  map (declaration_call td_discovery) [orders; audit; invoices] ++
  map producer_call [orders_out] ++
  map (fun v => start_call (instance v))
    (Map_values
       (registered td_discovery {| abort := None |}
          [orders; audit; invoices])).
Proof.
  assert (Hinit : onModuleInit (td_options [orders; audit; invoices])
                    td_discovery new_SqsService
                  = (initialised [orders; audit; invoices], Normal tt))
    by reflexivity.
  exact (f_equal calls
           (onModuleInit_result (td_options [orders; audit; invoices])
              td_discovery _ Hinit)).
Defined.

(** [orders] declared with stop options of its own and then once more
    without: the run throws at the second declaration, and the entry is
    the one of the first, with its own stop options. *)
Lemma entry_is_built_from_first_declaration_witness :
  exists v,
    Map_get "orders" (consumers (initialised [aborting_orders; orders]))
      = Some v /\
    exists o,
      find (fun o => c_name o =? "orders") [aborting_orders; orders] = Some o /\
      stopOptions v =
        match c_stopOptions o with
        | Some own => own
        | None => {| abort := None |}
        end.
Proof.
  assert (Hinit : onModuleInit (td_options [aborting_orders; orders])
                    td_discovery new_SqsService
                  = (initialised [aborting_orders; orders],
                     Throw (Error "Consumer already exists: orders")))
    by reflexivity.
  eexists. split; [reflexivity|].
  destruct (entry_is_built_from_first_declaration
              (td_options [aborting_orders; orders]) td_discovery
              _ _ "orders" _ Hinit eq_refl)
    as [o [metadata [Hfind [_ [_ Hstop]]]]].
  exists o. split; [exact Hfind | exact Hstop].
Defined.

(** The poller of [orders] refuses to start: [onModuleInit] throws its
    exception, [invoices] is stored and not started. *)
Lemma failed_start_leaves_registry_built_witness :
  snd (onModuleInit (td_options [reluctant_orders; invoices]) td_discovery
         new_SqsService) = Throw (Error "start failed") /\
  Map_has "invoices"
    (consumers (initialised [reluctant_orders; invoices])) = true /\
  filter is_start_call (calls (initialised [reluctant_orders; invoices])) =
    [start_call
       {| createdWith :=
            {| settings := c_consumerOptions reluctant_orders;
               handleMessage :=
                 Some (Function_bind "OrdersService.handle" "ordersService");
               handleMessageBatch := None |};
          listeners :=
            [("error", Function_bind "Monitoring.onError" "ordersService")] |}].
Proof.
  split; [|split; reflexivity].
  erewrite (failed_start_leaves_registry_built
              (td_options [reluctant_orders; invoices]) td_discovery
              [] _ _ (Error "start failed")).
  - reflexivity.
  - distinct_names.
  - distinct_names.
  - repeat constructor.
  - repeat constructor.
  - reflexivity.
  - constructor.
  - reflexivity.
Defined.

(** A second [onModuleInit] after a normal first one: it warns about
    [audit] and throws at [orders]. *)
Lemma onModuleInit_twice_is_rejected_witness :
  exists n ws,
    Map_has n (consumers (initialised [audit; orders])) = true /\
    onModuleInit (td_options [audit; orders]) td_discovery
      (initialised [audit; orders]) =
    (with_calls
       (calls (initialised [audit; orders]) ++ map logger_warn_call ws)
       (initialised [audit; orders]),
     Throw (Error ("Consumer already exists: " ++ n))).
Proof.
  assert (Hinit : onModuleInit (td_options [audit; orders])
                    td_discovery new_SqsService
                  = (initialised [audit; orders], Normal tt))
    by reflexivity.
  assert (Hin : In orders (declared_consumers (td_options [audit; orders])))
    by (simpl; auto).
  assert (Hh : has_handler td_discovery orders = true) by reflexivity.
  exact (onModuleInit_twice_is_rejected
           (td_options [audit; orders]) td_discovery _ orders Hinit Hin Hh).
Defined.

(** Two pollers started, the first of which refuses to stop: one stop,
    on the first of the two pollers started. *)
Lemma stops_follow_starts_witness :
  filter is_start_call
    (calls (fst (onModuleDestroy (initialised [stubborn_orders; invoices])))) =
    map (fun v => start_call (instance v))
      (Map_values (consumers (initialised [stubborn_orders; invoices]))) /\
  exists vs rest,
    Map_values (consumers (initialised [stubborn_orders; invoices]))
      = vs ++ rest /\
    filter is_stop_call
      (calls (fst (onModuleDestroy (initialised [stubborn_orders; invoices])))) =
      map (fun v => stop_call (instance v) (stopOptions v)) vs.
Proof.
  assert (Hinit : onModuleInit (td_options [stubborn_orders; invoices])
                    td_discovery new_SqsService
                  = (initialised [stubborn_orders; invoices], Normal tt))
    by reflexivity.
  destruct (stops_follow_starts
              (td_options [stubborn_orders; invoices]) td_discovery _ Hinit)
    as [Hstarts [vs [rest [Hvs [Hstops _]]]]].
  split; [exact Hstarts|]. exists vs, rest. split; [exact Hvs | exact Hstops].
Defined.

(** [orders] in both roles: the deletion goes to the consumer's client
    [client-a], with the consumer's queue address. *)
Lemma message_operations_use_the_consumer_witness :
  Map_get "orders" (producers orders_in_both_roles) = Some orders_sender /\
  Producer_sqs orders_sender = Some "client-b" /\
  deleteMessage "orders" "receipt" orders_in_both_roles =
  (logged
     (sqs_send_call "client-a"
        (DeleteMessageCommand "https://sqs/orders" "receipt"))
     orders_in_both_roles,
   SQSClient_send "client-a"
     (DeleteMessageCommand "https://sqs/orders" "receipt")).
Proof.
  split; [reflexivity|]. split; [reflexivity|].
  assert (Hget : Map_get "orders" (consumers orders_in_both_roles) =
                 Some {| instance := orders_poller;
                         stopOptions := {| abort := None |} |})
    by reflexivity.
  assert (Hsqs : Consumer_sqs orders_poller = Some "client-a") by reflexivity.
  exact (proj1 (proj2 (proj1 (message_operations_use_the_consumer
                                "orders" orders_in_both_roles _
                                "receipt" 30 [] Hget)
                         "client-a" Hsqs))).
Defined.

(** A string-bodied message reaches the producer [orders] as it is. *)
Lemma send_passes_string_bodies_through_witness :
  send "orders" (one_message string_message) one_role_each =
  (logged (producer_send_call orders_sender [string_message]) one_role_each,
   Producer_send orders_sender [string_message]).
Proof.
  assert (Hget : Map_get "orders" (producers one_role_each) = Some orders_sender)
    by reflexivity.
  apply (send_passes_string_bodies_through "orders"
           (one_message string_message) one_role_each orders_sender Hget).
  repeat constructor.
Defined.

(** A message with a body keeps its property names; a message without
    one gains a last property [body], here [undefined]. *)
Lemma dispatched_message_keeps_its_properties_witness :
  map fst (wire_message structured_message) = ["id"; "body"] /\
  wire_message [("id", JString "3")] =
    [("id", JString "3"); ("body", JUndefined)].
Proof.
  split.
  - apply (proj1 (dispatched_message_keeps_its_properties structured_message)).
    reflexivity.
  - assert (Hno : obj_has "body" [("id", JString "3")] = false) by reflexivity.
    rewrite (proj2 (dispatched_message_keeps_its_properties
                      [("id", JString "3")]) Hno).
    reflexivity.
Defined.

(** Two shutdowns of a service with two pollers: four [stop] calls. *)
Lemma onModuleDestroy_twice_stops_twice_witness :
  length
    (filter is_stop_call
       (calls (fst (mbind onModuleDestroy (fun _ => onModuleDestroy)
                      (initialised [orders; invoices]))))) = 4.
Proof.
  rewrite (onModuleDestroy_twice_stops_twice (initialised [orders; invoices])).
  - reflexivity.
  - repeat constructor.
Defined.
